(** * wifiman: a shallow embedding of wifi_manager.cpp / wifi_manager.h

    The development follows the source file top to bottom: the network
    registry ([WM_SharedData]), its persistence in the Preferences store,
    the two single-slot command mailboxes, the event handlers with the
    retry/backoff logic, the best-network selector and one cycle of the
    worker task.

    Conventions.
    - Machine integers are [Z]; every place where the C++ code converts to
      [uint8_t] or computes on [unsigned long] has its wrap-around written
      out ([mod 256], [mod 2^32]; [unsigned long] is 32 bits wide on the
      ESP32, which the mask [0x80000000] of [_time_now_or_passed] assumes).
      [(uint8_t)-1] is [255].
    - A C string ([char *]) is the [string] of its bytes before the terminator;
      one that may be [nullptr] is an [option string].
    - [data->networks] is an array of [capacity] pointers, each null or
      pointing to an entry: a [list (option WM_WifiNetwork)].
    - Dereferencing a null slot or indexing outside the array is undefined
      behaviour in the source, and a failed [assert] aborts; the embedding
      makes such a step return [None] (a fault), so every function that
      reads the array is in the [option] monad and the theorems show that
      well-formed registries never fault.
    - Event handlers and worker cycles are atomic steps: the model
      interleaves them but does not split them (the source relies on the
      two mailbox locks and on events being dispatched one at a time).
    - A pointer to [WM_SharedData] is modelled by the record it points to;
      the [data == nullptr] early returns of the API have no registry to
      talk about and are left out. *)

From Stdlib Require Import ZArith String Ascii Bool List Lia.
From Stdlib Require Import DecimalString DecimalN.
From stdpp Require Import base option list gmap strings.

Local Open Scope Z_scope.

(** ** Data model (wifi_manager.h) *)

(** [WM_NetworkWorkingState : int8_t].  The field is written from a raw
    [int8_t] by [wifiman_readFromEEPROM], so it is kept as a number. *)
Definition NETWORK_STATE_UNKNOWN : Z := -1.
Definition NETWORK_FAILED_BEFORE : Z := 0.
Definition NETWORK_WORKED_BEFORE : Z := 1.

Record WM_WifiNetwork := mkNetwork {
  ssid : string;
  pass : option string;
  state : Z
}.

Inductive WM_StatusCode :=
| WM_IDLE_STATUS
| CONNECTING
| CONNECTED
| DISCONNECTED
| NETWORK_NOT_FOUND
| CONNECTION_FAILED.

(** The anonymous union of [connectAttempts] and [disconnectReason] is one
    byte, here the field [attemptsOrReason]. *)
Record WM_Status := mkStatus {
  targetNetwork : Z;
  code : WM_StatusCode;
  attemptsOrReason : Z
}.

Record WM_SharedData := mkData {
  status : WM_Status;
  networks : list (option WM_WifiNetwork);
  capacity : Z;
  length : Z
}.

Inductive WM_ReturnCode :=
| WMRT_SIZE_MISMATCH
| WMRT_SCAN_NOT_READY
| WMRT_NETWORK_NOT_IN_LIST
| WMRT_NETWORK_LIST_FULL
| WMRT_SUCCESS
| WMRT_NETWORK_UPDATED.

Definition WM_SCAN_INTERVAL_DEFAULT_MS : Z := 30000.
Definition WM_RETRIES_DEFAULT : Z := 2.
Definition WM_SCAN_MAX_AGE_MS : Z := 60000.

Definition UINT8_MINUS_1 : Z := 255.

#[global] Instance WM_WifiNetwork_eq_dec : EqDecision WM_WifiNetwork.
Proof. solve_decision. Defined.
#[global] Instance WM_StatusCode_eq_dec : EqDecision WM_StatusCode.
Proof. solve_decision. Defined.
#[global] Instance WM_Status_eq_dec : EqDecision WM_Status.
Proof. solve_decision. Defined.
#[global] Instance WM_SharedData_eq_dec : EqDecision WM_SharedData.
Proof. solve_decision. Defined.
#[global] Instance WM_ReturnCode_eq_dec : EqDecision WM_ReturnCode.
Proof. solve_decision. Defined.

(** ** Array access *)

(** [nets[i]->...]: the entry behind slot [i]; [None] when the slot is null
    or outside the array. *)
Definition deref (nets : list (option WM_WifiNetwork)) (i : Z)
  : option WM_WifiNetwork :=
  if i <? 0 then None else mjoin (nets !! Z.to_nat i).

(** [nets[i] = p]: faults outside the array. *)
Definition store_slot (nets : list (option WM_WifiNetwork)) (i : Z)
    (p : option WM_WifiNetwork) : option (list (option WM_WifiNetwork)) :=
  if (0 <=? i) && (i <? Z.of_nat (List.length nets))
  then Some (<[Z.to_nat i := p]> nets) else None.

(** [memmove(nets + dst, nets + src, n * sizeof(nets[0]))]: the source
    range is read before anything is written. *)
Definition memmove_slots (nets : list (option WM_WifiNetwork)) (dst src n : Z)
  : option (list (option WM_WifiNetwork)) :=
  if (0 <=? dst) && (0 <=? src) && (0 <=? n)
     && (src + n <=? Z.of_nat (List.length nets))
     && (dst + n <=? Z.of_nat (List.length nets))
  then Some (take (Z.to_nat dst) nets
             ++ take (Z.to_nat n) (drop (Z.to_nat src) nets)
             ++ drop (Z.to_nat (dst + n)) nets)
  else None.

Definition set_networks (d : WM_SharedData) nets : WM_SharedData :=
  mkData (status d) nets (capacity d) (length d).
Definition set_status (d : WM_SharedData) st : WM_SharedData :=
  mkData st (networks d) (capacity d) (length d).

(** ** Registry *)

(** The search loop shared by [wifiman_addOrUpdateNetwork] and
    [wifiman_findNetworkInList] (the C-string overload):
    [for (i = ...; i < length; ++i) if (strcmp(networks[i]->ssid, s) == 0) ...].
    [n] is the number of iterations left, [i] the loop variable; the result
    is the index of the first match, if any. *)
Fixpoint first_match (nets : list (option WM_WifiNetwork)) (s : string)
    (i : Z) (n : nat) : option (option Z) :=
  match n with
  | O => Some None
  | S n' =>
      e ← deref nets i;
      if String.eqb (ssid e) s then Some (Some i)
      else first_match nets s (i + 1) n'
  end.

(** wifi_manager.cpp:293 *)
Definition wifiman_addOrUpdateNetwork (data : WM_SharedData)
    (ssid_arg pass_arg : option string)
  : option (Z * option bool * WM_SharedData) :=
  match ssid_arg with
  | None => Some (UINT8_MINUS_1, None, data)
  | Some s =>
      r ← first_match (networks data) s 0 (Z.to_nat (length data));
      match r with
      | Some i =>
          e ← deref (networks data) i;
          nets ← store_slot (networks data) i
                   (Some (mkNetwork (ssid e) pass_arg NETWORK_STATE_UNKNOWN));
          Some (i, Some true, set_networks data nets)
      | None =>
          if length data =? capacity data then Some (UINT8_MINUS_1, None, data)
          else
            nets ← store_slot (networks data) (length data)
                     (Some (mkNetwork s pass_arg NETWORK_STATE_UNKNOWN));
            let len' := (length data + 1) mod 256 in
            Some ((len' - 1) mod 256, Some false,
                  mkData (status data) nets (capacity data) len')
      end
  end.

(** wifi_manager.cpp:356 *)
Definition wifiman_findNetworkInList (data : WM_SharedData)
    (ssid_arg : option string) : option Z :=
  match ssid_arg with
  | None => Some UINT8_MINUS_1
  | Some s =>
      if String.eqb s "" then Some UINT8_MINUS_1
      else
        r ← first_match (networks data) s 0 (Z.to_nat (length data));
        Some (default UINT8_MINUS_1 r)
  end.

(** wifi_manager.cpp:335 *)
Definition wifiman_deleteNetwork (data : WM_SharedData) (index : Z)
  : option (Z * WM_SharedData) :=
  if index >=? length data then Some (UINT8_MINUS_1, data)
  else
    p ← networks data !! Z.to_nat index;
    match p with
    | None => Some (UINT8_MINUS_1, data)
    | Some _ =>
        nets1 ← memmove_slots (networks data) index (index + 1)
                  (length data - index - 1);
        let len' := (length data - 1) mod 256 in
        nets2 ← store_slot nets1 len' None;
        let st := status data in
        let tn :=
          if targetNetwork st =? index then UINT8_MINUS_1
          else if (targetNetwork st >? index)
                  && negb (targetNetwork st =? UINT8_MINUS_1)
               then (targetNetwork st - 1) mod 256
               else targetNetwork st in
        Some (index,
              mkData (mkStatus tn (code st) (attemptsOrReason st))
                     nets2 (capacity data) len')
    end.

(** wifi_manager.cpp:330 *)
Definition wifiman_deleteNetworkByName (data : WM_SharedData)
    (ssid_arg : option string) : option (Z * WM_SharedData) :=
  index ← wifiman_findNetworkInList data ssid_arg;
  wifiman_deleteNetwork data index.

(** wifi_manager.cpp:372, the overload taking a byte buffer and its
    length.  [bytes] holds the [ssidLen] bytes of the buffer, which may
    contain zero bytes.  A registry entry passes the two tests of the loop
    ([ssidLen == strlen(entry)] and [memcmp] over [ssidLen] bytes) exactly
    when its C string has these bytes. *)
Fixpoint first_match_len (nets : list (option WM_WifiNetwork)) (bytes : string)
    (i : Z) (n : nat) : option (option Z) :=
  match n with
  | O => Some None
  | S n' =>
      e ← deref nets i;
      if negb (Nat.eqb (String.length bytes) (String.length (ssid e)))
      then first_match_len nets bytes (i + 1) n'
      else if negb (String.eqb (ssid e) bytes)
      then first_match_len nets bytes (i + 1) n'
      else Some (Some i)
  end.

Definition wifiman_findNetworkInList_len (data : WM_SharedData)
    (bytes : string) : option Z :=
  match bytes with
  | EmptyString => Some UINT8_MINUS_1
  | String c _ =>
      if Ascii.eqb c zero then Some UINT8_MINUS_1
      else
        r ← first_match_len (networks data) bytes 0 (Z.to_nat (length data));
        Some (default UINT8_MINUS_1 r)
  end.

(** wifi_manager.cpp:390 *)
Fixpoint count_usable (nets : list (option WM_WifiNetwork)) (i : Z) (n : nat)
    (count : Z) : option Z :=
  match n with
  | O => Some count
  | S n' =>
      e ← deref nets i;
      count_usable nets (i + 1) n'
        (if negb (state e =? 0) then (count + 1) mod 256 else count)
  end.

Definition wifiman_countUsableNetworks (data : WM_SharedData) : option Z :=
  if length data =? 0 then Some 0
  else count_usable (networks data) 0 (Z.to_nat (length data)) 0.

(** ** Persistence (Preferences) *)

(** The Preferences namespace: typed values under string keys. *)
Inductive PrefValue :=
| PStr (s : string)
| PChar (c : Z).

Definition isKey (pref : gmap string PrefValue) (key : string) : bool :=
  bool_decide (is_Some (pref !! key)).
Definition getString (pref : gmap string PrefValue) (key def : string)
  : string :=
  match pref !! key with Some (PStr s) => s | _ => def end.
Definition getChar (pref : gmap string PrefValue) (key : string) (def : Z)
  : Z :=
  match pref !! key with Some (PChar c) => c | _ => def end.
Definition putString (pref : gmap string PrefValue) (key value : string)
  : gmap string PrefValue := <[key := PStr value]> pref.
Definition putChar (pref : gmap string PrefValue) (key : string) (value : Z)
  : gmap string PrefValue := <[key := PChar value]> pref.
Definition remove (pref : gmap string PrefValue) (key : string)
  : gmap string PrefValue := delete key pref.

(** [snprintf(key, 16, "ssid%d", i)] and its siblings; [i] is a slot index
    (below the capacity, at most three digits), so nothing is cut off. *)
Definition format_key (prefix : string) (i : Z) : string :=
  (prefix ++ NilEmpty.string_of_uint (N.to_uint (Z.to_N i)))%string.
Definition WM_PREFERENCES_KEY_SSID : Z -> string := format_key "ssid".
Definition WM_PREFERENCES_KEY_PASS : Z -> string := format_key "pass".
Definition WM_PREFERENCES_KEY_STATE : Z -> string := format_key "stat".

(** Number of iterations of
    [for (int i = startIndex; i < startIndex + count && i < capacity; ++i)]
    when the body does not break. *)
Definition range_iterations (startIndex count cap : Z) : nat :=
  Z.to_nat (Z.min (startIndex + count) cap - startIndex).

(** wifi_manager.cpp:194.  A freshly allocated entry has all three fields
    assigned before the iteration ends, so both branches finish by storing
    the entry read from the store in slot [i]. *)
Fixpoint read_loop (pref : gmap string PrefValue) (n : nat) (i : Z)
    (data : WM_SharedData) (entriesRead : Z) : option (Z * WM_SharedData) :=
  match n with
  | O => Some (entriesRead, data)
  | S n' =>
      if negb (isKey pref (WM_PREFERENCES_KEY_SSID i))
      then Some (entriesRead, data)
      else
        data1 ←
          (if i <? length data
           then _ ← deref (networks data) i; Some data
           else Some (mkData (status data) (networks data) (capacity data)
                             ((length data + 1) mod 256)));
        let valueSSID := getString pref (WM_PREFERENCES_KEY_SSID i) "" in
        let valuePass := getString pref (WM_PREFERENCES_KEY_PASS i) "" in
        let entry :=
          mkNetwork valueSSID
            (if negb (String.eqb valuePass "") then Some valuePass else None)
            (getChar pref (WM_PREFERENCES_KEY_STATE i) 0) in
        nets ← store_slot (networks data1) i (Some entry);
        read_loop pref n' (i + 1) (set_networks data1 nets)
                  ((entriesRead + 1) mod 256)
  end.

Definition wifiman_readFromEEPROM (pref : gmap string PrefValue)
    (data : WM_SharedData) (startIndex count : Z)
  : option (Z * WM_SharedData) :=
  read_loop pref (range_iterations startIndex count (capacity data))
            startIndex data 0.

(** wifi_manager.cpp:251 *)
Fixpoint save_loop (data : WM_SharedData) (n : nat) (i : Z)
    (pref : gmap string PrefValue) : option (gmap string PrefValue) :=
  match n with
  | O => Some pref
  | S n' =>
      let keySSID := WM_PREFERENCES_KEY_SSID i in
      let keyPass := WM_PREFERENCES_KEY_PASS i in
      let keyState := WM_PREFERENCES_KEY_STATE i in
      if i <? length data then
        e ← deref (networks data) i;
        let pref1 := putString pref keySSID (ssid e) in
        let pref2 :=
          match pass e with
          | Some p => putString pref1 keyPass p
          | None => pref1
          end in
        save_loop data n' (i + 1) (putChar pref2 keyState (state e))
      else if negb (isKey pref keySSID) then Some pref
      else save_loop data n' (i + 1)
             (remove (remove (remove pref keySSID) keyPass) keyState)
  end.

Definition wifiman_saveToEEPROM (pref : gmap string PrefValue)
    (data : WM_SharedData) (startIndex count : Z)
  : option (gmap string PrefValue) :=
  if count =? 0 then Some pref
  else
    let count' :=
      if count =? UINT8_MINUS_1 then (capacity data - startIndex) mod 256
      else count in
    save_loop data (range_iterations startIndex count' (capacity data))
              startIndex pref.

(** ** Command mailboxes and process-wide state *)

(** [struct _WM_WifiConnect].  The [lock] member only brackets the field
    accesses below: every locked region is one atomic step of the model. *)
Record _WM_WifiConnect := mkConnect {
  execTime : Z;
  networkIndex : Z;
  issuedByUser : bool;
  handled : bool
}.

(** [struct _WM_WifiScan]; its members carry a [scan_] prefix because a
    projection name is global. *)
Record _WM_WifiScan := mkScan {
  scan_execTime : Z;
  scan_handled : bool
}.

(** The default member initialisers of the two structs. *)
Definition _WM_WifiConnect_default : _WM_WifiConnect := mkConnect 0 0 true true.
Definition _WM_WifiScan_default : _WM_WifiScan := mkScan 0 true.

#[global] Instance _WM_WifiConnect_eq_dec : EqDecision _WM_WifiConnect.
Proof. solve_decision. Defined.
#[global] Instance _WM_WifiScan_eq_dec : EqDecision _WM_WifiScan.
Proof. solve_decision. Defined.

(** The file-scope variables.  [_wifiman_data] is the registry the manager
    was started with; the API functions that take a [data] argument are
    modelled on this registry (the caller passes the pointer it gave to
    [wifiman_start]).  [_wifiman_statusCallback] records whether a callback
    is registered; what the callback is called with is appended to
    [callbackLog], latest call first (the callback is user code; it is
    assumed not to call back into the manager).  [workerNotification] is
    the notification value of the worker task. *)
Record Manager := mkManager {
  _wifiman_data : WM_SharedData;
  _wifiman_autoConnect : bool;
  _wifiman_scanInterval : Z;
  _wifiman_statusCallback : bool;
  _wifiman_maxRetries : Z;
  _wifiman_scanTime : Z;
  _wifiman_retryCount : Z;
  nextConnect : _WM_WifiConnect;
  nextScan : _WM_WifiScan;
  workerNotification : Z;
  callbackLog : list WM_Status
}.

Definition with_data (m : Manager) (d : WM_SharedData) : Manager :=
  mkManager d (_wifiman_autoConnect m) (_wifiman_scanInterval m)
    (_wifiman_statusCallback m) (_wifiman_maxRetries m) (_wifiman_scanTime m)
    (_wifiman_retryCount m) (nextConnect m) (nextScan m)
    (workerNotification m) (callbackLog m).
Definition with_scanTime (m : Manager) (t : Z) : Manager :=
  mkManager (_wifiman_data m) (_wifiman_autoConnect m)
    (_wifiman_scanInterval m) (_wifiman_statusCallback m)
    (_wifiman_maxRetries m) t (_wifiman_retryCount m) (nextConnect m)
    (nextScan m) (workerNotification m) (callbackLog m).
Definition with_retryCount (m : Manager) (c : Z) : Manager :=
  mkManager (_wifiman_data m) (_wifiman_autoConnect m)
    (_wifiman_scanInterval m) (_wifiman_statusCallback m)
    (_wifiman_maxRetries m) (_wifiman_scanTime m) c (nextConnect m)
    (nextScan m) (workerNotification m) (callbackLog m).
Definition with_nextConnect (m : Manager) (c : _WM_WifiConnect) : Manager :=
  mkManager (_wifiman_data m) (_wifiman_autoConnect m)
    (_wifiman_scanInterval m) (_wifiman_statusCallback m)
    (_wifiman_maxRetries m) (_wifiman_scanTime m) (_wifiman_retryCount m) c
    (nextScan m) (workerNotification m) (callbackLog m).
Definition with_nextScan (m : Manager) (c : _WM_WifiScan) : Manager :=
  mkManager (_wifiman_data m) (_wifiman_autoConnect m)
    (_wifiman_scanInterval m) (_wifiman_statusCallback m)
    (_wifiman_maxRetries m) (_wifiman_scanTime m) (_wifiman_retryCount m)
    (nextConnect m) c (workerNotification m) (callbackLog m).
Definition with_workerNotification (m : Manager) (v : Z) : Manager :=
  mkManager (_wifiman_data m) (_wifiman_autoConnect m)
    (_wifiman_scanInterval m) (_wifiman_statusCallback m)
    (_wifiman_maxRetries m) (_wifiman_scanTime m) (_wifiman_retryCount m)
    (nextConnect m) (nextScan m) v (callbackLog m).
Definition with_callbackLog (m : Manager) (l : list WM_Status) : Manager :=
  mkManager (_wifiman_data m) (_wifiman_autoConnect m)
    (_wifiman_scanInterval m) (_wifiman_statusCallback m)
    (_wifiman_maxRetries m) (_wifiman_scanTime m) (_wifiman_retryCount m)
    (nextConnect m) (nextScan m) (workerNotification m) l.

Definition with_status (m : Manager) (st : WM_Status) : Manager :=
  with_data m (set_status (_wifiman_data m) st).

(** What a handler observes of the platform while it runs: the clock
    [millis()] (a handler is taken to run within one tick), whether
    [WiFi.status()] is [WL_CONNECTED], and the scan state behind
    [WiFi.scanComplete()], [WiFi.SSID(i)] and [WiFi.RSSI(i)]. *)
Inductive ScanState :=
| ScanNotStarted
| ScanRunning
| ScanDone (results : list (string * Z)).

Record Radio := mkRadio {
  millis : Z;
  wl_connected : bool;
  scanState : ScanState
}.

Definition scanComplete (r : Radio) : Z :=
  match scanState r with
  | ScanNotStarted => -2
  | ScanRunning => -1
  | ScanDone results => Z.of_nat (List.length results)
  end.

Definition scanResults (r : Radio) : list (string * Z) :=
  match scanState r with
  | ScanDone results => results
  | _ => []
  end.

(** [if (_wifiman_statusCallback != nullptr) _wifiman_statusCallback(&data->status);] *)
Definition call_statusCallback (m : Manager) : Manager :=
  if _wifiman_statusCallback m
  then with_callbackLog m (status (_wifiman_data m) :: callbackLog m)
  else m.

(** wifi_manager.cpp:710 and 716: [xTaskNotify(..., eSetValueWithOverwrite)] *)
Definition _wifiman_scanResume (m : Manager) : Manager :=
  with_workerNotification m 1.
Definition _wifiman_scanPause (m : Manager) : Manager :=
  with_workerNotification m 0.

(** wifi_manager.cpp:722 *)
Definition _wifiman_doScan (r : Radio) (delay : Z) (m : Manager) : Manager :=
  with_nextScan m (mkScan ((millis r + delay) mod 2 ^ 32) false).

(** wifi_manager.cpp:734 *)
Definition _wifiman_connect (r : Radio) (index : Z) (byUser : bool)
    (delay : Z) (m : Manager) : Manager :=
  with_nextConnect m
    (mkConnect ((millis r + delay) mod 2 ^ 32) index byUser false).

(** ** Connection requests *)

(** wifi_manager.cpp:409; a failed [assert] aborts the program and is a
    fault of the model. *)
Definition wifiman_connectToNetwork (r : Radio) (index : Z) (m : Manager)
  : option (WM_ReturnCode * Manager) :=
  if negb (index <? length (_wifiman_data m)) then None
  else
    _ ← deref (networks (_wifiman_data m)) index;
    let m1 := _wifiman_connect r index true 0 m in
    let m2 := with_retryCount m1 0 in
    let m3 := with_status m2
                (mkStatus index CONNECTING
                   (attemptsOrReason (status (_wifiman_data m2)))) in
    Some (WMRT_SUCCESS, call_statusCallback m3).

Definition INT_MIN : Z := - 2 ^ 31.

(** The selection loop of [wifiman_connectToBestWifi], over the scan
    results in scan order, carrying [bestRSSI] and [bestIndex]. *)
Fixpoint select_best (data : WM_SharedData) (results : list (string * Z))
    (bestRSSI bestIndex : Z) : option (Z * Z) :=
  match results with
  | [] => Some (bestRSSI, bestIndex)
  | (scan_ssid, rssi) :: rest =>
      result ← wifiman_findNetworkInList data (Some scan_ssid);
      skip ←
        (if result >=? length data then Some true
         else e ← deref (networks data) result;
              Some (state e =? NETWORK_FAILED_BEFORE));
      if (skip : bool) then select_best data rest bestRSSI bestIndex
      else if rssi >? bestRSSI then select_best data rest rssi result
      else select_best data rest bestRSSI bestIndex
  end.

(** The loop resetting every failed entry (wifi_manager.cpp:479). *)
Fixpoint reset_failed (nets : list (option WM_WifiNetwork)) (i : Z) (n : nat)
  : option (list (option WM_WifiNetwork)) :=
  match n with
  | O => Some nets
  | S n' =>
      e ← deref nets i;
      nets' ←
        (if state e =? NETWORK_FAILED_BEFORE
         then store_slot nets i
                (Some (mkNetwork (ssid e) (pass e) NETWORK_STATE_UNKNOWN))
         else Some nets);
      reset_failed nets' (i + 1) n'
  end.

(** wifi_manager.cpp:427 *)
Definition wifiman_connectToBestWifi (r : Radio) (m : Manager)
  : option (WM_ReturnCode * Manager) :=
  let data := _wifiman_data m in
  if length data =? 0 then Some (WMRT_NETWORK_NOT_IN_LIST, m)
  else if (millis r - _wifiman_scanTime m) mod 2 ^ 32 >? WM_SCAN_MAX_AGE_MS
  then Some (WMRT_SCAN_NOT_READY,
             with_scanTime (_wifiman_doScan r 0 m) (millis r))
  else
    let scanResult := scanComplete r in
    if scanResult =? -2 then Some (WMRT_SCAN_NOT_READY, _wifiman_doScan r 0 m)
    else if scanResult =? -1 then Some (WMRT_SCAN_NOT_READY, m)
    else if scanResult =? 0 then Some (WMRT_NETWORK_NOT_IN_LIST, m)
    else
      '(_, bestIndex) ← select_best data (scanResults r) INT_MIN (-1);
      if bestIndex =? -1 then
        nets ← reset_failed (networks data) 0 (Z.to_nat (length data));
        Some (WMRT_NETWORK_NOT_IN_LIST, with_data m (set_networks data nets))
      else
        _ ← deref (networks data) bestIndex;
        let m1 := _wifiman_connect r bestIndex true 0 m in
        let m2 := with_retryCount m1 0 in
        let m3 := with_status m2
                    (mkStatus bestIndex CONNECTING
                       (attemptsOrReason (status (_wifiman_data m2)))) in
        Some (WMRT_SUCCESS, call_statusCallback m3).

(** ** Event handlers *)

(** wifi_manager.cpp:593 *)
Definition _wifiman_checkConnection (r : Radio) (m : Manager)
  : option Manager :=
  if wl_connected r then Some m
  else
    usable ← wifiman_countUsableNetworks (_wifiman_data m);
    if usable =? 0 then Some m
    else
      '(rc, m1) ← wifiman_connectToBestWifi r m;
      if bool_decide (rc = WMRT_NETWORK_NOT_IN_LIST)
      then Some (_wifiman_scanResume m1)
      else Some (_wifiman_scanPause m1).

(** [networks[index]->state = s] *)
Definition set_state (data : WM_SharedData) (index s : Z)
  : option WM_SharedData :=
  e ← deref (networks data) index;
  nets ← store_slot (networks data) index
           (Some (mkNetwork (ssid e) (pass e) s));
  Some (set_networks data nets).

(** wifi_manager.cpp:619.  [ev_ssid] holds the [ssid_len] bytes of the
    event's SSID buffer. *)
Definition _wifiman_wifiConnectedEvent (ev_ssid : string) (m : Manager)
  : option Manager :=
  index ← wifiman_findNetworkInList_len (_wifiman_data m) ev_ssid;
  let m1 := with_status m
              (mkStatus index CONNECTED ((_wifiman_retryCount m + 1) mod 256)) in
  let m2 := call_statusCallback m1 in
  if index >=? length (_wifiman_data m2) then Some m2
  else
    let m3 := with_retryCount m2 0 in
    data ← set_state (_wifiman_data m3) index NETWORK_WORKED_BEFORE;
    let m4 := with_data m3 data in
    if _wifiman_autoConnect m4 then Some (_wifiman_scanPause m4) else Some m4.

(** Disconnect reasons of the platform header esp_wifi_types.h
    ([wifi_err_reason_t]); the header belongs to the ESP-IDF SDK, not to
    this repository.  Only the three codes the handler tells apart from
    the default case are needed. *)
Definition WIFI_REASON_AUTH_LEAVE : Z := 3.
Definition WIFI_REASON_ASSOC_LEAVE : Z := 8.
Definition WIFI_REASON_NO_AP_FOUND : Z := 201.

(** The delay of the automatic retry:
    [_wifiman_retryCount >= 3 ? 8000 : 1000 * (1 << _wifiman_retryCount)] *)
Definition retry_delay (retryCount : Z) : Z :=
  if retryCount >=? 3 then 8000 else 1000 * Z.shiftl 1 retryCount.

(** wifi_manager.cpp:645.  [reason] is the event's [uint8_t reason]. *)
Definition _wifiman_wifiDisconnectedEvent (r : Radio) (ev_ssid : string)
    (reason : Z) (m : Manager) : option Manager :=
  index ← wifiman_findNetworkInList_len (_wifiman_data m) ev_ssid;
  '(data1, newCode) ←
    (if (reason =? WIFI_REASON_ASSOC_LEAVE) || (reason =? WIFI_REASON_AUTH_LEAVE)
     then Some (_wifiman_data m, DISCONNECTED)
     else if reason =? WIFI_REASON_NO_AP_FOUND
     then Some (_wifiman_data m, NETWORK_NOT_FOUND)
     else
       d ← (if (index <? length (_wifiman_data m))
               && (_wifiman_retryCount m >=? _wifiman_maxRetries m)
            then set_state (_wifiman_data m) index NETWORK_FAILED_BEFORE
            else Some (_wifiman_data m));
       Some (d, CONNECTION_FAILED));
  let m1 := with_data m (set_status data1 (mkStatus index newCode reason)) in
  if (index <? length (_wifiman_data m1))
     && (_wifiman_retryCount m1 <? _wifiman_maxRetries m1)
     && negb (reason =? WIFI_REASON_ASSOC_LEAVE)
  then
    let m2 := _wifiman_connect r index false
                (retry_delay (_wifiman_retryCount m1)) m1 in
    Some (with_retryCount m2 ((_wifiman_retryCount m2 + 1) mod 256))
  else
    let m2 := call_statusCallback m1 in
    if _wifiman_autoConnect m2 && negb (reason =? WIFI_REASON_ASSOC_LEAVE)
    then _wifiman_checkConnection r m2
    else Some m2.

(** wifi_manager.cpp:701 *)
Definition _wifiman_wifiScanDoneEvent (r : Radio) (m : Manager)
  : option Manager :=
  _wifiman_checkConnection r (with_scanTime m (millis r)).

(** ** Wrap-around deadlines (wifi_manager.cpp:831) *)

Definition _time_now_or_passed (timeToTest now : Z) : bool :=
  negb (Z.land ((timeToTest - now - 1) mod 2 ^ 32) 0x80000000 =? 0).

(** ** Worker task *)

(** The locals of [_wifiman_workerTask]. *)
Record Worker := mkWorker {
  connect : _WM_WifiConnect;
  scan : _WM_WifiScan;
  notifyValue : Z
}.

(** Calls into the radio driver, in the order they are made. *)
Inductive RadioCall :=
| WiFi_disconnect
| WiFi_begin (ssid_arg : string) (pass_arg : option string)
| WiFi_scanDelete
| WiFi_scanNetworks.

(** [c.handled = true] *)
Definition mark_handled (c : _WM_WifiConnect) : _WM_WifiConnect :=
  mkConnect (execTime c) (networkIndex c) (issuedByUser c) true.

(** wifi_manager.cpp:760-773: the pull from the connect mailbox. *)
Definition pull_connect (m : Manager) (w : Worker) : Manager * Worker :=
  if negb (handled (nextConnect m)) then
    if issuedByUser (nextConnect m) || handled (connect w)
       || negb (issuedByUser (connect w))
    then (with_nextConnect m (mark_handled (nextConnect m)),
          mkWorker (nextConnect m) (scan w) (notifyValue w))
    else (m, w)
  else (m, w).

(** wifi_manager.cpp:775-783: the pull from the scan mailbox. *)
Definition pull_scan (m : Manager) (w : Worker) : Manager * Worker :=
  if negb (scan_handled (nextScan m)) then
    (with_nextScan m (mkScan (scan_execTime (nextScan m)) true),
     mkWorker (connect w) (nextScan m) (notifyValue w))
  else (m, w).

(** wifi_manager.cpp:787-795 *)
Definition exec_connect (r : Radio) (m : Manager) (w : Worker)
  : option (Worker * list RadioCall) :=
  if negb (handled (connect w))
     && _time_now_or_passed (execTime (connect w)) (millis r)
  then
    e ← deref (networks (_wifiman_data m)) (networkIndex (connect w));
    Some (mkWorker (mark_handled (connect w)) (scan w) (notifyValue w),
          [WiFi_disconnect; WiFi_begin (ssid e) (pass e)])
  else Some (w, []).

(** wifi_manager.cpp:797-811 *)
Definition exec_scan (r : Radio) (m : Manager) (w : Worker)
  : Worker * list RadioCall :=
  if (negb (scan_handled (scan w)) || negb (notifyValue w =? 0))
     && _time_now_or_passed (scan_execTime (scan w)) (millis r)
  then
    let calls :=
      if negb (scanComplete r =? -1) then [WiFi_scanDelete; WiFi_scanNetworks]
      else [] in
    let t :=
      if negb (notifyValue w =? 0)
      then (scan_execTime (scan w) + _wifiman_scanInterval m) mod 2 ^ 32
      else scan_execTime (scan w) in
    (mkWorker (connect w) (mkScan t true) (notifyValue w), calls)
  else (w, []).

(** One pass through the body of the [while (true)] loop. *)
Definition worker_cycle (r : Radio) (m : Manager) (w : Worker)
  : option (Manager * Worker * list RadioCall) :=
  let '(m1, w1) := pull_connect m w in
  let '(m2, w2) := pull_scan m1 w1 in
  let w3 := mkWorker (connect w2) (scan w2) (workerNotification m2) in
  '(w4, calls1) ← exec_connect r m2 w3;
  let '(w5, calls2) := exec_scan r m2 w4 in
  Some (m2, w5, calls1 ++ calls2).

(** ** Vocabulary of the statements *)

(** The populated part of the registry: the entries behind the first
    [length] slots. *)
Definition entries (d : WM_SharedData) : list WM_WifiNetwork :=
  omap id (take (Z.to_nat (length d)) (networks d)).

Definition ssids (d : WM_SharedData) : list string := ssid <$> entries d.

(** A registry as [wifiman_create] and the registry operations leave it:
    the array has [capacity] slots, [capacity] is at most 254, and the
    first [length <= capacity] slots are allocated. *)
Definition wf_data (d : WM_SharedData) : bool :=
  (0 <=? length d) && (length d <=? capacity d) && (capacity d <=? 254)
  && (Z.of_nat (List.length (networks d)) =? capacity d)
  && forallb (fun p : option WM_WifiNetwork => bool_decide (is_Some p))
             (take (Z.to_nat (length d)) (networks d)).

(** The registry invariant of the data model: SSIDs pairwise different. *)
Definition unique_ssids (d : WM_SharedData) : bool :=
  bool_decide (NoDup (ssids d)).

Definition valid_registry (d : WM_SharedData) : bool :=
  wf_data d && unique_ssids d.

(** A [uint8_t] value. *)
Definition is_uint8 (x : Z) : bool := (0 <=? x) && (x <=? 255).

(** The registry operations of the public API, for statements about
    sequences of calls. *)
Inductive RegistryOp :=
| OpAddOrUpdate (ssid_arg pass_arg : option string)
| OpDelete (index : Z)
| OpDeleteByName (ssid_arg : option string).

Definition op_args_ok (op : RegistryOp) : bool :=
  match op with
  | OpDelete index => is_uint8 index
  | _ => true
  end.

Definition apply_op (d : WM_SharedData) (op : RegistryOp)
  : option WM_SharedData :=
  match op with
  | OpAddOrUpdate s p =>
      '(_, _, d') ← wifiman_addOrUpdateNetwork d s p; Some d'
  | OpDelete index => '(_, d') ← wifiman_deleteNetwork d index; Some d'
  | OpDeleteByName s => '(_, d') ← wifiman_deleteNetworkByName d s; Some d'
  end.

(** The registries after each operation of a sequence. *)
Fixpoint run_ops (d : WM_SharedData) (ops : list RegistryOp)
  : option (list WM_SharedData) :=
  match ops with
  | [] => Some []
  | op :: rest =>
      d' ← apply_op d op;
      trace ← run_ops d' rest;
      Some (d' :: trace)
  end.

(** A manager whose registry is well formed and whose two [uint8_t]
    counters are in range. *)
Definition wf_manager (m : Manager) : bool :=
  wf_data (_wifiman_data m) && is_uint8 (_wifiman_retryCount m)
  && is_uint8 (_wifiman_maxRetries m).

(** The SSID of an event names an entry of the registry. *)
Definition target_known (m : Manager) (ev_ssid : string) : bool :=
  match wifiman_findNetworkInList_len (_wifiman_data m) ev_ssid with
  | Some index => index <? length (_wifiman_data m)
  | None => false
  end.

(** The retry decision: target known, retry counter below the maximum,
    and the reason is not [WIFI_REASON_ASSOC_LEAVE]. *)
Definition retry_due (m : Manager) (ev_ssid : string) (reason : Z) : bool :=
  target_known m ev_ssid
  && (_wifiman_retryCount m <? _wifiman_maxRetries m)
  && negb (reason =? WIFI_REASON_ASSOC_LEAVE).

(** What scheduling a retry leaves behind: the automatic command in the
    connect mailbox, due after the backoff delay, and the retry counter
    one higher. *)
Definition retry_scheduled (r : Radio) (index : Z) (m m' : Manager) : Prop :=
  nextConnect m'
  = mkConnect ((millis r + retry_delay (_wifiman_retryCount m)) mod 2 ^ 32)
              index false false
  /\ _wifiman_retryCount m' = _wifiman_retryCount m + 1.

(** The backoff delay in the words of the specification. *)
Definition backoff_delay (k : Z) : Z := Z.min 8000 (1000 * 2 ^ k).

(** Disconnect events for one SSID, one after the other; the managers
    after each event. *)
Fixpoint consecutive_disconnects (ev_ssid : string) (evs : list (Radio * Z))
    (m : Manager) : option (list Manager) :=
  match evs with
  | [] => Some []
  | (r, reason) :: rest =>
      m' ← _wifiman_wifiDisconnectedEvent r ev_ssid reason m;
      trace ← consecutive_disconnects ev_ssid rest m';
      Some (m' :: trace)
  end.

(** The operations that write [status.code]. *)
Inductive Operation :=
| CallConnectToNetwork (index : Z)
| CallConnectToBestWifi
| EventConnected (ev_ssid : string)
| EventDisconnected (ev_ssid : string) (reason : Z)
| EventScanDone.

Definition run_operation (r : Radio) (op : Operation) (m : Manager)
  : option Manager :=
  match op with
  | CallConnectToNetwork index =>
      '(_, m') ← wifiman_connectToNetwork r index m; Some m'
  | CallConnectToBestWifi =>
      '(_, m') ← wifiman_connectToBestWifi r m; Some m'
  | EventConnected ev_ssid => _wifiman_wifiConnectedEvent ev_ssid m
  | EventDisconnected ev_ssid reason =>
      _wifiman_wifiDisconnectedEvent r ev_ssid reason m
  | EventScanDone => _wifiman_wifiScanDoneEvent r m
  end.

(** A disconnect event for which the handler schedules a retry. *)
Definition followed_by_retry (op : Operation) (m : Manager) : bool :=
  match op with
  | EventDisconnected ev_ssid reason => retry_due m ev_ssid reason
  | _ => false
  end.

(** The manager and its worker task side by side, and the two kinds of
    steps that touch the connect mailbox: a producer issuing a command
    ([_wifiman_connect]) and a cycle of the worker. *)
Record System := mkSystem {
  manager : Manager;
  worker : Worker
}.

Inductive Step :=
| IssueConnect (r : Radio) (index : Z) (byUser : bool) (delay : Z)
| WorkerPoll (r : Radio).

Definition step (s : System) (e : Step) : option System :=
  match e with
  | IssueConnect r index byUser delay =>
      Some (mkSystem (_wifiman_connect r index byUser delay (manager s))
                     (worker s))
  | WorkerPoll r =>
      '(m', w', _) ← worker_cycle r (manager s) (worker s);
      Some (mkSystem m' w')
  end.

Fixpoint run (s : System) (es : list Step) : option System :=
  match es with
  | [] => Some s
  | e :: rest => s' ← step s e; run s' rest
  end.

Definition automatic_issue (e : Step) : bool :=
  match e with
  | IssueConnect _ _ byUser _ => negb byUser
  | WorkerPoll _ => true
  end.

(** A scan result names a usable entry of the registry: slot [j] holds its
    SSID and is not marked as failed. *)
Definition usable_match (d : WM_SharedData) (scan_ssid : string) (j : Z)
  : Prop :=
  0 <= j < length d
  /\ exists e, deref (networks d) j = Some e /\ ssid e = scan_ssid
               /\ state e <> NETWORK_FAILED_BEFORE.

(** The data model's "non-empty string" for every SSID of the registry. *)
Definition nonempty_ssids (d : WM_SharedData) : bool :=
  forallb (fun s => negb (String.eqb s "")) (ssids d).

(** [WiFi.RSSI(i)] widens the [int8_t] of the scan record; all that is
    needed here is that a signal strength is above [INT_MIN]. *)
Definition rssi_above_min (results : list (string * Z)) : bool :=
  forallb (fun x : string * Z => INT_MIN <? snd x) results.

(** What the reset loop does to one entry. *)
Definition reset_entry (e : WM_WifiNetwork) : WM_WifiNetwork :=
  if state e =? NETWORK_FAILED_BEFORE
  then mkNetwork (ssid e) (pass e) NETWORK_STATE_UNKNOWN else e.

(** "Zero usable entries": every entry of the registry is marked as
    failed. *)
Definition all_failed (d : WM_SharedData) : bool :=
  forallb (fun e => state e =? NETWORK_FAILED_BEFORE) (entries d).

(** The status code the [switch] of the disconnect handler picks. *)
Definition disconnect_code (reason : Z) : WM_StatusCode :=
  if (reason =? WIFI_REASON_ASSOC_LEAVE) || (reason =? WIFI_REASON_AUTH_LEAVE)
  then DISCONNECTED
  else if reason =? WIFI_REASON_NO_AP_FOUND then NETWORK_NOT_FOUND
  else CONNECTION_FAILED.

(** The two ways a pass through the selector can leave the manager: it
    started a connection (retry counter reset, a user-flagged command in
    the mailbox, status Connecting and reported to the callback), or status,
    callback log, retry counter and connect mailbox are as before. *)
Definition selector_effect (m m' : Manager) : Prop :=
  wf_manager m' = true
  /\ _wifiman_statusCallback m' = _wifiman_statusCallback m
  /\ _wifiman_maxRetries m' = _wifiman_maxRetries m
  /\ _wifiman_autoConnect m' = _wifiman_autoConnect m
  /\ ((_wifiman_retryCount m' = 0
       /\ issuedByUser (nextConnect m') = true
       /\ code (status (_wifiman_data m')) = CONNECTING
       /\ callbackLog m'
          = (if _wifiman_statusCallback m
             then status (_wifiman_data m') :: callbackLog m
             else callbackLog m))
      \/ (status (_wifiman_data m') = status (_wifiman_data m)
          /\ callbackLog m' = callbackLog m
          /\ _wifiman_retryCount m' = _wifiman_retryCount m
          /\ nextConnect m' = nextConnect m)).

(** The [assert]s of an operation hold. *)
Definition operation_ok (op : Operation) (m : Manager) : bool :=
  match op with
  | CallConnectToNetwork index =>
      (0 <=? index) && (index <? length (_wifiman_data m))
  | _ => true
  end.

(** The entry [wifiman_readFromEEPROM] builds for slot [i] from the
    store. *)
Definition stored_entry (pref : gmap string PrefValue) (i : Z)
  : WM_WifiNetwork :=
  mkNetwork
    (getString pref (WM_PREFERENCES_KEY_SSID i) "")
    (if negb (String.eqb (getString pref (WM_PREFERENCES_KEY_PASS i) "") "")
     then Some (getString pref (WM_PREFERENCES_KEY_PASS i) "") else None)
    (getChar pref (WM_PREFERENCES_KEY_STATE i) 0).

(** ** Sample data for the concrete instances *)

Definition home_network : WM_WifiNetwork :=
  mkNetwork "home" (Some "secret"%string) NETWORK_WORKED_BEFORE.

(** A registry of capacity 2 holding one network, connected to it. *)
Definition sample_data : WM_SharedData :=
  mkData (mkStatus 0 CONNECTED 1) [Some home_network; None] 2 1.

(** A started manager: callback registered, default retry count, both
    mailboxes empty. *)
Definition sample_manager : Manager :=
  mkManager sample_data false WM_SCAN_INTERVAL_DEFAULT_MS true
            WM_RETRIES_DEFAULT 0 0 _WM_WifiConnect_default
            _WM_WifiScan_default 0 [].

Definition sample_radio : Radio := mkRadio 5000 false ScanNotStarted.

(** The registries and scan results of the scenarios of the
    specification: networks "A" (worked before) and "B" (unknown), seen
    with -70 and -40 dBm; and a registry whose only network "A" has
    failed. *)
Definition registry_AB : WM_SharedData :=
  mkData (mkStatus 255 WM_IDLE_STATUS 0)
         [Some (mkNetwork "A" None NETWORK_WORKED_BEFORE);
          Some (mkNetwork "B" None NETWORK_STATE_UNKNOWN)] 2 2.

Definition scan_AB : list (string * Z) :=
  [("A"%string, -70); ("B"%string, -40)].

Definition registry_failed_A : WM_SharedData :=
  mkData (mkStatus 255 WM_IDLE_STATUS 0)
         [Some (mkNetwork "A" None NETWORK_FAILED_BEFORE)] 1 1.

(** A manager started in autonomous mode on the given registry. *)
Definition manager_on (d : WM_SharedData) : Manager :=
  mkManager d true WM_SCAN_INTERVAL_DEFAULT_MS true WM_RETRIES_DEFAULT 0 0
            _WM_WifiConnect_default _WM_WifiScan_default 0 [].

(** A worker holding an unconsumed manual command for slot 0, due at
    tick 9000. *)
Definition worker_with_manual_command : Worker :=
  mkWorker (mkConnect 9000 0 true false) _WM_WifiScan_default 0.

(** ** Creation (wifi_manager.cpp:54) *)

(** The loop of [wifiman_create] over an existing list:
    [if (networkList[i] != nullptr) continue; result->length = i; break;].
    Reading outside the caller's array is a fault. *)
Fixpoint first_null_slot (networkList : list (option WM_WifiNetwork)) (i : Z)
    (n : nat) : option (option Z) :=
  match n with
  | O => Some None
  | S n' =>
      p ← (if i <? 0 then None else networkList !! Z.to_nat i);
      match p with
      | Some _ => first_null_slot networkList (i + 1) n'
      | None => Some (Some i)
      end
  end.

(** [networkList] is [None] for [nullptr].  The record comes from [malloc]:
    [uninit_length] is what the [length] member holds when the loop never
    assigns it, [uninit_byte] what the union member of the status holds
    (neither branch writes it).  The outer [option] is a fault, the inner
    one the [nullptr] result. *)
Definition wifiman_create (networkList : option (list (option WM_WifiNetwork)))
    (capacity_arg : Z) (uninit_length uninit_byte : Z)
  : option (option WM_SharedData) :=
  if (capacity_arg =? 0) || (capacity_arg =? UINT8_MINUS_1) then Some None
  else
    match networkList with
    | None =>
        Some (Some (mkData (mkStatus UINT8_MINUS_1 WM_IDLE_STATUS uninit_byte)
                      (replicate (Z.to_nat capacity_arg) None)
                      capacity_arg 0))
    | Some nets =>
        r ← first_null_slot nets 0 (Z.to_nat capacity_arg);
        Some (Some (mkData (mkStatus UINT8_MINUS_1 WM_IDLE_STATUS uninit_byte)
                      nets capacity_arg (default uninit_length r)))
    end.

(** ** Display filters (wifi_manager.cpp:524 and 552) *)

(** [struct WM_WifiNetworkDisplay]; the members carry a [disp_] prefix
    because [networkIndex] already names a member of the connect
    command. *)
Record WM_WifiNetworkDisplay := mkDisplay {
  disp_networkIndex : Z;
  disp_scanIndex : Z
}.

#[global] Instance WM_WifiNetworkDisplay_eq_dec : EqDecision WM_WifiNetworkDisplay.
Proof. solve_decision. Defined.

(** [buffer[i] = v] on a caller's array of display records. *)
Definition store_display (buffer : list WM_WifiNetworkDisplay) (i : Z)
    (v : WM_WifiNetworkDisplay) : option (list WM_WifiNetworkDisplay) :=
  if (0 <=? i) && (i <? Z.of_nat (List.length buffer))
  then Some (<[Z.to_nat i := v]> buffer) else None.

(** [buffer[i].scanIndex = v] *)
Definition store_scanIndex (buffer : list WM_WifiNetworkDisplay) (i v : Z)
  : option (list WM_WifiNetworkDisplay) :=
  old ← (if i <? 0 then None else buffer !! Z.to_nat i);
  store_display buffer i (mkDisplay (disp_networkIndex old) v).

(** The loop of [wifiman_getDisplayFilterByScan] over the scan results,
    [i] being the position of the first result of [results]. *)
Fixpoint fill_by_scan (data : WM_SharedData) (results : list (string * Z))
    (i : Z) (buffer : list WM_WifiNetworkDisplay)
  : option (list WM_WifiNetworkDisplay) :=
  match results with
  | [] => Some buffer
  | (scan_ssid, _) :: rest =>
      index ← wifiman_findNetworkInList data (Some scan_ssid);
      buffer' ← store_display buffer i (mkDisplay index (i mod 256));
      fill_by_scan data rest (i + 1) buffer'
  end.

(** wifi_manager.cpp:524; [data] is the registry behind [_wifiman_data],
    [buffer] the caller's array [networks]. *)
Definition wifiman_getDisplayFilterByScan (r : Radio) (data : WM_SharedData)
    (buffer : list WM_WifiNetworkDisplay) (count : Z)
  : option (WM_ReturnCode * list WM_WifiNetworkDisplay) :=
  if negb (count >? 0) then None
  else
    let scanResult := scanComplete r in
    if (scanResult =? -2) || (scanResult =? -1)
    then Some (WMRT_SCAN_NOT_READY, buffer)
    else if scanResult =? 0 then Some (WMRT_NETWORK_NOT_IN_LIST, buffer)
    else if count <? scanResult then Some (WMRT_SIZE_MISMATCH, buffer)
    else
      buffer' ← fill_by_scan data (scanResults r) 0 buffer;
      Some (WMRT_SUCCESS, buffer').

(** [for (i = 0; i < length; ++i) { networks[i].networkIndex = i;
    networks[i].scanIndex = -1; }] *)
Fixpoint init_by_saved (i : Z) (n : nat) (buffer : list WM_WifiNetworkDisplay)
  : option (list WM_WifiNetworkDisplay) :=
  match n with
  | O => Some buffer
  | S n' =>
      buffer' ← store_display buffer i (mkDisplay (i mod 256) UINT8_MINUS_1);
      init_by_saved (i + 1) n' buffer'
  end.

(** The loop over a caller-supplied scan filter. *)
Fixpoint apply_scan_filter (scanFilter : list WM_WifiNetworkDisplay)
    (count : Z) (i : Z) (n : nat) (buffer : list WM_WifiNetworkDisplay)
  : option (list WM_WifiNetworkDisplay) :=
  match n with
  | O => Some buffer
  | S n' =>
      f ← (if i <? 0 then None else scanFilter !! Z.to_nat i);
      buffer' ←
        (if disp_networkIndex f <? count
         then store_scanIndex buffer (disp_networkIndex f) (disp_scanIndex f)
         else Some buffer);
      apply_scan_filter scanFilter count (i + 1) n' buffer'
  end.

(** The loop over the live scan results. *)
Fixpoint mark_from_scan (data : WM_SharedData) (count : Z)
    (results : list (string * Z)) (i : Z)
    (buffer : list WM_WifiNetworkDisplay)
  : option (list WM_WifiNetworkDisplay) :=
  match results with
  | [] => Some buffer
  | (scan_ssid, _) :: rest =>
      found ← wifiman_findNetworkInList data (Some scan_ssid);
      buffer' ←
        (if found <? count then store_scanIndex buffer found (i mod 256)
         else Some buffer);
      mark_from_scan data count rest (i + 1) buffer'
  end.

(** wifi_manager.cpp:552; [scanFilter] is [None] for [nullptr]. *)
Definition wifiman_getDisplayFilterBySaved (r : Radio) (data : WM_SharedData)
    (buffer : list WM_WifiNetworkDisplay) (count : Z)
    (scanFilter : option (list WM_WifiNetworkDisplay)) (scanCount : Z)
  : option (WM_ReturnCode * list WM_WifiNetworkDisplay) :=
  if negb (count >? 0) then None
  else if count <? length data then Some (WMRT_SIZE_MISMATCH, buffer)
  else
    buffer1 ← init_by_saved 0 (Z.to_nat (length data)) buffer;
    let scanResult := scanComplete r in
    match scanFilter with
    | None =>
        if scanResult <=? 0 then Some (WMRT_SUCCESS, buffer1)
        else
          buffer2 ← mark_from_scan data count (scanResults r) 0 buffer1;
          Some (WMRT_SUCCESS, buffer2)
    | Some filter =>
        buffer2 ← apply_scan_filter filter count 0 (Z.to_nat scanCount) buffer1;
        Some (WMRT_SUCCESS, buffer2)
    end.

(** ** Further vocabulary *)

(** Position of the first occurrence of an SSID in a list of SSIDs, as a
    [uint8_t] index; 255 when there is none. *)
Definition index_of (s : string) (l : list string) : Z :=
  match list_find (fun x => x = s) l with
  | Some (k, _) => Z.of_nat k
  | None => UINT8_MINUS_1
  end.

(** An entry counts as usable: its state is not [NETWORK_FAILED_BEFORE]. *)
Definition usable (e : WM_WifiNetwork) : bool :=
  negb (state e =? NETWORK_FAILED_BEFORE).

(** A passphrase as it comes back from the store: the empty string is
    read as "none". *)
Definition reloaded_pass (p : option string) : option string :=
  match p with
  | Some s => if String.eqb s "" then None else Some s
  | None => None
  end.

Definition reloaded (e : WM_WifiNetwork) : WM_WifiNetwork :=
  mkNetwork (ssid e) (reloaded_pass (pass e)) (state e).

(** The disconnect reasons of the default case of the handler's
    [switch]: everything but the two "leave" codes and "no AP found". *)
Definition failure_reason (reason : Z) : bool :=
  negb (reason =? WIFI_REASON_ASSOC_LEAVE)
  && negb (reason =? WIFI_REASON_AUTH_LEAVE)
  && negb (reason =? WIFI_REASON_NO_AP_FOUND).

(** An entry with its [state] member overwritten, as
    [networks[index]->state = s] leaves it. *)
Definition marked (s : Z) (e : WM_WifiNetwork) : WM_WifiNetwork :=
  mkNetwork (ssid e) (pass e) s.

(** The radio calls of the connect step and those of the scan step of
    the worker. *)
Definition is_connect_call (c : RadioCall) : bool :=
  match c with
  | WiFi_disconnect | WiFi_begin _ _ => true
  | _ => false
  end.
Definition is_scan_call (c : RadioCall) : bool :=
  match c with
  | WiFi_scanDelete | WiFi_scanNetworks => true
  | _ => false
  end.

(** Number of registry slots, of a registry of length [len], that lie in
    the index range of [count] slots from [startIndex] on. *)
Definition slots_in_range (startIndex count len : Z) : Z :=
  Z.max 0 (Z.min (startIndex + count) len - startIndex).

(** What the disconnect handler leaves behind when it schedules no retry:
    it has set the status to [st], with mailbox and retry counter as they
    were, and reported it to the callback (the state [m1]); then, in
    autonomous mode and unless the reason is [WIFI_REASON_ASSOC_LEAVE], the
    connection check has run on that state, else nothing more happened. *)
Definition no_retry_outcome (r : Radio) (st : WM_Status) (reason : Z)
    (m m' : Manager) : Prop :=
  exists m1,
    status (_wifiman_data m1) = st
    /\ nextConnect m1 = nextConnect m
    /\ _wifiman_retryCount m1 = _wifiman_retryCount m
    /\ callbackLog m1
       = (if _wifiman_statusCallback m then st :: callbackLog m
          else callbackLog m)
    /\ if _wifiman_autoConnect m && negb (reason =? WIFI_REASON_ASSOC_LEAVE)
       then _wifiman_checkConnection r m1 = Some m' /\ selector_effect m1 m'
       else m' = m1.

(** A byte string without a zero byte: the content of a C string. *)
Fixpoint no_zero_byte (s : string) : bool :=
  match s with
  | EmptyString => true
  | String c rest => negb (Ascii.eqb c zero) && no_zero_byte rest
  end.

(** Worker cycles one after the other against an unchanged manager state
    apart from what the cycles themselves consume; the radio calls of all
    cycles in order. *)
Fixpoint worker_cycles (rs : list Radio) (m : Manager) (w : Worker)
  : option (Manager * Worker * list RadioCall) :=
  match rs with
  | [] => Some (m, w, [])
  | r :: rest =>
      '(m1, w1, calls1) ← worker_cycle r m w;
      '(m2, w2, calls2) ← worker_cycles rest m1 w1;
      Some (m2, w2, calls1 ++ calls2)
  end.

(** The clock value [now] lies in the window of 2^31 ticks that starts at
    the deadline. *)
Definition due (deadline now : Z) : bool :=
  (now - deadline) mod 2 ^ 32 <? 2 ^ 31.

(** Case analysis on the integer comparisons of the goal. *)
Ltac cmp_case :=
  match goal with
  | |- context [(?x =? ?y)%Z] => destruct (Z.eqb_spec x y)
  | |- context [(?x <? ?y)%Z] => destruct (Z.ltb_spec x y)
  | |- context [(?x <=? ?y)%Z] => destruct (Z.leb_spec x y)
  | |- context [(?x >? ?y)%Z] => destruct (Z.gtb_spec x y)
  | |- context [(?x >=? ?y)%Z] => destruct (Z.geb_spec x y)
  end.
Ltac cases_Zb := repeat cmp_case; simpl; try lia; try reflexivity.

(** * Theorems *)

(** ** Array access and well-formed registries *)

Lemma deref_Some nets i e :
  deref nets i = Some e <-> 0 <= i /\ nets !! Z.to_nat i = Some (Some e).
Proof.
  unfold deref. destruct (Z.ltb_spec i 0) as [Hi|Hi].
  - split; [discriminate | lia].
  - destruct (nets !! Z.to_nat i) as [[e'|]|]; simpl; split;
      intros H; try discriminate; try (destruct H; discriminate).
    + injection H as ->. split; [lia | reflexivity].
    + destruct H as [_ H]. congruence.
Qed.

Lemma allocated_prefix (l : list (option WM_WifiNetwork)) :
  forallb (fun p => bool_decide (is_Some p)) l = true ->
  l = Some <$> omap id l.
Proof.
  induction l as [|[e|] l IH]; cbn; intros H; [reflexivity | |].
  - f_equal. auto.
  - discriminate.
Qed.

Lemma wf_data_range d :
  wf_data d = true ->
  0 <= length d <= capacity d /\ capacity d <= 254
  /\ Z.of_nat (List.length (networks d)) = capacity d.
Proof.
  unfold wf_data. intros H.
  repeat (apply andb_prop in H as [H ?]). lia.
Qed.

Lemma wf_data_take d :
  wf_data d = true ->
  take (Z.to_nat (length d)) (networks d) = Some <$> entries d.
Proof.
  unfold wf_data, entries. intros H.
  apply andb_prop in H as [_ H]. by apply allocated_prefix.
Qed.

Lemma entries_length d :
  wf_data d = true -> List.length (entries d) = Z.to_nat (length d).
Proof.
  intros H. pose proof (wf_data_range d H) as (? & ? & ?).
  pose proof (wf_data_take d H) as Ht.
  apply (f_equal (@List.length _)) in Ht.
  rewrite length_take, length_fmap in Ht. lia.
Qed.

Lemma deref_entries d i :
  wf_data d = true -> 0 <= i < length d ->
  deref (networks d) i = entries d !! Z.to_nat i.
Proof.
  intros H Hi. pose proof (wf_data_take d H) as Ht.
  unfold deref. destruct (Z.ltb_spec i 0); [lia|].
  assert (networks d !! Z.to_nat i
          = take (Z.to_nat (length d)) (networks d) !! Z.to_nat i) as ->.
  { symmetry. apply lookup_take_lt. lia. }
  rewrite Ht, list_lookup_fmap.
  by destruct (entries d !! Z.to_nat i).
Qed.

Lemma deref_allocated d i :
  wf_data d = true -> 0 <= i < length d -> is_Some (deref (networks d) i).
Proof.
  intros H Hi. rewrite (deref_entries d i H Hi).
  apply lookup_lt_is_Some. rewrite (entries_length d H). lia.
Qed.

Lemma elem_of_ssids d s :
  wf_data d = true ->
  s ∈ ssids d <->
  exists i e, 0 <= i < length d /\ deref (networks d) i = Some e /\ ssid e = s.
Proof.
  intros H. unfold ssids. rewrite list_elem_of_fmap. split.
  - intros (e & -> & He). apply list_elem_of_lookup in He as [k Hk].
    pose proof (lookup_lt_Some _ _ _ Hk) as Hlt.
    rewrite (entries_length d H) in Hlt.
    exists (Z.of_nat k), e. split; [lia|]. split; [|reflexivity].
    rewrite (deref_entries d _ H) by lia. by rewrite Nat2Z.id.
  - intros (i & e & Hi & He & <-). exists e. split; [reflexivity|].
    rewrite (deref_entries d i H Hi) in He.
    apply list_elem_of_lookup. eauto.
Qed.

(** ** The search loops *)

Lemma first_match_spec nets s n : forall i,
  0 <= i ->
  (forall j, i <= j < i + Z.of_nat n -> is_Some (deref nets j)) ->
  exists r, first_match nets s i n = Some r /\
    match r with
    | Some j =>
        i <= j < i + Z.of_nat n
        /\ (exists e, deref nets j = Some e /\ ssid e = s)
        /\ forall k e, i <= k < j -> deref nets k = Some e -> ssid e <> s
    | None =>
        forall k e, i <= k < i + Z.of_nat n ->
                    deref nets k = Some e -> ssid e <> s
    end.
Proof.
  induction n as [|n IH]; intros i Hi Hall; simpl.
  - exists None. split; [reflexivity|]. intros; lia.
  - destruct (Hall i ltac:(lia)) as [e He]. rewrite He. simpl.
    destruct (String.eqb_spec (ssid e) s) as [Heq|Hne].
    + exists (Some i). split; [reflexivity|]. split; [lia|].
      split; [eauto|]. intros; lia.
    + destruct (IH (i + 1) ltac:(lia)) as (r & Hr & Hspec).
      { intros j Hj. apply Hall. lia. }
      exists r. split; [exact Hr|]. destruct r as [j|].
      * destruct Hspec as (Hj & Hex & Hbefore). split; [lia|].
        split; [exact Hex|]. intros k e' Hk Hke.
        destruct (Z.eq_dec k i) as [->|]; [congruence|].
        apply (Hbefore k e'); [lia | exact Hke].
      * intros k e' Hk Hke.
        destruct (Z.eq_dec k i) as [->|]; [congruence|].
        apply (Hspec k e'); [lia | exact Hke].
Qed.

(** On a well-formed registry the search of the C-string overload never
    faults; it yields the first index holding the SSID, or nothing. *)
Lemma first_match_wf d s :
  wf_data d = true ->
  exists r, first_match (networks d) s 0 (Z.to_nat (length d)) = Some r /\
    match r with
    | Some j =>
        0 <= j < length d
        /\ (exists e, deref (networks d) j = Some e /\ ssid e = s)
        /\ forall k e, 0 <= k < j -> deref (networks d) k = Some e ->
                       ssid e <> s
    | None => s ∉ ssids d
    end.
Proof.
  intros H. pose proof (wf_data_range d H) as (Hl & _ & _).
  destruct (first_match_spec (networks d) s (Z.to_nat (length d)) 0
              ltac:(lia)) as (r & Hr & Hspec).
  { intros j Hj. apply deref_allocated; [exact H | lia]. }
  exists r. split; [exact Hr|]. destruct r as [j|].
  - destruct Hspec as (Hj & Hex & Hb). split; [lia|]. split; [exact Hex|].
    exact Hb.
  - rewrite (elem_of_ssids d s H). intros (i & e & Hi & He & Hs).
    apply (Hspec i e); [lia | exact He | exact Hs].
Qed.

Lemma find_not_found d s :
  wf_data d = true ->
  (s = None \/ s = Some ""%string
   \/ exists name, s = Some name /\ name ∉ ssids d) ->
  wifiman_findNetworkInList d s = Some UINT8_MINUS_1.
Proof.
  intros H [->|[->|(name & -> & Hname)]]; try reflexivity.
  unfold wifiman_findNetworkInList.
  destruct (String.eqb name ""); [reflexivity|].
  destruct (first_match_wf d name H) as (r & -> & Hspec). simpl.
  destruct r as [j|]; [|reflexivity].
  destruct Hspec as (Hj & (e & He & Hs) & _). exfalso. apply Hname.
  apply (elem_of_ssids d name H). eauto.
Qed.

(** ** C10 *)

(** C10: on a well-formed registry, [wifiman_deleteNetworkByName] called
    with a null, an empty or an unknown SSID returns 255 and hands back the
    very same record: length, slots, their order and the status are all
    untouched. *)
Theorem deleteNetworkByName_absent_is_noop (d : WM_SharedData)
    (s : option string) :
  wf_data d = true ->
  (s = None \/ s = Some ""%string
   \/ exists name, s = Some name /\ name ∉ ssids d) ->
  wifiman_deleteNetworkByName d s = Some (255, d).
Proof.
  intros H Hs. unfold wifiman_deleteNetworkByName.
  rewrite (find_not_found d s H Hs). simpl.
  unfold wifiman_deleteNetwork, UINT8_MINUS_1.
  pose proof (wf_data_range d H) as (? & ? & ?).
  destruct (Z.geb_spec 255 (length d)); [reflexivity | lia].
Qed.

(** ** Registry operations on well-formed registries *)

Lemma wf_data_repr d :
  wf_data d = true ->
  networks d
  = (Some <$> entries d) ++ drop (Z.to_nat (length d)) (networks d).
Proof. intros H. rewrite <- (wf_data_take d H). by rewrite take_drop. Qed.

Lemma wf_data_intro st (es : list WM_WifiNetwork) rest cap len :
  len = Z.of_nat (List.length es) ->
  cap = Z.of_nat (List.length es + List.length rest) ->
  cap <= 254 ->
  wf_data (mkData st ((Some <$> es) ++ rest) cap len) = true
  /\ entries (mkData st ((Some <$> es) ++ rest) cap len) = es.
Proof.
  intros -> -> Hcap.
  assert (take (Z.to_nat (Z.of_nat (List.length es))) ((Some <$> es) ++ rest)
          = Some <$> es) as Ht.
  { apply take_app_length'. rewrite length_fmap. lia. }
  assert (omap id (Some <$> es) = es) as Ho.
  { clear. induction es as [|e es IH]; simpl; [reflexivity | by f_equal]. }
  split.
  - unfold wf_data. cbn [length capacity networks]. rewrite Ht.
    rewrite !andb_true_iff, !Z.leb_le, Z.eqb_eq.
    rewrite length_app, length_fmap.
    repeat split; try lia.
    clear. induction es as [|e es IH]; [reflexivity | exact IH].
  - unfold entries. cbn [length networks]. by rewrite Ht.
Qed.

Lemma store_slot_Some nets i p :
  0 <= i < Z.of_nat (List.length nets) ->
  store_slot nets i p = Some (<[Z.to_nat i := p]> nets).
Proof.
  intros Hi. unfold store_slot.
  destruct (Z.leb_spec 0 i); [|lia].
  destruct (Z.ltb_spec i (Z.of_nat (List.length nets))); [reflexivity | lia].
Qed.

(** Updating an allocated slot of a well-formed registry. *)
Lemma update_slot_wf d i x :
  wf_data d = true -> 0 <= i < length d ->
  let d' := set_networks d (<[Z.to_nat i := Some x]> (networks d)) in
  wf_data d' = true /\ entries d' = <[Z.to_nat i := x]> (entries d).
Proof.
  intros H Hi d'. pose proof (wf_data_range d H) as (Hl & Hc & Hn).
  pose proof (entries_length d H) as He.
  assert (<[Z.to_nat i := Some x]> (networks d)
          = (Some <$> <[Z.to_nat i := x]> (entries d))
              ++ drop (Z.to_nat (length d)) (networks d)) as Hnets.
  { rewrite (wf_data_repr d H) at 1.
    rewrite insert_app_l by (rewrite length_fmap; lia).
    by rewrite list_fmap_insert. }
  subst d'. unfold set_networks. rewrite Hnets.
  apply wf_data_intro.
  - rewrite length_insert. lia.
  - rewrite length_insert, length_drop. lia.
  - lia.
Qed.

(** Appending behind the last allocated slot. *)
Lemma append_slot_wf d x :
  wf_data d = true -> length d < capacity d ->
  let d' := mkData (status d)
              (<[Z.to_nat (length d) := Some x]> (networks d))
              (capacity d) (length d + 1) in
  wf_data d' = true /\ entries d' = entries d ++ [x].
Proof.
  intros H Hlt d'. pose proof (wf_data_range d H) as (Hl & Hc & Hn).
  pose proof (entries_length d H) as He.
  destruct (drop (Z.to_nat (length d)) (networks d)) as [|r rest] eqn:Hd.
  { apply (f_equal (@List.length _)) in Hd. rewrite length_drop in Hd.
    simpl in Hd. lia. }
  assert (<[Z.to_nat (length d) := Some x]> (networks d)
          = (Some <$> (entries d ++ [x])) ++ rest) as Hnets.
  { rewrite (wf_data_repr d H) at 1. rewrite Hd.
    rewrite insert_app_r_alt by (rewrite length_fmap; lia).
    rewrite length_fmap, He, Nat.sub_diag. simpl.
    by rewrite fmap_app, <- app_assoc. }
  apply (f_equal (@List.length _)) in Hd. rewrite length_drop in Hd.
  simpl in Hd.
  subst d'. rewrite Hnets. apply wf_data_intro.
  - rewrite length_app. simpl. lia.
  - rewrite length_app. simpl. lia.
  - lia.
Qed.

(** What [wifiman_addOrUpdateNetwork] does on a well-formed registry. *)
Lemma addOrUpdate_existing d s p :
  wf_data d = true -> s ∈ ssids d ->
  exists i e,
    0 <= i < length d /\ deref (networks d) i = Some e /\ ssid e = s
    /\ wifiman_addOrUpdateNetwork d (Some s) p
       = Some (i, Some true,
               set_networks d
                 (<[Z.to_nat i := Some (mkNetwork s p NETWORK_STATE_UNKNOWN)]>
                    (networks d))).
Proof.
  intros H Hin. pose proof (wf_data_range d H) as (Hl & Hc & Hn).
  unfold wifiman_addOrUpdateNetwork.
  destruct (first_match_wf d s H) as (r & -> & Hspec). simpl.
  destruct r as [i|]; [|contradiction].
  destruct Hspec as (Hi & (e & He & Hs) & _).
  exists i, e. rewrite He. simpl.
  rewrite store_slot_Some by lia. simpl. rewrite Hs. auto.
Qed.

Lemma addOrUpdate_absent d s p :
  wf_data d = true -> s ∉ ssids d ->
  wifiman_addOrUpdateNetwork d (Some s) p
  = if length d =? capacity d then Some (255, None, d)
    else Some (length d, Some false,
               mkData (status d)
                 (<[Z.to_nat (length d)
                    := Some (mkNetwork s p NETWORK_STATE_UNKNOWN)]>
                    (networks d))
                 (capacity d) (length d + 1)).
Proof.
  intros H Hin. pose proof (wf_data_range d H) as (Hl & Hc & Hn).
  unfold wifiman_addOrUpdateNetwork.
  destruct (first_match_wf d s H) as (r & -> & Hspec). simpl.
  destruct r as [i|].
  { destruct Hspec as (Hi & (e & He & Hs) & _). exfalso. apply Hin.
    apply (elem_of_ssids d s H). eauto. }
  destruct (Z.eqb_spec (length d) (capacity d)); [reflexivity|].
  rewrite store_slot_Some by lia. simpl.
  rewrite (Z.mod_small (length d + 1)) by lia.
  rewrite Z.mod_small by lia.
  repeat f_equal. lia.
Qed.

Lemma delete_out_of_range d index :
  length d <= index -> wifiman_deleteNetwork d index = Some (255, d).
Proof.
  intros H. unfold wifiman_deleteNetwork.
  destruct (Z.geb_spec index (length d)); [reflexivity | lia].
Qed.

(** Deleting an allocated slot closes the gap: the entries behind it move
    one slot to the front, the freed last slot becomes null. *)
Lemma delete_in_range d index :
  wf_data d = true -> 0 <= index < length d ->
  exists d',
    wifiman_deleteNetwork d index = Some (index, d')
    /\ wf_data d' = true
    /\ entries d' = delete (Z.to_nat index) (entries d)
    /\ length d' = length d - 1 /\ capacity d' = capacity d
    /\ code (status d') = code (status d).
Proof.
  intros H Hi. pose proof (wf_data_range d H) as (Hl & Hc & Hn).
  pose proof (entries_length d H) as He.
  pose proof (wf_data_repr d H) as Hrepr.
  set (es := entries d) in *. set (n := Z.to_nat index).
  set (rest := drop (Z.to_nat (length d)) (networks d)) in *.
  assert (List.length rest = Z.to_nat (capacity d - length d)) as Hrest.
  { subst rest. rewrite length_drop. lia. }
  destruct (deref_allocated d index H Hi) as [e Hde].
  apply deref_Some in Hde as [_ Hde].
  unfold wifiman_deleteNetwork.
  destruct (Z.geb_spec index (length d)); [lia|].
  rewrite Hde. simpl.
  unfold memmove_slots.
  replace ((0 <=? index) && (0 <=? index + 1)
           && (0 <=? length d - index - 1)
           && (index + 1 + (length d - index - 1)
               <=? Z.of_nat (List.length (networks d)))
           && (index + (length d - index - 1)
               <=? Z.of_nat (List.length (networks d)))) with true
    by (symmetry; rewrite !andb_true_iff, !Z.leb_le; lia).
  simpl.
  assert (take (Z.to_nat index) (networks d) = Some <$> take n es) as HA.
  { rewrite Hrepr, take_app_le by (rewrite length_fmap; lia).
    by rewrite fmap_take. }
  assert (take (Z.to_nat (length d - index - 1))
               (drop (Z.to_nat (index + 1)) (networks d))
          = Some <$> drop (S n) es) as HB.
  { replace (Z.to_nat (index + 1)) with (S n) by lia.
    rewrite Hrepr, drop_app_le by (rewrite length_fmap; lia).
    rewrite take_app_length'
      by (rewrite length_drop, length_fmap; lia).
    by rewrite fmap_drop. }
  assert (exists y, drop (Z.to_nat (index + (length d - index - 1)))
                      (networks d) = y :: rest) as [y HC].
  { replace (Z.to_nat (index + (length d - index - 1)))
      with (List.length es - 1)%nat by lia.
    rewrite Hrepr, drop_app_le by (rewrite length_fmap; lia).
    destruct (drop (List.length es - 1) (Some <$> es)) as [|y [|z l]] eqn:Hd;
      apply (f_equal (@List.length _)) in Hd;
      rewrite length_drop, length_fmap in Hd; simpl in Hd; try lia.
    by exists y. }
  rewrite HA, HB, HC.
  set (nets1 := (Some <$> take n es) ++ (Some <$> drop (S n) es) ++ y :: rest).
  assert (List.length nets1 = Z.to_nat (capacity d)) as Hlen1.
  { subst nets1. rewrite !length_app, !length_fmap, length_take, length_drop.
    simpl. lia. }
  rewrite (Z.mod_small (length d - 1)) by lia.
  rewrite store_slot_Some by lia. simpl.
  assert (<[Z.to_nat (length d - 1) := None]> nets1
          = (Some <$> delete n es) ++ None :: rest) as Hnets2.
  { subst nets1. rewrite app_assoc.
    rewrite insert_app_r_alt
      by (rewrite length_app, !length_fmap, length_take, length_drop; lia).
    replace (Z.to_nat (length d - 1)
             - List.length ((Some <$> take n es) ++ (Some <$> drop (S n) es)))%nat
      with 0%nat
      by (rewrite length_app, !length_fmap, length_take, length_drop; lia).
    simpl. by rewrite <- fmap_app, <- delete_take_drop. }
  rewrite Hnets2.
  assert (List.length (delete n es) = (List.length es - 1)%nat) as Hdel.
  { apply length_delete. apply lookup_lt_is_Some. lia. }
  eexists. split; [reflexivity|].
  match goal with
  | |- wf_data (mkData ?st _ _ _) = true /\ _ =>
      destruct (wf_data_intro st (delete n es) (None :: rest)
                  (capacity d) (length d - 1)) as [Hwf Hent];
        [lia | simpl; lia | lia |]
  end.
  split; [exact Hwf|]. split; [exact Hent|]. auto.
Qed.

Lemma valid_registry_spec d :
  valid_registry d = true <-> wf_data d = true /\ NoDup (ssids d).
Proof.
  unfold valid_registry, unique_ssids.
  rewrite andb_true_iff, bool_decide_eq_true. reflexivity.
Qed.

Lemma find_wf d s :
  wf_data d = true ->
  exists index,
    wifiman_findNetworkInList d s = Some index
    /\ (index = 255 \/ 0 <= index < length d).
Proof.
  intros H. destruct s as [s|]; [|exists 255; auto].
  unfold wifiman_findNetworkInList.
  destruct (String.eqb s ""); [exists 255; auto|].
  destruct (first_match_wf d s H) as (r & -> & Hspec). simpl.
  destruct r as [j|]; simpl; [|exists 255; auto].
  exists j. split; [reflexivity|]. right. tauto.
Qed.

Lemma deleteNetwork_valid d index :
  valid_registry d = true -> 0 <= index ->
  exists r d',
    wifiman_deleteNetwork d index = Some (r, d')
    /\ valid_registry d' = true /\ capacity d' = capacity d.
Proof.
  intros Hv Hi. apply valid_registry_spec in Hv as [H Hnd].
  destruct (Z.le_gt_cases (length d) index) as [Hge|Hlt].
  - exists 255, d. rewrite delete_out_of_range by exact Hge.
    split; [reflexivity|]. split; [|reflexivity].
    by apply valid_registry_spec.
  - destruct (delete_in_range d index H ltac:(lia))
      as (d' & Hd & Hwf & Hent & _ & Hcap & _).
    exists index, d'. split; [exact Hd|]. split; [|exact Hcap].
    apply valid_registry_spec. split; [exact Hwf|].
    unfold ssids. rewrite Hent, list_fmap_delete.
    eapply sublist_NoDup; [exact Hnd | apply sublist_delete].
Qed.

Lemma apply_op_valid d op :
  valid_registry d = true -> op_args_ok op = true ->
  exists d',
    apply_op d op = Some d' /\ valid_registry d' = true
    /\ capacity d' = capacity d.
Proof.
  intros Hv Hop. pose proof Hv as Hv'.
  apply valid_registry_spec in Hv' as [H Hnd].
  destruct op as [[s|] p|index|s]; cbn [apply_op op_args_ok] in *.
  - (* add or update *)
    destruct (decide (s ∈ ssids d)) as [Hin|Hin].
    + destruct (addOrUpdate_existing d s p H Hin)
        as (i & e & Hi & He & Hs & ->). simpl.
      eexists. split; [reflexivity|].
      destruct (update_slot_wf d i (mkNetwork s p NETWORK_STATE_UNKNOWN) H Hi)
        as [Hwf Hent].
      split; [|reflexivity].
      apply valid_registry_spec. split; [exact Hwf|].
      unfold ssids. rewrite Hent, list_fmap_insert. simpl.
      rewrite list_insert_id; [exact Hnd|].
      rewrite list_lookup_fmap, <- (deref_entries d i H Hi), He.
      simpl. by rewrite Hs.
    + rewrite (addOrUpdate_absent d s p H Hin).
      destruct (Z.eqb_spec (length d) (capacity d)) as [Heq|Hne]; simpl.
      * exists d. auto.
      * pose proof (wf_data_range d H) as (Hl & Hc & Hn).
        eexists. split; [reflexivity|].
        destruct (append_slot_wf d (mkNetwork s p NETWORK_STATE_UNKNOWN) H
                    ltac:(lia)) as [Hwf Hent].
        split; [|reflexivity].
        apply valid_registry_spec. split; [exact Hwf|].
        unfold ssids. rewrite Hent, fmap_app. simpl.
        apply NoDup_app. split; [exact Hnd|]. split.
        -- intros x Hx Hx'. apply list_elem_of_singleton in Hx'. by subst.
        -- apply NoDup_singleton.
  - exists d. auto.
  - (* delete by index *)
    unfold is_uint8 in Hop. apply andb_prop in Hop as [Hop _].
    apply Z.leb_le in Hop.
    destruct (deleteNetwork_valid d index Hv Hop) as (r & d' & -> & Hd').
    simpl. eauto.
  - (* delete by name *)
    unfold wifiman_deleteNetworkByName.
    destruct (find_wf d s H) as (index & -> & Hidx). simpl.
    destruct (deleteNetwork_valid d index Hv ltac:(lia))
      as (r & d' & -> & Hd').
    simpl. eauto.
Qed.

(** ** C7 *)

(** C7: starting from a valid registry (well-formed, SSIDs pairwise
    different), every sequence of add-or-update and delete calls runs
    without fault and leaves, after each call, the SSIDs pairwise different
    and [length <= capacity]; [wifiman_addOrUpdateNetwork] with an SSID
    already in the registry rewrites that entry's slot in place (new
    passphrase, state Unknown, same length) and reports an update, and with
    a new SSID it appends exactly when [length < capacity] and otherwise
    returns 255 and changes nothing. *)
Theorem registry_invariant_under_add_update_delete
    (d : WM_SharedData) (ops : list RegistryOp) :
  valid_registry d = true ->
  forallb op_args_ok ops = true ->
  (exists trace,
      run_ops d ops = Some trace
      /\ List.length trace = List.length ops
      /\ Forall (fun d' => NoDup (ssids d') /\ length d' <= capacity d'
                           /\ capacity d' = capacity d
                           /\ valid_registry d' = true) trace)
  /\ (forall s p, s ∈ ssids d ->
        exists i e,
          0 <= i < length d /\ deref (networks d) i = Some e /\ ssid e = s
          /\ wifiman_addOrUpdateNetwork d (Some s) p
             = Some (i, Some true,
                     mkData (status d)
                       (<[Z.to_nat i
                          := Some (mkNetwork s p NETWORK_STATE_UNKNOWN)]>
                          (networks d))
                       (capacity d) (length d)))
  /\ (forall s p, s ∉ ssids d ->
        wifiman_addOrUpdateNetwork d (Some s) p
        = if length d =? capacity d then Some (255, None, d)
          else Some (length d, Some false,
                     mkData (status d)
                       (<[Z.to_nat (length d)
                          := Some (mkNetwork s p NETWORK_STATE_UNKNOWN)]>
                          (networks d))
                       (capacity d) (length d + 1))).
Proof.
  intros Hv Hops. split; [|split].
  - revert d Hv Hops.
    induction ops as [|op ops IH]; intros d Hv Hops; simpl.
    + exists []. auto.
    + simpl in Hops. apply andb_prop in Hops as [Hop Hops].
      destruct (apply_op_valid d op Hv Hop) as (d' & -> & Hv' & Hcap).
      simpl.
      destruct (IH d' Hv' Hops) as (trace & -> & Hlen & Hall). simpl.
      eexists. split; [reflexivity|]. split; [simpl; lia|].
      constructor.
      * pose proof Hv' as Hv''.
        apply valid_registry_spec in Hv'' as [Hwf Hnd].
        pose proof (wf_data_range d' Hwf). intuition lia.
      * eapply Forall_impl; [exact Hall|]. simpl.
        intros d'' (? & ? & ? & ?). intuition congruence.
  - intros s p Hin. apply valid_registry_spec in Hv as [H _].
    exact (addOrUpdate_existing d s p H Hin).
  - intros s p Hin. apply valid_registry_spec in Hv as [H _].
    exact (addOrUpdate_absent d s p H Hin).
Qed.

(** ** Wrap-around deadlines *)

Lemma land_sign_bit x :
  (Z.land x 0x80000000 =? 0) = negb (Z.testbit x 31).
Proof.
  change 0x80000000 with (2 ^ 31).
  destruct (Z.testbit x 31) eqn:Hb; simpl.
  - apply Z.eqb_neq. intros H0.
    assert (Z.testbit (Z.land x (2 ^ 31)) 31 = true) as Ht.
    { rewrite Z.land_spec, Hb, Z.pow2_bits_true by lia. reflexivity. }
    rewrite H0 in Ht. by rewrite Z.bits_0 in Ht.
  - apply Z.eqb_eq. apply Z.bits_inj'. intros k Hk.
    rewrite Z.land_spec, Z.bits_0.
    destruct (Z.eq_dec k 31) as [->|Hne].
    + by rewrite Hb.
    + rewrite (Z.pow2_bits_false 31 k) by lia. apply andb_false_r.
Qed.

Lemma sign_bit_uint32 y :
  0 <= y < 2 ^ 32 -> Z.testbit y 31 = (2 ^ 31 <=? y).
Proof.
  intros Hy. rewrite Z.testbit_eqb by lia.
  change (2 ^ 32) with 4294967296 in Hy. change (2 ^ 31) with 2147483648.
  destruct (Z.leb_spec 2147483648 y) as [Hge|Hlt].
  - apply Z.eqb_eq. replace (y / 2147483648) with 1; [reflexivity|].
    apply (Z.div_unique y 2147483648 1 (y - 2147483648)); lia.
  - apply Z.eqb_neq. rewrite Z.div_small by lia. discriminate.
Qed.

Lemma time_now_or_passed_sign_bit deadline now :
  _time_now_or_passed deadline now
  = Z.testbit ((deadline - now - 1) mod 2 ^ 32) 31.
Proof.
  unfold _time_now_or_passed. rewrite land_sign_bit. apply negb_involutive.
Qed.

Lemma time_now_or_passed_ge deadline now :
  _time_now_or_passed deadline now
  = (2 ^ 31 <=? (deadline - now - 1) mod 2 ^ 32).
Proof.
  rewrite time_now_or_passed_sign_bit. apply sign_bit_uint32.
  apply Z.mod_pos_bound. lia.
Qed.

(** ** C9 *)

(** C9, amended: the test is exactly the sign bit of
    [(deadline - now - 1) mod 2^32].  For a deadline set [d < 2^31] ticks
    after the time [t0] of scheduling, on a clock that shows the true time
    modulo 2^32, the test is false from [t0] until just before the deadline
    and true from the deadline on for 2^31 ticks (whatever overflows the
    counter makes in between); 2^31 ticks after the deadline it is false
    again. *)
Theorem time_now_or_passed_window :
  (forall deadline now,
      _time_now_or_passed deadline now
      = Z.testbit ((deadline - now - 1) mod 2 ^ 32) 31)
  /\ (forall t0 d T,
        0 <= d < 2 ^ 31 ->
        let deadline := (t0 + d) mod 2 ^ 32 in
        let now := T mod 2 ^ 32 in
        (t0 <= T < t0 + d -> _time_now_or_passed deadline now = false)
        /\ (t0 + d <= T < t0 + d + 2 ^ 31 ->
            _time_now_or_passed deadline now = true)
        /\ (T = t0 + d + 2 ^ 31 ->
            _time_now_or_passed deadline now = false)).
Proof.
  split; [exact time_now_or_passed_sign_bit|].
  intros t0 d T Hd deadline now. subst deadline now.
  rewrite time_now_or_passed_ge.
  change (2 ^ 31) with 2147483648 in *. change (2 ^ 32) with 4294967296.
  split; [|split]; intros HT;
    [apply Z.leb_gt | apply Z.leb_le | apply Z.leb_gt];
    Z.to_euclidean_division_equations; lia.
Qed.

(** C9, as stated, fails: a deadline 1000 ticks ahead of scheduling time 0,
    tested 2^31 ticks after the deadline, is reported as not passed. *)
Lemma time_now_or_passed_not_forever :
  0 <= 1000 < 2 ^ 31
  /\ 0 + 1000 <= 1000 + 2 ^ 31
  /\ _time_now_or_passed ((0 + 1000) mod 2 ^ 32) ((1000 + 2 ^ 31) mod 2 ^ 32)
     = false.
Proof. split; [lia|]. split; [lia|]. reflexivity. Qed.

(** ** The connect mailbox *)

Lemma pull_connect_rejects m w :
  issuedByUser (connect w) = true -> handled (connect w) = false ->
  handled (nextConnect m) = true \/ issuedByUser (nextConnect m) = false ->
  pull_connect m w = (m, w).
Proof.
  intros Hu Hh Hshared. unfold pull_connect.
  destruct (handled (nextConnect m)) eqn:Hn; simpl; [reflexivity|].
  destruct Hshared as [? | ->]; [discriminate|].
  by rewrite Hu, Hh.
Qed.

Lemma pull_scan_connect m w :
  nextConnect (fst (pull_scan m w)) = nextConnect m
  /\ connect (snd (pull_scan m w)) = connect w.
Proof. unfold pull_scan. by destruct (negb (scan_handled (nextScan m))). Qed.

Lemma exec_scan_connect r m w : connect (fst (exec_scan r m w)) = connect w.
Proof. unfold exec_scan. by destruct (_ && _). Qed.

(** A cycle of the worker that finds a manual command unconsumed in its
    local copy, and nothing but an automatic command (or nothing) in the
    mailbox, keeps the command or executes it. *)
Lemma worker_cycle_keeps_manual r m w m' w' calls :
  worker_cycle r m w = Some (m', w', calls) ->
  issuedByUser (connect w) = true -> handled (connect w) = false ->
  handled (nextConnect m) = true \/ issuedByUser (nextConnect m) = false ->
  nextConnect m' = nextConnect m
  /\ (connect w' = connect w \/ connect w' = mark_handled (connect w)).
Proof.
  intros Hc Hu Hh Hshared. unfold worker_cycle in Hc.
  rewrite (pull_connect_rejects m w Hu Hh Hshared) in Hc.
  pose proof (pull_scan_connect m w) as [Hn2 Hc2].
  destruct (pull_scan m w) as [m2 w2]. simpl in Hn2, Hc2.
  unfold exec_connect in Hc. cbn [connect] in Hc.
  destruct (negb (handled (connect w2))
            && _time_now_or_passed (execTime (connect w2)) (millis r)).
  - destruct (deref (networks (_wifiman_data m2)) (networkIndex (connect w2)))
      as [e|]; [|discriminate].
    simpl in Hc.
    match type of Hc with
    | context [exec_scan r m2 ?w4] =>
        pose proof (exec_scan_connect r m2 w4) as Hs;
          destruct (exec_scan r m2 w4) as [w5 calls2]
    end.
    simpl in Hs, Hc. injection Hc as <- <- _.
    split; [exact Hn2|]. right. rewrite Hs. by rewrite Hc2.
  - simpl in Hc.
    match type of Hc with
    | context [exec_scan r m2 ?w4] =>
        pose proof (exec_scan_connect r m2 w4) as Hs;
          destruct (exec_scan r m2 w4) as [w5 calls2]
    end.
    simpl in Hs, Hc. injection Hc as <- <- _.
    split; [exact Hn2|]. left. rewrite Hs. exact Hc2.
Qed.

(** What a cycle does to the local copy in general: it is the copy left by
    the pull, or that copy marked handled. *)
Lemma worker_cycle_connect r m w m' w' calls :
  worker_cycle r m w = Some (m', w', calls) ->
  connect w' = connect (snd (pull_connect m w))
  \/ connect w' = mark_handled (connect (snd (pull_connect m w))).
Proof.
  intros Hc. unfold worker_cycle in Hc.
  destruct (pull_connect m w) as [m1 w1]. simpl.
  pose proof (pull_scan_connect m1 w1) as [_ Hc2].
  destruct (pull_scan m1 w1) as [m2 w2]. simpl in Hc2.
  unfold exec_connect in Hc. cbn [connect] in Hc.
  destruct (negb (handled (connect w2))
            && _time_now_or_passed (execTime (connect w2)) (millis r)).
  - destruct (deref (networks (_wifiman_data m2)) (networkIndex (connect w2)))
      as [e|]; [|discriminate].
    simpl in Hc.
    match type of Hc with
    | context [exec_scan r m2 ?w4] =>
        pose proof (exec_scan_connect r m2 w4) as Hs;
          destruct (exec_scan r m2 w4) as [w5 calls2]
    end.
    simpl in Hs, Hc. injection Hc as <- <- _.
    right. rewrite Hs. by rewrite Hc2.
  - simpl in Hc.
    match type of Hc with
    | context [exec_scan r m2 ?w4] =>
        pose proof (exec_scan_connect r m2 w4) as Hs;
          destruct (exec_scan r m2 w4) as [w5 calls2]
    end.
    simpl in Hs, Hc. injection Hc as <- <- _.
    left. rewrite Hs. exact Hc2.
Qed.

Lemma run_app s es1 es2 :
  run s (es1 ++ es2) = s1 ← run s es1; run s1 es2.
Proof.
  revert s. induction es1 as [|e es1 IH]; intros s; simpl; [reflexivity|].
  destruct (step s e) as [s'|]; simpl; [apply IH | reflexivity].
Qed.

Lemma manual_command_survives es : forall s s',
  run s es = Some s' ->
  issuedByUser (connect (worker s)) = true ->
  handled (connect (worker s)) = false ->
  handled (nextConnect (manager s)) = true
  \/ issuedByUser (nextConnect (manager s)) = false ->
  forallb automatic_issue es = true ->
  connect (worker s') = connect (worker s)
  \/ exists es1 es2 s1,
       es = es1 ++ es2 /\ run s es1 = Some s1
       /\ connect (worker s1) = mark_handled (connect (worker s)).
Proof.
  induction es as [|e es IH]; intros s s' Hrun Hu Hh Hshared Hauto.
  - simpl in Hrun. injection Hrun as <-. by left.
  - simpl in Hrun, Hauto. apply andb_prop in Hauto as [He Hauto].
    destruct (step s e) as [s1|] eqn:Hstep; [|discriminate].
    simpl in Hrun.
    assert (connect (worker s1) = connect (worker s)
            /\ (handled (nextConnect (manager s1)) = true
                \/ issuedByUser (nextConnect (manager s1)) = false)
            \/ connect (worker s1) = mark_handled (connect (worker s)))
      as [[Hsame Hshared1]|Hdone].
    { destruct e as [r index byUser delay|r]; simpl in Hstep.
      - injection Hstep as <-. simpl in He. apply negb_true_iff in He.
        subst byUser. left. simpl. auto.
      - destruct (worker_cycle r (manager s) (worker s))
          as [[[m1 w1] calls]|] eqn:Hcycle; [|discriminate].
        simpl in Hstep. injection Hstep as <-.
        destruct (worker_cycle_keeps_manual _ _ _ _ _ _ Hcycle Hu Hh Hshared)
          as [Hn [Hc|Hc]]; simpl.
        + left. split; [exact Hc|]. by rewrite Hn.
        + by right. }
    + destruct (IH s1 s' Hrun) as [Hkeep|(es1 & es2 & s2 & -> & Hr1 & Hc)];
        try congruence.
      * left. congruence.
      * right. exists (e :: es1), es2, s2. split; [reflexivity|].
        simpl. rewrite Hstep. simpl. split; [exact Hr1 | congruence].
    + right. exists [e], es, s1. split; [reflexivity|].
      simpl. rewrite Hstep. auto.
Qed.

(** ** C1 *)

(** C1: a pull from the connect mailbox that finds a pending command takes
    it into the worker's local copy (and marks the mailbox consumed) iff the
    pending command is user-issued, or the local copy is already handled,
    or the local copy is not user-issued; otherwise nothing changes.  So,
    whatever commands are issued and however they interleave with worker
    cycles, a manual command that sits unconsumed in the local copy is next
    either kept, executed, or replaced by another user-issued command; and
    when only automatic commands are issued it stays in the local copy
    until the worker executes it. *)
Theorem connect_mailbox_priority :
  (forall m w,
      handled (nextConnect m) = false ->
      let accept := issuedByUser (nextConnect m) || handled (connect w)
                    || negb (issuedByUser (connect w)) in
      (pull_connect m w
       = (with_nextConnect m (mark_handled (nextConnect m)),
          mkWorker (nextConnect m) (scan w) (notifyValue w))
       <-> accept = true)
      /\ (accept = false -> pull_connect m w = (m, w)))
  /\ (forall s e s',
        step s e = Some s' ->
        issuedByUser (connect (worker s)) = true ->
        handled (connect (worker s)) = false ->
        issuedByUser (connect (worker s')) = true
        /\ (connect (worker s') = connect (worker s)
            \/ connect (worker s') = mark_handled (connect (worker s))
            \/ (issuedByUser (nextConnect (manager s)) = true
                /\ (connect (worker s') = nextConnect (manager s)
                    \/ connect (worker s')
                       = mark_handled (nextConnect (manager s))))))
  /\ (forall es s s',
        run s es = Some s' ->
        issuedByUser (connect (worker s)) = true ->
        handled (connect (worker s)) = false ->
        handled (nextConnect (manager s)) = true
        \/ issuedByUser (nextConnect (manager s)) = false ->
        forallb automatic_issue es = true ->
        connect (worker s') = connect (worker s)
        \/ exists es1 es2 s1,
             es = es1 ++ es2 /\ run s es1 = Some s1
             /\ connect (worker s1) = mark_handled (connect (worker s))).
Proof.
  split; [|split].
  - intros m w Hpending accept. unfold pull_connect. rewrite Hpending.
    simpl. fold accept. destruct accept; split.
    + split; reflexivity.
    + discriminate.
    + split; [|discriminate]. intros Heq.
      apply (f_equal (fun p => handled (nextConnect (fst p)))) in Heq.
      simpl in Heq. congruence.
    + reflexivity.
  - intros s e s' Hstep Hu Hh.
    destruct e as [r index byUser delay|r]; simpl in Hstep.
    + injection Hstep as <-. simpl. auto.
    + destruct (worker_cycle r (manager s) (worker s))
        as [[[m1 w1] calls]|] eqn:Hcycle; [|discriminate].
      simpl in Hstep. injection Hstep as <-. simpl.
      apply worker_cycle_connect in Hcycle. revert Hcycle.
      unfold pull_connect. rewrite Hu, Hh. simpl.
      destruct (handled (nextConnect (manager s))); simpl.
      { intros [-> | ->]; simpl; auto. }
      rewrite orb_false_r.
      destruct (issuedByUser (nextConnect (manager s))) eqn:Hnu; simpl.
      * intros [-> | ->]; simpl; rewrite ?Hnu; auto 7.
      * intros [-> | ->]; simpl; auto.
  - intros es s s'. apply manual_command_survives.
Qed.

(** ** The best-network selector *)

Lemma wf_data_pointwise d :
  0 <= length d <= capacity d -> capacity d <= 254 ->
  Z.of_nat (List.length (networks d)) = capacity d ->
  (forall j, 0 <= j < length d -> is_Some (deref (networks d) j)) ->
  wf_data d = true.
Proof.
  intros Hl Hc Hn Hall. unfold wf_data.
  rewrite !andb_true_iff, !Z.leb_le, Z.eqb_eq.
  repeat split; try lia.
  apply forallb_forall. intros p Hp.
  apply list_elem_of_In, list_elem_of_lookup in Hp as [k Hk].
  apply lookup_take_Some in Hk as [Hk Hlt].
  destruct (Hall (Z.of_nat k) ltac:(lia)) as [e He].
  apply deref_Some in He as [_ He]. rewrite Nat2Z.id in He.
  apply bool_decide_eq_true. rewrite Hk in He. injection He as ->. eauto.
Qed.

Lemma deref_insert nets i p j :
  0 <= i < Z.of_nat (List.length nets) -> 0 <= j ->
  deref (<[Z.to_nat i := p]> nets) j
  = if Z.eqb i j then p else deref nets j.
Proof.
  intros Hi Hj. unfold deref.
  destruct (Z.ltb_spec j 0); [lia|].
  destruct (Z.eqb_spec i j) as [->|Hne].
  - rewrite list_lookup_insert_eq by lia. reflexivity.
  - rewrite list_lookup_insert_ne by lia. reflexivity.
Qed.

Lemma reset_failed_spec n : forall nets i,
  0 <= i -> i + Z.of_nat n <= Z.of_nat (List.length nets) ->
  (forall j, i <= j < i + Z.of_nat n -> is_Some (deref nets j)) ->
  exists nets',
    reset_failed nets i n = Some nets'
    /\ List.length nets' = List.length nets
    /\ forall j, 0 <= j ->
         deref nets' j
         = if (i <=? j) && (j <? i + Z.of_nat n)
           then reset_entry <$> deref nets j else deref nets j.
Proof.
  induction n as [|n IH]; intros nets i Hi Hlen Hall; simpl.
  - exists nets. split; [reflexivity|]. split; [reflexivity|].
    intros j Hj. cases_Zb.
  - destruct (Hall i ltac:(lia)) as [e He]. rewrite He. simpl.
    set (nets1 := if state e =? NETWORK_FAILED_BEFORE
                  then <[Z.to_nat i := Some (reset_entry e)]> nets else nets).
    assert ((if state e =? NETWORK_FAILED_BEFORE
             then store_slot nets i
                    (Some (mkNetwork (ssid e) (pass e) NETWORK_STATE_UNKNOWN))
             else Some nets) = Some nets1) as ->.
    { subst nets1. unfold reset_entry.
      destruct (state e =? NETWORK_FAILED_BEFORE); [|reflexivity].
      apply store_slot_Some. lia. }
    simpl.
    assert (List.length nets1 = List.length nets) as Hlen1.
    { subst nets1. destruct (state e =? _); [apply length_insert | reflexivity]. }
    assert (forall j, 0 <= j ->
              deref nets1 j
              = if Z.eqb i j then Some (reset_entry e) else deref nets j)
      as Hd1.
    { intros j Hj. subst nets1. unfold reset_entry.
      destruct (state e =? NETWORK_FAILED_BEFORE) eqn:Hst.
      - apply deref_insert; lia.
      - destruct (Z.eqb_spec i j) as [->|]; [|reflexivity].
        rewrite He. by destruct e. }
    destruct (IH nets1 (i + 1) ltac:(lia) ltac:(lia))
      as (nets' & Hr & Hlen' & Hd').
    { intros j Hj. rewrite Hd1 by lia.
      destruct (Z.eqb_spec i j); [lia|]. apply Hall. lia. }
    exists nets'. split; [exact Hr|]. split; [congruence|].
    intros j Hj. rewrite Hd' by lia. rewrite Hd1 by lia.
    destruct (Z.eqb_spec i j) as [->|Hne].
    + rewrite He. cases_Zb.
    + cases_Zb.
Qed.

Lemma reset_failed_wf d :
  wf_data d = true ->
  exists nets',
    reset_failed (networks d) 0 (Z.to_nat (length d)) = Some nets'
    /\ wf_data (set_networks d nets') = true
    /\ forall j, 0 <= j < length d ->
         deref nets' j = reset_entry <$> deref (networks d) j.
Proof.
  intros H. pose proof (wf_data_range d H) as (Hl & Hc & Hn).
  destruct (reset_failed_spec (Z.to_nat (length d)) (networks d) 0)
    as (nets' & Hr & Hlen & Hd); [lia | lia | |].
  { intros j Hj. apply deref_allocated; [exact H | lia]. }
  assert (forall j, 0 <= j < length d ->
            deref nets' j = reset_entry <$> deref (networks d) j) as Hd'.
  { intros j Hj. rewrite Hd by lia. cases_Zb. }
  exists nets'. split; [exact Hr|]. split; [|exact Hd'].
  apply wf_data_pointwise; simpl; try lia.
  intros j Hj. rewrite Hd' by lia.
  destruct (deref_allocated d j H Hj) as [e ->]. simpl. eauto.
Qed.

Lemma select_best_total d (H : wf_data d = true) results : forall b bi,
  exists b' bi',
    select_best d results b bi = Some (b', bi')
    /\ (bi' = bi \/ 0 <= bi' < length d).
Proof.
  induction results as [|[s rssi] rest IH]; intros b bi; cbn [select_best].
  - eauto.
  - destruct (find_wf d (Some s) H) as (result & -> & Hres). simpl.
    destruct (Z.geb_spec result (length d)) as [Hge|Hlt]; simpl.
    { apply IH. }
    destruct (deref_allocated d result H ltac:(lia)) as [e ->]. simpl.
    destruct (state e =? NETWORK_FAILED_BEFORE); [apply IH|].
    destruct (rssi >? b); [|apply IH].
    destruct (IH rssi result) as (b' & bi' & -> & Hbi).
    exists b', bi'. split; [reflexivity|]. right. lia.
Qed.

Lemma usable_match_unique d s j j' :
  wf_data d = true -> NoDup (ssids d) ->
  usable_match d s j -> usable_match d s j' -> j = j'.
Proof.
  intros H Hnd (Hj & e & He & Hs & _) (Hj' & e' & He' & Hs' & _).
  assert (forall i x, 0 <= i < length d -> deref (networks d) i = Some x ->
            ssid x = s -> ssids d !! Z.to_nat i = Some s) as Hlook.
  { intros i x Hi Hx <-. unfold ssids.
    by rewrite list_lookup_fmap, <- (deref_entries d i H Hi), Hx. }
  pose proof (NoDup_lookup _ _ _ _ Hnd (Hlook j e Hj He Hs)
                (Hlook j' e' Hj' He' Hs')).
  lia.
Qed.

(** One iteration of the selection loop, on a valid registry: the scan
    result either names a usable entry, which then competes on signal
    strength, or it names none and is skipped. *)
Lemma select_best_iteration d s rssi rest b bi :
  wf_data d = true -> NoDup (ssids d) -> nonempty_ssids d = true ->
  (exists j, usable_match d s j
             /\ select_best d ((s, rssi) :: rest) b bi
                = if rssi >? b then select_best d rest rssi j
                  else select_best d rest b bi)
  \/ ((forall j, ~ usable_match d s j)
      /\ select_best d ((s, rssi) :: rest) b bi = select_best d rest b bi).
Proof.
  intros H Hnd Hne.
  pose proof (wf_data_range d H) as (Hl & Hc & Hn).
  assert (forall j, usable_match d s j -> s ∈ ssids d) as Hin.
  { intros j (Hj & e & He & Hs & _). apply (elem_of_ssids d s H). eauto. }
  cbn [select_best wifiman_findNetworkInList].
  destruct (String.eqb_spec s "") as [->|Hs]; simpl.
  { right. split.
    - intros j Hu. apply Hin in Hu.
      unfold nonempty_ssids in Hne. rewrite forallb_forall in Hne.
      apply list_elem_of_In, Hne in Hu. discriminate.
    - destruct (Z.geb_spec UINT8_MINUS_1 (length d)); [reflexivity|].
      unfold UINT8_MINUS_1 in *. lia. }
  destruct (first_match_wf d s H) as (r & -> & Hspec). simpl.
  destruct r as [j|]; simpl.
  - destruct Hspec as (Hj & (e & He & Hse) & _).
    destruct (Z.geb_spec j (length d)); [lia|]. rewrite He. simpl.
    destruct (Z.eqb_spec (state e) NETWORK_FAILED_BEFORE) as [Hst|Hst].
    + right. split; [|reflexivity]. intros j' Hu.
      assert (j' = j) as ->.
      { destruct Hu as (Hj' & e' & He' & Hs' & Hst').
        destruct (decide (j' = j)) as [|Hne']; [assumption|].
        exfalso.
        assert (forall i x, 0 <= i < length d ->
                  deref (networks d) i = Some x -> ssid x = s ->
                  ssids d !! Z.to_nat i = Some s) as Hlook.
        { intros i x Hi Hx <-. unfold ssids.
          by rewrite list_lookup_fmap, <- (deref_entries d i H Hi), Hx. }
        pose proof (NoDup_lookup _ _ _ _ Hnd (Hlook j' e' Hj' He' Hs')
                      (Hlook j e Hj He Hse)). lia. }
      destruct Hu as (_ & e' & He' & _ & Hst'). congruence.
    + left. exists j. split; [|reflexivity].
      split; [exact Hj|]. eauto.
  - right. split.
    + intros j Hu. apply Hspec. eauto.
    + destruct (Z.geb_spec UINT8_MINUS_1 (length d)); [reflexivity|].
      unfold UINT8_MINUS_1 in *. lia.
Qed.

(** The selection loop keeps the first scan result of maximal signal
    strength among those that name a usable entry and beat the strength it
    started with. *)
Lemma select_best_spec d
    (H : wf_data d = true) (Hnd : NoDup (ssids d))
    (Hne : nonempty_ssids d = true) results : forall b bi,
  exists b' bi',
    select_best d results b bi = Some (b', bi')
    /\ ((b' = b /\ bi' = bi
         /\ forall k s rssi j,
              results !! k = Some (s, rssi) -> usable_match d s j ->
              rssi <= b)
        \/ (exists k s,
              results !! k = Some (s, b') /\ usable_match d s bi' /\ b < b'
              /\ forall k' s' rssi' j',
                   results !! k' = Some (s', rssi') -> usable_match d s' j' ->
                   rssi' <= b' /\ (rssi' = b' -> (k <= k')%nat))).
Proof.
  induction results as [|[s rssi] rest IH]; intros b bi.
  - exists b, bi. split; [reflexivity|]. left.
    split; [reflexivity|]. split; [reflexivity|].
    intros k s rssi j Hk. by rewrite lookup_nil in Hk.
  - destruct (select_best_iteration d s rssi rest b bi H Hnd Hne)
      as [(j & Hu & ->)|(Hnone & ->)].
    + destruct (Z.gtb_spec rssi b) as [Hgt|Hle].
      * destruct (IH rssi j) as (b' & bi' & -> & Hcases).
        exists b', bi'. split; [reflexivity|]. right.
        destruct Hcases as [(-> & -> & Hall)|(k & s' & Hk & Hu' & Hlt & Hall)].
        -- exists 0%nat, s. split; [reflexivity|]. split; [exact Hu|].
           split; [lia|]. intros [|k'] s' rssi' j' Hk' Hu'; simpl in Hk'.
           ++ injection Hk' as <- <-. split; [lia|]. intros; lia.
           ++ pose proof (Hall k' s' rssi' j' Hk' Hu'). split; lia.
        -- exists (S k), s'. split; [exact Hk|]. split; [exact Hu'|].
           split; [lia|]. intros [|k'] s'' rssi' j' Hk' Hu''; simpl in Hk'.
           ++ injection Hk' as <- <-. split; lia.
           ++ destruct (Hall k' s'' rssi' j' Hk' Hu''). split; [lia|].
              intros. apply le_n_S. auto.
      * destruct (IH b bi) as (b' & bi' & -> & Hcases).
        exists b', bi'. split; [reflexivity|].
        destruct Hcases as [(-> & -> & Hall)|(k & s' & Hk & Hu' & Hlt & Hall)].
        -- left. split; [reflexivity|]. split; [reflexivity|].
           intros [|k'] s' rssi' j' Hk' Hu'; simpl in Hk'.
           ++ injection Hk' as <- <-. lia.
           ++ exact (Hall k' s' rssi' j' Hk' Hu').
        -- right. exists (S k), s'. split; [exact Hk|]. split; [exact Hu'|].
           split; [lia|]. intros [|k'] s'' rssi' j' Hk' Hu''; simpl in Hk'.
           ++ injection Hk' as <- <-. split; lia.
           ++ destruct (Hall k' s'' rssi' j' Hk' Hu''). split; [lia|].
              intros. apply le_n_S. auto.
    + destruct (IH b bi) as (b' & bi' & -> & Hcases).
      exists b', bi'. split; [reflexivity|].
      destruct Hcases as [(-> & -> & Hall)|(k & s' & Hk & Hu' & Hlt & Hall)].
      * left. split; [reflexivity|]. split; [reflexivity|].
        intros [|k'] s' rssi' j' Hk' Hu'; simpl in Hk'.
        -- injection Hk' as <- <-. exfalso. exact (Hnone j' Hu').
        -- exact (Hall k' s' rssi' j' Hk' Hu').
      * right. exists (S k), s'. split; [exact Hk|]. split; [exact Hu'|].
        split; [lia|]. intros [|k'] s'' rssi' j' Hk' Hu''; simpl in Hk'.
        -- injection Hk' as <- <-. exfalso. exact (Hnone j' Hu'').
        -- destruct (Hall k' s'' rssi' j' Hk' Hu''). split; [lia|].
           intros. apply le_n_S. auto.
Qed.

Lemma wf_manager_spec m :
  wf_manager m = true <->
  wf_data (_wifiman_data m) = true
  /\ 0 <= _wifiman_retryCount m <= 255 /\ 0 <= _wifiman_maxRetries m <= 255.
Proof.
  unfold wf_manager, is_uint8.
  rewrite !andb_true_iff, !Z.leb_le. tauto.
Qed.

(** What a connect-to-best request can do to a well-formed manager: it
    never faults; either it succeeds, issues a user-flagged command, resets
    the retry counter, sets the status to Connecting and reports it to the
    callback, or it leaves status, callback log, retry counter and connect
    mailbox alone. *)
Lemma connectToBestWifi_effect r m :
  wf_manager m = true ->
  exists rc m',
    wifiman_connectToBestWifi r m = Some (rc, m')
    /\ wf_manager m' = true
    /\ _wifiman_statusCallback m' = _wifiman_statusCallback m
    /\ _wifiman_maxRetries m' = _wifiman_maxRetries m
    /\ _wifiman_autoConnect m' = _wifiman_autoConnect m
    /\ ((rc = WMRT_SUCCESS
         /\ _wifiman_retryCount m' = 0
         /\ issuedByUser (nextConnect m') = true
         /\ code (status (_wifiman_data m')) = CONNECTING
         /\ callbackLog m'
            = (if _wifiman_statusCallback m
               then status (_wifiman_data m') :: callbackLog m
               else callbackLog m))
        \/ (rc <> WMRT_SUCCESS
            /\ status (_wifiman_data m') = status (_wifiman_data m)
            /\ callbackLog m' = callbackLog m
            /\ _wifiman_retryCount m' = _wifiman_retryCount m
            /\ nextConnect m' = nextConnect m)).
Proof.
  intros Hm. pose proof Hm as Hm'.
  apply wf_manager_spec in Hm' as (H & Hrc & Hmax).
  assert (forall rc m',
            rc <> WMRT_SUCCESS -> wf_manager m' = true ->
            _wifiman_statusCallback m' = _wifiman_statusCallback m ->
            _wifiman_maxRetries m' = _wifiman_maxRetries m ->
            _wifiman_autoConnect m' = _wifiman_autoConnect m ->
            status (_wifiman_data m') = status (_wifiman_data m) ->
            callbackLog m' = callbackLog m ->
            _wifiman_retryCount m' = _wifiman_retryCount m ->
            nextConnect m' = nextConnect m ->
            exists rc0 m0,
              Some (rc, m') = Some (rc0, m0)
              /\ wf_manager m0 = true
              /\ _wifiman_statusCallback m0 = _wifiman_statusCallback m
              /\ _wifiman_maxRetries m0 = _wifiman_maxRetries m
              /\ _wifiman_autoConnect m0 = _wifiman_autoConnect m
              /\ ((rc0 = WMRT_SUCCESS
                   /\ _wifiman_retryCount m0 = 0
                   /\ issuedByUser (nextConnect m0) = true
                   /\ code (status (_wifiman_data m0)) = CONNECTING
                   /\ callbackLog m0
                      = (if _wifiman_statusCallback m
                         then status (_wifiman_data m0) :: callbackLog m
                         else callbackLog m))
                  \/ (rc0 <> WMRT_SUCCESS
                      /\ status (_wifiman_data m0) = status (_wifiman_data m)
                      /\ callbackLog m0 = callbackLog m
                      /\ _wifiman_retryCount m0 = _wifiman_retryCount m
                      /\ nextConnect m0 = nextConnect m))) as Hquiet.
  { intros rc m' **. exists rc, m'. split; [reflexivity|]. auto 12. }
  unfold wifiman_connectToBestWifi.
  destruct (length (_wifiman_data m) =? 0).
  { apply Hquiet; auto; discriminate. }
  destruct (_ >? WM_SCAN_MAX_AGE_MS).
  { apply Hquiet; auto; discriminate. }
  destruct (scanComplete r =? -2).
  { apply Hquiet; auto; discriminate. }
  destruct (scanComplete r =? -1).
  { apply Hquiet; auto; discriminate. }
  destruct (scanComplete r =? 0).
  { apply Hquiet; auto; discriminate. }
  destruct (select_best_total (_wifiman_data m) H (scanResults r) INT_MIN (-1))
    as (b' & bi' & -> & Hbi). simpl.
  destruct (Z.eqb_spec bi' (-1)) as [->|Hne].
  - destruct (reset_failed_wf (_wifiman_data m) H) as (nets' & -> & Hwf & _).
    simpl. apply Hquiet; auto; try discriminate.
    apply wf_manager_spec. simpl. auto.
  - destruct Hbi as [?|Hbi]; [contradiction|].
    destruct (deref_allocated (_wifiman_data m) bi' H Hbi) as [e ->]. simpl.
    eexists _, _. split; [reflexivity|].
    unfold call_statusCallback. simpl.
    destruct (_wifiman_statusCallback m) eqn:Hcb; simpl;
      (split; [apply wf_manager_spec; simpl; repeat split; (exact H || lia)|]);
      rewrite ?Hcb; auto 12.
Qed.

(** ** C5 *)

(** C5: when [wifiman_connectToBestWifi] reaches its selection loop (the
    last scan is recent and complete) on a valid registry with non-empty
    SSIDs, and at least one scan result names an entry that is not marked
    as failed, the request succeeds and the command it issues targets the
    entry of such a scan result with the strongest signal, the earliest in
    scan order among equally strong ones; the target is never a failed
    entry.  When no scan result names a usable entry nothing is selected. *)
Theorem best_wifi_selects_strongest_usable
    (r : Radio) (m : Manager) (results : list (string * Z)) :
  valid_registry (_wifiman_data m) = true ->
  nonempty_ssids (_wifiman_data m) = true ->
  (millis r - _wifiman_scanTime m) mod 2 ^ 32 <= WM_SCAN_MAX_AGE_MS ->
  scanState r = ScanDone results ->
  rssi_above_min results = true ->
  ((exists k s rssi j,
       results !! k = Some (s, rssi) /\ usable_match (_wifiman_data m) s j) ->
   exists m' k s rssi j,
     wifiman_connectToBestWifi r m = Some (WMRT_SUCCESS, m')
     /\ results !! k = Some (s, rssi)
     /\ usable_match (_wifiman_data m) s j
     /\ nextConnect m' = mkConnect ((millis r + 0) mod 2 ^ 32) j true false
     /\ targetNetwork (status (_wifiman_data m')) = j
     /\ forall k' s' rssi' j',
          results !! k' = Some (s', rssi') ->
          usable_match (_wifiman_data m) s' j' ->
          rssi' <= rssi /\ (rssi' = rssi -> (k <= k')%nat))
  /\ ((forall k s rssi j,
         results !! k = Some (s, rssi) ->
         ~ usable_match (_wifiman_data m) s j) ->
      exists m',
        wifiman_connectToBestWifi r m = Some (WMRT_NETWORK_NOT_IN_LIST, m')
        /\ nextConnect m' = nextConnect m
        /\ status (_wifiman_data m') = status (_wifiman_data m)).
Proof.
  intros Hv Hne Hage Hscan Hrssi.
  apply valid_registry_spec in Hv as [H Hnd].
  assert (scanComplete r = Z.of_nat (List.length results)) as Hsc
    by (unfold scanComplete; by rewrite Hscan).
  assert (scanResults r = results) as Hsr
    by (unfold scanResults; by rewrite Hscan).
  unfold wifiman_connectToBestWifi. rewrite Hsc, Hsr.
  destruct (Z.gtb_spec ((millis r - _wifiman_scanTime m) mod 2 ^ 32)
              WM_SCAN_MAX_AGE_MS); [lia|].
  destruct (Z.eqb_spec (Z.of_nat (List.length results)) (-2)); [lia|].
  destruct (Z.eqb_spec (Z.of_nat (List.length results)) (-1)); [lia|].
  destruct (select_best_spec (_wifiman_data m) H Hnd Hne results INT_MIN (-1))
    as (b' & bi' & Hsel & Hcases).
  split.
  - intros (k0 & s0 & rssi0 & j0 & Hk0 & Hu0).
    destruct (Z.eqb_spec (length (_wifiman_data m)) 0) as [Hl0|_].
    { destruct Hu0 as [? _]. lia. }
    destruct (Z.eqb_spec (Z.of_nat (List.length results)) 0) as [Hr0|_].
    { apply lookup_lt_Some in Hk0. lia. }
    rewrite Hsel. simpl.
    destruct Hcases as [(_ & _ & Hall)|(k & s & Hk & Hu & Hlt & Hall)].
    { exfalso. pose proof (Hall k0 s0 rssi0 j0 Hk0 Hu0) as Hle.
      unfold rssi_above_min in Hrssi. rewrite forallb_forall in Hrssi.
      apply list_elem_of_lookup_2, list_elem_of_In, Hrssi in Hk0.
      simpl in Hk0. apply Z.ltb_lt in Hk0. lia. }
    pose proof Hu as (Hj & e & He & _).
    destruct (Z.eqb_spec bi' (-1)); [lia|]. rewrite He. simpl.
    eexists _, k, s, b', bi'. split; [reflexivity|].
    split; [exact Hk|]. split; [exact Hu|].
    unfold call_statusCallback.
    destruct (_wifiman_statusCallback _); simpl; auto.
  - intros Hnone.
    destruct (length (_wifiman_data m) =? 0); [eauto|].
    destruct (Z.of_nat (List.length results) =? 0); [eauto|].
    rewrite Hsel. simpl.
    destruct Hcases as [(_ & -> & _)|(k & s & Hk & Hu & _)].
    2:{ exfalso. exact (Hnone k s b' bi' Hk Hu). }
    simpl.
    destruct (reset_failed_wf (_wifiman_data m) H) as (nets' & -> & _).
    simpl. eexists. split; [reflexivity|]. auto.
Qed.

(** ** C6 *)

Lemma count_usable_all_failed nets n : forall i count,
  (forall j, i <= j < i + Z.of_nat n ->
     exists e, deref nets j = Some e /\ state e = NETWORK_FAILED_BEFORE) ->
  count_usable nets i n count = Some count.
Proof.
  induction n as [|n IH]; intros i count Hall; simpl; [reflexivity|].
  destruct (Hall i ltac:(lia)) as (e & -> & Hst). simpl.
  rewrite Hst. simpl. apply IH. intros j Hj. apply Hall. lia.
Qed.

Lemma countUsable_all_failed d :
  wf_data d = true -> all_failed d = true ->
  wifiman_countUsableNetworks d = Some 0.
Proof.
  intros H Hall. unfold wifiman_countUsableNetworks.
  destruct (length d =? 0); [reflexivity|].
  apply count_usable_all_failed. intros j Hj.
  pose proof (wf_data_range d H) as (Hl & _ & _).
  destruct (deref_allocated d j H ltac:(lia)) as [e He].
  exists e. split; [exact He|].
  unfold all_failed in Hall. rewrite forallb_forall in Hall.
  rewrite (deref_entries d j H ltac:(lia)) in He.
  apply list_elem_of_lookup_2, list_elem_of_In, Hall in He.
  by apply Z.eqb_eq in He.
Qed.

(** C6, amended: a connect-to-best request on an empty registry reports
    NetworkNotInList and changes nothing (no scan or connect command, no
    registry or status change); for a registry without usable entries the
    gate is in the autonomous connection check, which then returns without
    calling the selector and changes nothing either. *)
Theorem no_usable_network_gates (r : Radio) (m : Manager) :
  wf_data (_wifiman_data m) = true ->
  all_failed (_wifiman_data m) = true ->
  (length (_wifiman_data m) = 0 ->
   wifiman_connectToBestWifi r m = Some (WMRT_NETWORK_NOT_IN_LIST, m))
  /\ _wifiman_checkConnection r m = Some m.
Proof.
  intros H Hall. split.
  - intros Hlen. unfold wifiman_connectToBestWifi. by rewrite Hlen.
  - unfold _wifiman_checkConnection.
    destruct (wl_connected r); [reflexivity|].
    by rewrite (countUsable_all_failed _ H Hall).
Qed.

(** C6, as stated, fails: with "A" marked as failed (no usable entry) and
    no recent scan, a connect-to-best request issues a scan command and
    reports ScanNotReady. *)
Lemma connect_to_best_scans_without_usable_network :
  all_failed registry_failed_A = true
  /\ wifiman_countUsableNetworks registry_failed_A = Some 0
  /\ wifiman_connectToBestWifi (mkRadio 61000 false ScanNotStarted)
       (manager_on registry_failed_A)
     = Some (WMRT_SCAN_NOT_READY,
             with_scanTime
               (with_nextScan (manager_on registry_failed_A)
                  (mkScan 61000 false))
               61000).
Proof. repeat split; reflexivity. Qed.

(** The scenario of the specification: "A" has failed and is in range;
    the request reports NetworkNotInList and resets "A" to Unknown. *)
Lemma failed_network_is_reset :
  wifiman_connectToBestWifi
    (mkRadio 1000 false (ScanDone [("A"%string, -30)]))
    (manager_on registry_failed_A)
  = Some (WMRT_NETWORK_NOT_IN_LIST,
          with_data (manager_on registry_failed_A)
            (set_networks registry_failed_A
               [Some (mkNetwork "A" None NETWORK_STATE_UNKNOWN)])).
Proof. reflexivity. Qed.

(** ** Event handlers on well-formed managers *)

Lemma first_match_len_total nets s n : forall i,
  0 <= i ->
  (forall j, i <= j < i + Z.of_nat n -> is_Some (deref nets j)) ->
  exists r, first_match_len nets s i n = Some r /\
    match r with
    | Some j => i <= j < i + Z.of_nat n
    | None => True
    end.
Proof.
  induction n as [|n IH]; intros i Hi Hall; simpl.
  - by exists None.
  - destruct (Hall i ltac:(lia)) as [e ->]. simpl.
    destruct (IH (i + 1) ltac:(lia)) as (r & Hr & Hspec).
    { intros j Hj. apply Hall. lia. }
    assert (exists r', first_match_len nets s (i + 1) n = Some r' /\
              match r' with
              | Some j => i <= j < i + Z.of_nat (S n)
              | None => True
              end) as Hrest.
    { exists r. split; [exact Hr|]. destruct r; [lia | exact I]. }
    destruct (negb (_ =? _)%nat); [exact Hrest|].
    destruct (negb (String.eqb _ _)); [exact Hrest|].
    exists (Some i). split; [reflexivity | lia].
Qed.

Lemma find_len_wf d s :
  wf_data d = true ->
  exists index,
    wifiman_findNetworkInList_len d s = Some index
    /\ (index = 255 \/ 0 <= index < length d).
Proof.
  intros H. pose proof (wf_data_range d H) as (Hl & _ & _).
  unfold wifiman_findNetworkInList_len.
  destruct s as [|c s]; [exists 255; auto|].
  destruct (Ascii.eqb c zero); [exists 255; auto|].
  destruct (first_match_len_total (networks d) (String c s)
              (Z.to_nat (length d)) 0 ltac:(lia)) as (r & -> & Hspec).
  { intros j Hj. apply deref_allocated; [exact H | lia]. }
  simpl. destruct r as [j|]; simpl; [|exists 255; auto].
  exists j. split; [reflexivity|]. right. lia.
Qed.

Lemma set_state_wf d index st :
  wf_data d = true -> 0 <= index < length d ->
  exists d',
    set_state d index st = Some d' /\ wf_data d' = true
    /\ status d' = status d /\ length d' = length d.
Proof.
  intros H Hi. pose proof (wf_data_range d H) as (Hl & Hc & Hn).
  unfold set_state.
  destruct (deref_allocated d index H Hi) as [e ->]. simpl.
  rewrite store_slot_Some by lia. simpl.
  eexists. split; [reflexivity|].
  destruct (update_slot_wf d index (mkNetwork (ssid e) (pass e) st) H Hi)
    as [Hwf _].
  split; [exact Hwf|]. split; reflexivity.
Qed.

Lemma count_usable_total nets n : forall i count,
  (forall j, i <= j < i + Z.of_nat n -> is_Some (deref nets j)) ->
  is_Some (count_usable nets i n count).
Proof.
  induction n as [|n IH]; intros i count Hall; simpl; [eauto|].
  destruct (Hall i ltac:(lia)) as [e ->]. simpl.
  apply IH. intros j Hj. apply Hall. lia.
Qed.

Lemma selector_effect_refl m : wf_manager m = true -> selector_effect m m.
Proof. intros H. unfold selector_effect. auto 10. Qed.

Lemma checkConnection_effect r m :
  wf_manager m = true ->
  exists m', _wifiman_checkConnection r m = Some m' /\ selector_effect m m'.
Proof.
  intros Hm. pose proof Hm as Hm'.
  apply wf_manager_spec in Hm' as (H & Hrc & Hmax).
  pose proof (wf_data_range _ H) as (Hl & _ & _).
  unfold _wifiman_checkConnection.
  destruct (wl_connected r).
  { exists m. split; [reflexivity | by apply selector_effect_refl]. }
  assert (is_Some (wifiman_countUsableNetworks (_wifiman_data m)))
    as [usable ->].
  { unfold wifiman_countUsableNetworks.
    destruct (length (_wifiman_data m) =? 0); [eauto|].
    apply count_usable_total. intros j Hj.
    apply deref_allocated; [exact H | lia]. }
  simpl. destruct (usable =? 0).
  { exists m. split; [reflexivity | by apply selector_effect_refl]. }
  destruct (connectToBestWifi_effect r m Hm)
    as (rc & m1 & -> & Hwf1 & Hcb & Hmr & Hac & Hcases).
  simpl.
  assert (forall v, selector_effect m (with_workerNotification m1 v)) as Heff.
  { intros v. unfold selector_effect. simpl.
    split; [exact Hwf1|]. split; [exact Hcb|]. split; [exact Hmr|].
    split; [exact Hac|].
    destruct Hcases as [(_ & ? & ? & ? & ?)|(_ & ? & ? & ? & ?)]; auto 10. }
  destruct (bool_decide (rc = WMRT_NETWORK_NOT_IN_LIST));
    eexists; (split; [reflexivity|]); apply Heff.
Qed.

Lemma retry_due_spec m ev_ssid reason index :
  wifiman_findNetworkInList_len (_wifiman_data m) ev_ssid = Some index ->
  retry_due m ev_ssid reason = true <->
  index < length (_wifiman_data m)
  /\ _wifiman_retryCount m < _wifiman_maxRetries m
  /\ reason <> WIFI_REASON_ASSOC_LEAVE.
Proof.
  intros Hf. unfold retry_due, target_known. rewrite Hf.
  rewrite !andb_true_iff, negb_true_iff, !Z.ltb_lt, Z.eqb_neq. tauto.
Qed.

(** The retry branch of the disconnect handler. *)
Lemma disconnected_retry r ev_ssid reason m index :
  wf_manager m = true ->
  wifiman_findNetworkInList_len (_wifiman_data m) ev_ssid = Some index ->
  retry_due m ev_ssid reason = true ->
  _wifiman_wifiDisconnectedEvent r ev_ssid reason m
  = Some (with_retryCount
            (_wifiman_connect r index false
               (retry_delay (_wifiman_retryCount m))
               (with_status m (mkStatus index (disconnect_code reason) reason)))
            (_wifiman_retryCount m + 1)).
Proof.
  intros Hm Hf Hdue.
  apply wf_manager_spec in Hm as (H & Hrc & Hmax).
  apply (retry_due_spec m ev_ssid reason index Hf) in Hdue
    as (Hidx & Hlt & Hreason).
  unfold _wifiman_wifiDisconnectedEvent, disconnect_code. rewrite Hf. simpl.
  destruct (Z.eqb_spec reason WIFI_REASON_ASSOC_LEAVE); [contradiction|].
  simpl.
  destruct (reason =? WIFI_REASON_AUTH_LEAVE); simpl.
  {
    destruct (Z.ltb_spec index (length (_wifiman_data m))); [|lia].
    destruct (Z.ltb_spec (_wifiman_retryCount m) (_wifiman_maxRetries m));
      [|lia].
    simpl. rewrite Z.mod_small by lia. reflexivity. }
  destruct (reason =? WIFI_REASON_NO_AP_FOUND); simpl.
  { destruct (Z.ltb_spec index (length (_wifiman_data m))); [|lia].
    destruct (Z.ltb_spec (_wifiman_retryCount m) (_wifiman_maxRetries m));
      [|lia].
    simpl. rewrite Z.mod_small by lia. reflexivity. }
  destruct (Z.geb_spec (_wifiman_retryCount m) (_wifiman_maxRetries m));
    [lia|].
  rewrite andb_false_r. simpl.
  destruct (Z.ltb_spec index (length (_wifiman_data m))); [|lia].
  destruct (Z.ltb_spec (_wifiman_retryCount m) (_wifiman_maxRetries m));
    [|lia].
  simpl. rewrite Z.mod_small by lia. reflexivity.
Qed.

(** The other branch: the status is reported to the callback; then, in
    autonomous mode and unless the reason is [WIFI_REASON_ASSOC_LEAVE], the
    connection check runs. *)
Lemma disconnected_no_retry r ev_ssid reason m index :
  wf_manager m = true ->
  wifiman_findNetworkInList_len (_wifiman_data m) ev_ssid = Some index ->
  retry_due m ev_ssid reason = false ->
  exists data1,
    wf_data data1 = true
    /\ _wifiman_wifiDisconnectedEvent r ev_ssid reason m
       = let m1 := call_statusCallback
                     (with_data m
                        (set_status data1
                           (mkStatus index (disconnect_code reason) reason))) in
         if _wifiman_autoConnect m && negb (reason =? WIFI_REASON_ASSOC_LEAVE)
         then _wifiman_checkConnection r m1 else Some m1.
Proof.
  intros Hm Hf Hdue. pose proof Hm as Hm'.
  apply wf_manager_spec in Hm' as (H & Hrc & Hmax).
  destruct (find_len_wf _ ev_ssid H) as (index' & Hf' & Hidx).
  rewrite Hf in Hf'. injection Hf' as <-.
  unfold retry_due, target_known in Hdue. rewrite Hf in Hdue.
  unfold _wifiman_wifiDisconnectedEvent, disconnect_code. rewrite Hf. simpl.
  assert (exists data1,
            wf_data data1 = true /\ length data1 = length (_wifiman_data m)
            /\ (if (index <? length (_wifiman_data m))
                   && (_wifiman_retryCount m >=? _wifiman_maxRetries m)
                then set_state (_wifiman_data m) index NETWORK_FAILED_BEFORE
                else Some (_wifiman_data m)) = Some data1)
    as (dflt & Hwfd & Hlend & Hd).
  { destruct ((index <? length (_wifiman_data m))
              && (_wifiman_retryCount m >=? _wifiman_maxRetries m)) eqn:Hc.
    - apply andb_prop in Hc as [Hc _]. apply Z.ltb_lt in Hc.
      destruct (set_state_wf (_wifiman_data m) index NETWORK_FAILED_BEFORE H
                  ltac:(lia)) as (d' & -> & Hwf' & _ & Hlen').
      eauto.
    - eauto. }
  set (leave := (reason =? WIFI_REASON_ASSOC_LEAVE)
                || (reason =? WIFI_REASON_AUTH_LEAVE)).
  exists (if leave then _wifiman_data m
          else if reason =? WIFI_REASON_NO_AP_FOUND then _wifiman_data m
          else dflt).
  split.
  { destruct leave; [exact H|].
    destruct (reason =? WIFI_REASON_NO_AP_FOUND); [exact H | exact Hwfd]. }
  destruct leave; simpl.
  { rewrite Hdue. unfold call_statusCallback. simpl.
    by destruct (_wifiman_statusCallback m). }
  destruct (reason =? WIFI_REASON_NO_AP_FOUND); simpl.
  { rewrite Hdue. unfold call_statusCallback. simpl.
    by destruct (_wifiman_statusCallback m). }
  rewrite Hd. simpl. rewrite Hlend, Hdue.
  unfold call_statusCallback. simpl.
  by destruct (_wifiman_statusCallback m).
Qed.

Lemma call_statusCallback_wf m :
  wf_manager (call_statusCallback m) = wf_manager m.
Proof. unfold call_statusCallback. by destruct (_wifiman_statusCallback m). Qed.

(** ** C2 *)

(** C2, amended: a disconnect with reason [WIFI_REASON_ASSOC_LEAVE] sets
    the status code to Disconnected and schedules no retry, whatever the
    retry counter (mailbox and counter stay as they were).  A disconnect
    with reason [WIFI_REASON_AUTH_LEAVE] sets it to Disconnected as well,
    in every case, but is retried like any other reason: with a known
    target and the counter below the maximum the retry is scheduled, and
    otherwise the Disconnected status is what the callback and the
    connection check get.  In general a retry is scheduled iff the target
    index is known, the retry counter is below [maxRetries] and the reason
    is not [WIFI_REASON_ASSOC_LEAVE]: under these conditions the automatic
    command is in the mailbox, the counter is one higher, the status holds
    target, code and reason and the callback is not called; when one of
    them fails no automatic command is put into the mailbox (it is as
    before, or holds the user-priority command of the connection check),
    and the counter is not incremented. *)
Theorem disconnect_retry_decision
    (r : Radio) (ev_ssid : string) (reason : Z) (m : Manager) :
  wf_manager m = true ->
  exists index m',
    wifiman_findNetworkInList_len (_wifiman_data m) ev_ssid = Some index
    /\ _wifiman_wifiDisconnectedEvent r ev_ssid reason m = Some m'
    /\ (reason = WIFI_REASON_ASSOC_LEAVE ->
        code (status (_wifiman_data m')) = DISCONNECTED
        /\ nextConnect m' = nextConnect m
        /\ _wifiman_retryCount m' = _wifiman_retryCount m)
    /\ (reason = WIFI_REASON_AUTH_LEAVE ->
        (index < length (_wifiman_data m) ->
         _wifiman_retryCount m < _wifiman_maxRetries m ->
         code (status (_wifiman_data m')) = DISCONNECTED
         /\ retry_scheduled r index m m')
        /\ (~ (index < length (_wifiman_data m)
               /\ _wifiman_retryCount m < _wifiman_maxRetries m) ->
            no_retry_outcome r (mkStatus index DISCONNECTED reason) reason
              m m'))
    /\ (retry_scheduled r index m m'
        <-> index < length (_wifiman_data m)
            /\ _wifiman_retryCount m < _wifiman_maxRetries m
            /\ reason <> WIFI_REASON_ASSOC_LEAVE)
    /\ (index < length (_wifiman_data m)
        /\ _wifiman_retryCount m < _wifiman_maxRetries m
        /\ reason <> WIFI_REASON_ASSOC_LEAVE ->
        status (_wifiman_data m')
        = mkStatus index (disconnect_code reason) reason
        /\ callbackLog m' = callbackLog m)
    /\ (~ (index < length (_wifiman_data m)
           /\ _wifiman_retryCount m < _wifiman_maxRetries m
           /\ reason <> WIFI_REASON_ASSOC_LEAVE) ->
        no_retry_outcome r (mkStatus index (disconnect_code reason) reason)
          reason m m'
        /\ (nextConnect m' = nextConnect m
            \/ issuedByUser (nextConnect m') = true)
        /\ (_wifiman_retryCount m' = _wifiman_retryCount m
            \/ _wifiman_retryCount m' = 0)).
Proof.
  intros Hm. pose proof Hm as Hm'.
  apply wf_manager_spec in Hm' as (H & Hrc & Hmax).
  destruct (find_len_wf _ ev_ssid H) as (index & Hf & Hidx).
  exists index.
  pose proof (retry_due_spec m ev_ssid reason index Hf) as Hspec.
  destruct (retry_due m ev_ssid reason) eqn:Hdue.
  - rewrite (disconnected_retry r ev_ssid reason m index Hm Hf Hdue).
    eexists. split; [exact Hf|]. split; [reflexivity|].
    destruct Hspec as [Hspec _].
    destruct (Hspec eq_refl) as (Hlt & Hltm & Hreason).
    assert (retry_scheduled r index m
              (with_retryCount
                 (_wifiman_connect r index false
                    (retry_delay (_wifiman_retryCount m))
                    (with_status m
                       (mkStatus index (disconnect_code reason) reason)))
                 (_wifiman_retryCount m + 1))) as Hsched
      by (split; reflexivity).
    split; [intros ->; contradiction|].
    split.
    { intros ->. split; [intros _ _; split; [reflexivity | exact Hsched]|].
      intros Hn. exfalso. apply Hn. auto. }
    split; [split; auto|].
    split; [intros _; split; reflexivity|].
    intros Hn. exfalso. apply Hn. auto.
  - destruct (disconnected_no_retry r ev_ssid reason m index Hm Hf Hdue)
      as (data1 & Hwf1 & Hev).
    set (st := mkStatus index (disconnect_code reason) reason) in *.
    set (m1 := call_statusCallback (with_data m (set_status data1 st))) in *.
    assert (wf_manager m1 = true) as Hm1.
    { subst m1. rewrite call_statusCallback_wf.
      apply wf_manager_spec. simpl. auto. }
    assert (nextConnect m1 = nextConnect m
            /\ _wifiman_retryCount m1 = _wifiman_retryCount m
            /\ status (_wifiman_data m1) = st
            /\ callbackLog m1
               = (if _wifiman_statusCallback m then st :: callbackLog m
                  else callbackLog m))
      as (Hn1 & Hr1 & Hs1 & Hl1).
    { subst m1. unfold call_statusCallback. simpl.
      by destruct (_wifiman_statusCallback m). }
    assert (~ (index < length (_wifiman_data m)
               /\ _wifiman_retryCount m < _wifiman_maxRetries m
               /\ reason <> WIFI_REASON_ASSOC_LEAVE)) as Hnot.
    { intros Hc. apply Hspec in Hc. discriminate. }
    simpl in Hev.
    assert (exists m',
              _wifiman_wifiDisconnectedEvent r ev_ssid reason m = Some m'
              /\ no_retry_outcome r st reason m m'
              /\ (nextConnect m' = nextConnect m
                  \/ issuedByUser (nextConnect m') = true)
              /\ (_wifiman_retryCount m' = _wifiman_retryCount m
                  \/ _wifiman_retryCount m' = 0))
      as (m' & Hev' & Hout & Hmail & Hcount).
    { destruct (_wifiman_autoConnect m
                && negb (reason =? WIFI_REASON_ASSOC_LEAVE)) eqn:Hauto.
      - destruct (checkConnection_effect r m1 Hm1) as (m' & Hcheck & Heff).
        rewrite Hcheck in Hev. exists m'. split; [exact Hev|].
        split.
        { exists m1. rewrite Hauto. auto 10. }
        destruct Heff as (_ & _ & _ & _ & [(Hz & Hu & _)|(_ & _ & Hsame & Hnc)]).
        + auto.
        + split; left; congruence.
      - exists m1. split; [exact Hev|]. split.
        { exists m1. rewrite Hauto. auto 10. }
        auto. }
    exists m'. split; [exact Hf|]. split; [exact Hev'|].
    split.
    { intros ->. destruct Hout as (m0 & Hs0 & Hn0 & Hr0 & _ & Hlast).
      rewrite andb_false_r in Hlast. subst m0.
      rewrite Hs0. auto. }
    split.
    { intros ->. split.
      - intros Hlt Hltm. exfalso. apply Hnot. repeat split; try assumption.
        discriminate.
      - intros _. exact Hout. }
    split.
    { split; [|intros; contradiction].
      intros [_ Hc]. exfalso. destruct Hcount; lia. }
    split; [intros; contradiction|].
    intros _. auto.
Qed.

(** C2, as stated, fails for [WIFI_REASON_AUTH_LEAVE]: with a known
    target and the retry counter at 0 (below the default maximum 2), the
    handler puts an automatic retry, due after 1000 ms, into the connect
    mailbox and counts it. *)
Lemma auth_leave_is_retried :
  nextConnect
    <$> _wifiman_wifiDisconnectedEvent sample_radio "home"
          WIFI_REASON_AUTH_LEAVE sample_manager
  = Some (mkConnect 6000 0 false false)
  /\ _wifiman_retryCount
       <$> _wifiman_wifiDisconnectedEvent sample_radio "home"
             WIFI_REASON_AUTH_LEAVE sample_manager
     = Some 1.
Proof. split; reflexivity. Qed.

(** ** Backoff and the retry counter *)

Lemma retry_delay_backoff rc : 0 <= rc -> retry_delay rc = backoff_delay rc.
Proof.
  intros Hrc. unfold retry_delay, backoff_delay.
  destruct (Z.geb_spec rc 3) as [Hge|Hlt].
  - assert (2 ^ 3 <= 2 ^ rc) by (apply Z.pow_le_mono_r; lia).
    change (2 ^ 3) with 8 in *. lia.
  - rewrite Z.shiftl_1_l.
    assert (rc = 0 \/ rc = 1 \/ rc = 2) as [-> | [-> | ->]] by lia; reflexivity.
Qed.

Lemma consecutive_retries ev_ssid index evs : forall m,
  wf_manager m = true ->
  wifiman_findNetworkInList_len (_wifiman_data m) ev_ssid = Some index ->
  index < length (_wifiman_data m) ->
  forallb (fun ev : Radio * Z => negb (snd ev =? WIFI_REASON_ASSOC_LEAVE)) evs
  = true ->
  _wifiman_retryCount m + Z.of_nat (List.length evs) <= _wifiman_maxRetries m ->
  exists trace,
    consecutive_disconnects ev_ssid evs m = Some trace
    /\ forall k r reason,
         evs !! k = Some (r, reason) ->
         exists mk,
           trace !! k = Some mk
           /\ nextConnect mk
              = mkConnect
                  ((millis r
                    + backoff_delay (_wifiman_retryCount m + Z.of_nat k))
                   mod 2 ^ 32)
                  index false false
           /\ _wifiman_retryCount mk = _wifiman_retryCount m + Z.of_nat k + 1.
Proof.
  induction evs as [|[r reason] evs IH]; intros m Hm Hf Hidx Hreasons Hcount.
  - exists []. split; [reflexivity|]. intros k r reason Hk.
    by rewrite lookup_nil in Hk.
  - pose proof Hm as Hm'. apply wf_manager_spec in Hm' as (H & Hrc & Hmax).
    simpl in Hreasons, Hcount.
    apply andb_prop in Hreasons as [Hreason Hreasons].
    apply negb_true_iff, Z.eqb_neq in Hreason.
    assert (retry_due m ev_ssid reason = true) as Hdue.
    { apply (retry_due_spec m ev_ssid reason index Hf). repeat split; lia. }
    cbn [consecutive_disconnects].
    rewrite (disconnected_retry r ev_ssid reason m index Hm Hf Hdue).
    set (m1 := with_retryCount _ _). simpl.
    destruct (IH m1) as (trace & -> & Htrace).
    + apply wf_manager_spec. subst m1. simpl. repeat split; (exact H || lia).
    + exact Hf.
    + exact Hidx.
    + exact Hreasons.
    + subst m1. simpl. lia.
    + simpl. eexists. split; [reflexivity|].
      intros [|k] r' reason' Hk; simpl in Hk.
      * injection Hk as <- <-. exists m1. split; [reflexivity|].
        subst m1. simpl. rewrite Z.add_0_r.
        rewrite retry_delay_backoff by lia. auto.
      * destruct (Htrace k r' reason' Hk) as (mk & Hmk & Hn & Hr).
        exists mk. split; [exact Hmk|].
        subst m1. simpl in Hn, Hr.
        replace (_wifiman_retryCount m + Z.of_nat (S k))
          with (_wifiman_retryCount m + 1 + Z.of_nat k) by lia.
        split; [exact Hn | lia].
Qed.

(** The connected event on a well-formed manager. *)
Lemma connected_effect ev_ssid m :
  wf_manager m = true ->
  exists index m',
    wifiman_findNetworkInList_len (_wifiman_data m) ev_ssid = Some index
    /\ _wifiman_wifiConnectedEvent ev_ssid m = Some m'
    /\ wf_manager m' = true
    /\ status (_wifiman_data m')
       = mkStatus index CONNECTED ((_wifiman_retryCount m + 1) mod 256)
    /\ callbackLog m'
       = (if _wifiman_statusCallback m
          then status (_wifiman_data m') :: callbackLog m
          else callbackLog m)
    /\ _wifiman_retryCount m'
       = (if index <? length (_wifiman_data m) then 0
          else _wifiman_retryCount m).
Proof.
  intros Hm. pose proof Hm as Hm'.
  apply wf_manager_spec in Hm' as (H & Hrc & Hmax).
  destruct (find_len_wf _ ev_ssid H) as (index & Hf & Hidx).
  exists index. unfold _wifiman_wifiConnectedEvent. rewrite Hf. simpl.
  set (st := mkStatus index CONNECTED ((_wifiman_retryCount m + 1) mod 256)).
  assert (_wifiman_data (call_statusCallback (with_status m st))
          = set_status (_wifiman_data m) st) as Hdata
    by (unfold call_statusCallback; by destruct (_wifiman_statusCallback _)).
  rewrite Hdata. simpl.
  destruct (Z.geb_spec index (length (_wifiman_data m))) as [Hge|Hlt].
  - eexists. split; [reflexivity|]. split; [reflexivity|].
    split; [rewrite call_statusCallback_wf; apply wf_manager_spec; simpl; auto|].
    destruct (Z.ltb_spec index (length (_wifiman_data m))); [lia|].
    unfold call_statusCallback. simpl.
    by destruct (_wifiman_statusCallback m).
  - destruct (Z.ltb_spec index (length (_wifiman_data m))); [|lia].
    destruct (set_state_wf (set_status (_wifiman_data m) st) index
                NETWORK_WORKED_BEFORE H ltac:(simpl; lia))
      as (d' & Hset & Hwf' & Hst' & Hlen').
    rewrite Hset. simpl.
    unfold call_statusCallback. simpl.
    destruct (_wifiman_statusCallback m) eqn:Hcb; simpl; rewrite ?Hcb; simpl;
      destruct (_wifiman_autoConnect m); simpl;
      (eexists; split; [reflexivity|]; split; [reflexivity|];
       split; [apply wf_manager_spec; simpl; repeat split; (exact Hwf' || lia)|];
       simpl; rewrite Hst'; auto).
Qed.

Lemma connectToNetwork_effect r index m :
  wf_manager m = true -> 0 <= index < length (_wifiman_data m) ->
  exists m',
    wifiman_connectToNetwork r index m = Some (WMRT_SUCCESS, m')
    /\ wf_manager m' = true
    /\ _wifiman_retryCount m' = 0
    /\ nextConnect m' = mkConnect ((millis r + 0) mod 2 ^ 32) index true false
    /\ code (status (_wifiman_data m')) = CONNECTING
    /\ targetNetwork (status (_wifiman_data m')) = index
    /\ callbackLog m'
       = (if _wifiman_statusCallback m
          then status (_wifiman_data m') :: callbackLog m
          else callbackLog m).
Proof.
  intros Hm Hidx. pose proof Hm as Hm'.
  apply wf_manager_spec in Hm' as (H & Hrc & Hmax).
  unfold wifiman_connectToNetwork.
  destruct (Z.ltb_spec index (length (_wifiman_data m))); [|lia]. simpl.
  destruct (deref_allocated _ index H Hidx) as [e ->]. simpl.
  eexists. split; [reflexivity|].
  unfold call_statusCallback. simpl.
  destruct (_wifiman_statusCallback m) eqn:Hcb; simpl; rewrite ?Hcb;
    (split; [apply wf_manager_spec; simpl; repeat split; (exact H || lia)|]);
    auto 10.
Qed.

(** ** C3 *)

(** C3, amended: the delay of an automatic retry is
    [min(8000, 1000 * 2^RetryCounter)] ms, so consecutive retries starting
    from a retry counter of 0 are scheduled with delays 1000, 2000, 4000,
    8000, 8000, 8000, ... ms, the counter going up by one with each; the
    counter is reset to 0 by a connected event whose SSID is in the
    registry, by every manual connect request and by every successful
    connect-to-best request. *)
Theorem backoff_sequence_and_counter_reset (r : Radio) (m : Manager) :
  wf_manager m = true ->
  (forall rc, 0 <= rc <= 255 -> retry_delay rc = backoff_delay rc)
  /\ backoff_delay <$> [0; 1; 2; 3; 4; 5]
     = [1000; 2000; 4000; 8000; 8000; 8000]
  /\ (forall ev_ssid index evs,
        wifiman_findNetworkInList_len (_wifiman_data m) ev_ssid = Some index ->
        index < length (_wifiman_data m) ->
        _wifiman_retryCount m = 0 ->
        forallb (fun ev : Radio * Z =>
                   negb (snd ev =? WIFI_REASON_ASSOC_LEAVE)) evs = true ->
        Z.of_nat (List.length evs) <= _wifiman_maxRetries m ->
        exists trace,
          consecutive_disconnects ev_ssid evs m = Some trace
          /\ forall k r' reason,
               evs !! k = Some (r', reason) ->
               exists mk,
                 trace !! k = Some mk
                 /\ nextConnect mk
                    = mkConnect
                        ((millis r' + backoff_delay (Z.of_nat k)) mod 2 ^ 32)
                        index false false
                 /\ _wifiman_retryCount mk = Z.of_nat k + 1)
  /\ (forall ev_ssid,
        target_known m ev_ssid = true ->
        exists m',
          _wifiman_wifiConnectedEvent ev_ssid m = Some m'
          /\ _wifiman_retryCount m' = 0)
  /\ (forall index,
        0 <= index < length (_wifiman_data m) ->
        exists m',
          wifiman_connectToNetwork r index m = Some (WMRT_SUCCESS, m')
          /\ _wifiman_retryCount m' = 0)
  /\ (forall m',
        wifiman_connectToBestWifi r m = Some (WMRT_SUCCESS, m') ->
        _wifiman_retryCount m' = 0).
Proof.
  intros Hm. split; [intros rc Hrc; apply retry_delay_backoff; lia|].
  split; [reflexivity|]. split; [|split; [|split]].
  - intros ev_ssid index evs Hf Hidx Hzero Hreasons Hlen.
    destruct (consecutive_retries ev_ssid index evs m Hm Hf Hidx Hreasons
                ltac:(lia)) as (trace & Htrace & Hall).
    exists trace. split; [exact Htrace|].
    intros k r' reason Hk.
    destruct (Hall k r' reason Hk) as (mk & Hmk & Hn & Hr).
    exists mk. rewrite Hzero in Hn, Hr. simpl in Hn. auto.
  - intros ev_ssid Hknown.
    destruct (connected_effect ev_ssid m Hm)
      as (index & m' & Hf & Hev & _ & _ & _ & Hr).
    exists m'. split; [exact Hev|].
    unfold target_known in Hknown. rewrite Hf in Hknown.
    by rewrite Hknown in Hr.
  - intros index Hidx.
    destruct (connectToNetwork_effect r index m Hm Hidx)
      as (m' & Hc & _ & Hr & _).
    eauto.
  - intros m' Hbest.
    destruct (connectToBestWifi_effect r m Hm)
      as (rc & m0 & Hc & _ & _ & _ & _ & [(_ & Hr & _)|(Hrc & _)]);
      rewrite Hbest in Hc; injection Hc as <- <-; [exact Hr | contradiction].
Qed.

(** C3, as stated, fails: a connected event whose SSID is not in the
    registry leaves the retry counter as it is (the handler returns before
    the reset). *)
Lemma connected_unknown_ssid_keeps_counter :
  _wifiman_retryCount
    <$> _wifiman_wifiConnectedEvent "cafe" (with_retryCount sample_manager 1)
  = Some 1.
Proof. reflexivity. Qed.

(** ** C4 *)

(** C4, amended: with a callback registered, every operation that writes
    the status (a manual connect request, a connect-to-best request, the
    connected event, the scan-done event and every disconnect event that is
    not followed by an automatic retry) either leaves status and callback
    log as they were or ends with the callback having been called, last,
    with the status record as it is when the operation returns; a
    disconnect event that is followed by an automatic retry writes the new
    status (code, target and reason) without calling the callback. *)
Theorem status_callback_reports_status_changes
    (r : Radio) (op : Operation) (m : Manager) :
  wf_manager m = true ->
  _wifiman_statusCallback m = true ->
  operation_ok op m = true ->
  (followed_by_retry op m = false ->
   exists m',
     run_operation r op m = Some m'
     /\ ((status (_wifiman_data m') = status (_wifiman_data m)
          /\ callbackLog m' = callbackLog m)
         \/ exists mid,
              callbackLog m'
              = status (_wifiman_data m') :: mid ++ callbackLog m))
  /\ (followed_by_retry op m = true ->
      exists m' ev_ssid reason index,
        op = EventDisconnected ev_ssid reason
        /\ run_operation r op m = Some m'
        /\ status (_wifiman_data m')
           = mkStatus index (disconnect_code reason) reason
        /\ callbackLog m' = callbackLog m).
Proof.
  intros Hm Hcb Hok. pose proof Hm as Hm'.
  apply wf_manager_spec in Hm' as (H & Hrc & Hmax).
  assert (forall m0 m',
            callbackLog m0 = callbackLog m \/
            (exists mid0, callbackLog m0
                          = status (_wifiman_data m0) :: mid0 ++ callbackLog m) ->
            (callbackLog m0 = callbackLog m ->
             status (_wifiman_data m0) = status (_wifiman_data m)) ->
            _wifiman_statusCallback m0 = true ->
            selector_effect m0 m' ->
            (status (_wifiman_data m') = status (_wifiman_data m)
             /\ callbackLog m' = callbackLog m)
            \/ exists mid,
                 callbackLog m'
                 = status (_wifiman_data m') :: mid ++ callbackLog m)
    as Hselector.
  { intros m0 m' Hlog0 Hst0 Hcb0 (_ & _ & _ & _ & Heff).
    rewrite Hcb0 in Heff.
    destruct Heff as [(_ & _ & _ & Hlog)|(Hst & Hlog & _)].
    - right. destruct Hlog0 as [Hl|(mid0 & Hl)]; rewrite Hlog, Hl.
      + by exists [].
      + by exists (status (_wifiman_data m0) :: mid0).
    - destruct Hlog0 as [Hl|(mid0 & Hl)].
      + left. split; [|congruence]. rewrite Hst. auto.
      + right. exists mid0. by rewrite Hst, Hlog. }
  destruct op as [index| |ev_ssid|ev_ssid reason|];
    cbn [run_operation followed_by_retry operation_ok] in *;
    (split; [intros Hretry | try discriminate]).
  - (* manual connect *)
    apply andb_prop in Hok as [Hlo Hhi].
    apply Z.leb_le in Hlo. apply Z.ltb_lt in Hhi.
    destruct (connectToNetwork_effect r index m Hm ltac:(lia))
      as (m' & -> & _ & _ & _ & _ & _ & Hlog).
    simpl. exists m'. split; [reflexivity|]. right. exists [].
    by rewrite Hlog, Hcb.
  - (* connect to best *)
    destruct (connectToBestWifi_effect r m Hm)
      as (rc & m' & -> & Hwf & Hcb' & Hmr & Hac & Heff).
    simpl. exists m'. split; [reflexivity|].
    apply (Hselector m m'); auto.
    unfold selector_effect.
    destruct Heff as [(_ & ? & ? & ? & ?)|(_ & ? & ? & ? & ?)]; auto 12.
  - (* connected event *)
    destruct (connected_effect ev_ssid m Hm)
      as (index & m' & _ & -> & _ & _ & Hlog & _).
    exists m'. split; [reflexivity|]. right. exists [].
    by rewrite Hlog, Hcb.
  - (* disconnect event without retry *)
    destruct (find_len_wf _ ev_ssid H) as (index & Hf & Hidx).
    destruct (disconnected_no_retry r ev_ssid reason m index Hm Hf Hretry)
      as (data1 & Hwf1 & ->).
    set (m1 := call_statusCallback
                 (with_data m
                    (set_status data1
                       (mkStatus index (disconnect_code reason) reason)))).
    assert (wf_manager m1 = true) as Hm1.
    { subst m1. rewrite call_statusCallback_wf.
      apply wf_manager_spec. simpl. auto. }
    assert (callbackLog m1 = status (_wifiman_data m1) :: callbackLog m
            /\ _wifiman_statusCallback m1 = true) as [Hlog1 Hcb1].
    { subst m1. unfold call_statusCallback. simpl. by rewrite Hcb. }
    assert (callbackLog m1 <> callbackLog m) as Hneq.
    { rewrite Hlog1. intros Heq.
      apply (f_equal (@List.length _)) in Heq. simpl in Heq. lia. }
    cbv zeta.
    destruct (_wifiman_autoConnect m
              && negb (reason =? WIFI_REASON_ASSOC_LEAVE)).
    + destruct (checkConnection_effect r m1 Hm1) as (m' & -> & Heff).
      exists m'. split; [reflexivity|].
      apply (Hselector m1 m'); auto.
      * right. by exists [].
      * intros; contradiction.
    + exists m1. split; [reflexivity|]. right. by exists [].
  - (* disconnect event with retry *)
    intros Hretry.
    destruct (find_len_wf _ ev_ssid H) as (index & Hf & Hidx).
    rewrite (disconnected_retry r ev_ssid reason m index Hm Hf Hretry).
    eexists _, ev_ssid, reason, index. auto.
  - (* scan done *)
    unfold _wifiman_wifiScanDoneEvent.
    destruct (checkConnection_effect r (with_scanTime m (millis r)))
      as (m' & -> & Heff).
    { apply wf_manager_spec. simpl. auto. }
    exists m'. split; [reflexivity|].
    apply (Hselector (with_scanTime m (millis r)) m'); auto.
Qed.

(** C4, as stated, fails: connected to "home" with a callback registered
    and the retry counter at 0, a disconnect with reason 2 (authentication
    expired) changes the status code from Connected to ConnectionFailed,
    schedules a retry and does not call the callback. *)
Lemma retried_disconnect_skips_callback :
  _wifiman_statusCallback sample_manager = true
  /\ code (status (_wifiman_data sample_manager)) = CONNECTED
  /\ (fun m' => code (status (_wifiman_data m')))
       <$> _wifiman_wifiDisconnectedEvent sample_radio "home" 2 sample_manager
     = Some CONNECTION_FAILED
  /\ callbackLog
       <$> _wifiman_wifiDisconnectedEvent sample_radio "home" 2 sample_manager
     = Some [].
Proof. repeat split; reflexivity. Qed.

(** ** Persistence *)

Lemma format_key_inj prefix i j :
  0 <= i -> 0 <= j -> format_key prefix i = format_key prefix j -> i = j.
Proof.
  intros Hi Hj Heq. unfold format_key in Heq.
  assert (forall a b, (prefix ++ a)%string = (prefix ++ b)%string -> a = b)
    as Happ.
  { clear. induction prefix as [|c p IH]; simpl; intros a b Hab;
      [exact Hab | injection Hab as Hab; auto]. }
  apply Happ in Heq.
  apply (f_equal NilEmpty.uint_of_string) in Heq.
  rewrite !NilEmpty.usu in Heq. injection Heq as Heq.
  apply DecimalN.Unsigned.to_uint_inj in Heq. lia.
Qed.

Lemma key_ssid_inj i j :
  0 <= i -> 0 <= j ->
  WM_PREFERENCES_KEY_SSID i = WM_PREFERENCES_KEY_SSID j -> i = j.
Proof. apply format_key_inj. Qed.
Lemma key_pass_inj i j :
  0 <= i -> 0 <= j ->
  WM_PREFERENCES_KEY_PASS i = WM_PREFERENCES_KEY_PASS j -> i = j.
Proof. apply format_key_inj. Qed.
Lemma key_state_inj i j :
  0 <= i -> 0 <= j ->
  WM_PREFERENCES_KEY_STATE i = WM_PREFERENCES_KEY_STATE j -> i = j.
Proof. apply format_key_inj. Qed.

Lemma key_ssid_pass i j : WM_PREFERENCES_KEY_SSID i <> WM_PREFERENCES_KEY_PASS j.
Proof. unfold WM_PREFERENCES_KEY_SSID, WM_PREFERENCES_KEY_PASS, format_key.
       cbn. discriminate. Qed.
Lemma key_ssid_state i j : WM_PREFERENCES_KEY_SSID i <> WM_PREFERENCES_KEY_STATE j.
Proof. unfold WM_PREFERENCES_KEY_SSID, WM_PREFERENCES_KEY_STATE, format_key.
       cbn. discriminate. Qed.
Lemma key_pass_state i j : WM_PREFERENCES_KEY_PASS i <> WM_PREFERENCES_KEY_STATE j.
Proof. unfold WM_PREFERENCES_KEY_PASS, WM_PREFERENCES_KEY_STATE, format_key.
       cbn. discriminate. Qed.

(** Side conditions "these two keys differ". *)
Ltac key_ne :=
  first
    [ apply key_ssid_pass | apply key_ssid_state | apply key_pass_state
    | apply not_eq_sym; apply key_ssid_pass
    | apply not_eq_sym; apply key_ssid_state
    | apply not_eq_sym; apply key_pass_state
    | let Hk := fresh in intros Hk; apply key_ssid_inj in Hk; lia
    | let Hk := fresh in intros Hk; apply key_pass_inj in Hk; lia
    | let Hk := fresh in intros Hk; apply key_state_inj in Hk; lia ].

Ltac store_lookup :=
  unfold putString, putChar, remove;
  repeat first
    [ rewrite lookup_insert_eq
    | rewrite lookup_delete_eq
    | rewrite lookup_insert_ne by key_ne
    | rewrite lookup_delete_ne by key_ne ].

(** The save loop from slot [i] on: keys of earlier slots are untouched,
    every registry slot it passes is written (the passphrase key only when
    there is a passphrase), and where the loop leaves the registry the SSID
    key of the first slot beyond it is absent afterwards. *)
Lemma save_loop_spec d (H : wf_data d = true) n : forall i pref,
  0 <= i ->
  exists pref',
    save_loop d n i pref = Some pref'
    /\ (forall j, 0 <= j < i ->
          pref' !! WM_PREFERENCES_KEY_SSID j = pref !! WM_PREFERENCES_KEY_SSID j
          /\ pref' !! WM_PREFERENCES_KEY_PASS j
             = pref !! WM_PREFERENCES_KEY_PASS j
          /\ pref' !! WM_PREFERENCES_KEY_STATE j
             = pref !! WM_PREFERENCES_KEY_STATE j)
    /\ (forall j e,
          i <= j < i + Z.of_nat n -> j < length d ->
          deref (networks d) j = Some e ->
          pref' !! WM_PREFERENCES_KEY_SSID j = Some (PStr (ssid e))
          /\ pref' !! WM_PREFERENCES_KEY_STATE j = Some (PChar (state e))
          /\ pref' !! WM_PREFERENCES_KEY_PASS j
             = match pass e with
               | Some p => Some (PStr p)
               | None => pref !! WM_PREFERENCES_KEY_PASS j
               end)
    /\ (Z.max i (length d) < i + Z.of_nat n ->
        pref' !! WM_PREFERENCES_KEY_SSID (Z.max i (length d)) = None).
Proof.
  induction n as [|n IH]; intros i pref Hi.
  - exists pref. split; [reflexivity|]. split; [auto|].
    split; [intros; lia | intros; lia].
  - cbn [save_loop]. cbv zeta.
    destruct (Z.ltb_spec i (length d)) as [Hlt|Hge].
    + destruct (deref_allocated d i H ltac:(lia)) as [e He]. rewrite He.
      simpl.
      set (pref1 := putChar _ _ _).
      destruct (IH (i + 1) pref1 ltac:(lia))
        as (pref' & -> & Hframe & Hrange & Hstop).
      assert (pref1 !! WM_PREFERENCES_KEY_SSID i = Some (PStr (ssid e))
              /\ pref1 !! WM_PREFERENCES_KEY_STATE i = Some (PChar (state e))
              /\ pref1 !! WM_PREFERENCES_KEY_PASS i
                 = match pass e with
                   | Some p => Some (PStr p)
                   | None => pref !! WM_PREFERENCES_KEY_PASS i
                   end) as Hhere.
      { subst pref1. destruct (pass e); store_lookup; auto. }
      assert (forall j, 0 <= j -> j <> i ->
                pref1 !! WM_PREFERENCES_KEY_SSID j
                = pref !! WM_PREFERENCES_KEY_SSID j
                /\ pref1 !! WM_PREFERENCES_KEY_PASS j
                   = pref !! WM_PREFERENCES_KEY_PASS j
                /\ pref1 !! WM_PREFERENCES_KEY_STATE j
                   = pref !! WM_PREFERENCES_KEY_STATE j) as Hother.
      { intros j Hj Hne. subst pref1. destruct (pass e); store_lookup; auto. }
      exists pref'. split; [reflexivity|]. split; [|split].
      * intros j Hj. destruct (Hframe j ltac:(lia)) as (-> & -> & ->).
        apply Hother; lia.
      * intros j e' Hj Hjl He'.
        destruct (Z.eq_dec j i) as [->|Hne].
        -- rewrite He in He'. injection He' as <-.
           destruct (Hframe i ltac:(lia)) as (-> & -> & ->).
           tauto.
        -- destruct (Hrange j e' ltac:(lia) Hjl He') as (-> & -> & ->).
           split; [reflexivity|]. split; [reflexivity|].
           destruct (pass e'); [reflexivity|]. apply Hother; lia.
      * intros Hmax. rewrite Z.max_r in * by lia.
        replace (Z.max (i + 1) (length d)) with (length d) in Hstop by lia.
        apply Hstop. lia.
    + rewrite Z.max_l by lia.
      destruct (isKey pref (WM_PREFERENCES_KEY_SSID i)) eqn:Hkey; simpl.
      * set (pref1 := remove _ _).
        destruct (IH (i + 1) pref1 ltac:(lia))
          as (pref' & -> & Hframe & Hrange & Hstop).
        assert (forall j, 0 <= j -> j <> i ->
                  pref1 !! WM_PREFERENCES_KEY_SSID j
                  = pref !! WM_PREFERENCES_KEY_SSID j
                  /\ pref1 !! WM_PREFERENCES_KEY_PASS j
                     = pref !! WM_PREFERENCES_KEY_PASS j
                  /\ pref1 !! WM_PREFERENCES_KEY_STATE j
                     = pref !! WM_PREFERENCES_KEY_STATE j) as Hother.
        { intros j Hj Hne. subst pref1. store_lookup. auto. }
        exists pref'. split; [reflexivity|]. split; [|split].
        -- intros j Hj. destruct (Hframe j ltac:(lia)) as (-> & -> & ->).
           apply Hother; lia.
        -- intros; lia.
        -- intros _. destruct (Hframe i ltac:(lia)) as (-> & _).
           subst pref1. store_lookup. reflexivity.
      * exists pref. split; [reflexivity|]. split; [auto|].
        split; [intros; lia|]. intros _.
        unfold isKey in Hkey. apply bool_decide_eq_false in Hkey.
        by apply eq_None_not_Some.
Qed.

(** The load loop from slot [i] on, for a store in which the SSID keys of
    the registry slots of the range are present and the first slot of the
    range beyond the registry has none: the registry slots of the range
    are replaced by what the store holds, nothing else changes. *)
Lemma read_loop_spec pref n : forall i d r,
  wf_data d = true -> 0 <= i ->
  (forall j, i <= j < i + Z.of_nat n -> j < length d ->
     is_Some (pref !! WM_PREFERENCES_KEY_SSID j)) ->
  (Z.max i (length d) < i + Z.of_nat n ->
   pref !! WM_PREFERENCES_KEY_SSID (Z.max i (length d)) = None) ->
  exists r' d',
    read_loop pref n i d r = Some (r', d')
    /\ wf_data d' = true /\ length d' = length d
    /\ capacity d' = capacity d /\ status d' = status d
    /\ forall j, 0 <= j ->
         deref (networks d') j
         = if (i <=? j) && (j <? i + Z.of_nat n) && (j <? length d)
           then Some (stored_entry pref j) else deref (networks d) j.
Proof.
  induction n as [|n IH]; intros i d r H Hi Hkeys Hstop.
  - exists r, d. split; [reflexivity|]. repeat (split; [auto; fail|]).
    intros j Hj. cases_Zb.
  - pose proof (wf_data_range d H) as (Hl & Hc & Hn).
    cbn [read_loop]. unfold isKey.
    destruct (Z.ltb_spec i (length d)) as [Hlt|Hge].
    + rewrite bool_decide_eq_true_2 by (apply Hkeys; lia). simpl.
      destruct (deref_allocated d i H ltac:(lia)) as [e0 ->]. simpl.
      rewrite store_slot_Some by lia. simpl.
      change (mkNetwork _ _ _) with (stored_entry pref i).
      destruct (update_slot_wf d i (stored_entry pref i) H ltac:(lia))
        as [Hwf2 _].
      set (d2 := set_networks d _) in *.
      destruct (IH (i + 1) d2 ((r + 1) mod 256) Hwf2 ltac:(lia))
        as (r' & d' & -> & Hwf' & Hlen' & Hcap' & Hst' & Hd').
      { intros j Hj Hjl. apply Hkeys; [lia | exact Hjl]. }
      { intros Hmax. simpl in *. rewrite Z.max_r in * by lia.
        apply Hstop. lia. }
      exists r', d'. split; [reflexivity|]. split; [exact Hwf'|].
      split; [exact Hlen'|]. split; [exact Hcap'|]. split; [exact Hst'|].
      intros j Hj. rewrite Hd' by lia. subst d2. simpl.
      rewrite deref_insert by lia. cases_Zb. by subst.
    + rewrite Z.max_l in Hstop by lia.
      rewrite bool_decide_eq_false_2; simpl.
      2:{ rewrite Hstop by lia. by intros [? ?]. }
      exists r, d. split; [reflexivity|]. repeat (split; [auto; fail|]).
      intros j Hj. cases_Zb.
Qed.

Lemma save_read_same_range d startIndex count :
  wf_data d = true -> 0 <= startIndex -> 0 <= count <= 255 ->
  range_iterations startIndex
    (if count =? UINT8_MINUS_1 then (capacity d - startIndex) mod 256
     else count) (capacity d)
  = range_iterations startIndex count (capacity d).
Proof.
  intros H Hs Hc. pose proof (wf_data_range d H) as (Hl & Hcap & _).
  unfold range_iterations, UINT8_MINUS_1.
  destruct (Z.eqb_spec count 255) as [->|]; [|reflexivity].
  destruct (Z.le_gt_cases startIndex (capacity d)).
  - rewrite Z.mod_small by lia. lia.
  - pose proof (Z.mod_pos_bound (capacity d - startIndex) 256 ltac:(lia)).
    lia.
Qed.

(** The load loop in general, started at or below [length]: it reads the
    slots whose SSID key is present, one after the other, overwriting the
    registry slots it passes and appending behind them, and stops at the
    first slot without SSID key or at the end of the range. *)
Lemma read_loop_general pref n : forall i d r,
  wf_data d = true -> 0 <= i <= length d ->
  i + Z.of_nat n <= capacity d ->
  0 <= r -> r + Z.of_nat n < 256 ->
  exists (k : nat) d',
    read_loop pref n i d r = Some (r + Z.of_nat k, d')
    /\ (k <= n)%nat
    /\ (forall j, i <= j < i + Z.of_nat k ->
          is_Some (pref !! WM_PREFERENCES_KEY_SSID j))
    /\ ((k < n)%nat ->
        pref !! WM_PREFERENCES_KEY_SSID (i + Z.of_nat k) = None)
    /\ wf_data d' = true /\ capacity d' = capacity d
    /\ status d' = status d
    /\ length d' = Z.max (length d) (i + Z.of_nat k)
    /\ forall j, 0 <= j ->
         deref (networks d') j
         = if (i <=? j) && (j <? i + Z.of_nat k)
           then Some (stored_entry pref j) else deref (networks d) j.
Proof.
  induction n as [|n IH]; intros i d r H Hi Hcap Hr Hr256.
  - exists 0%nat, d. split; [simpl; f_equal; f_equal; lia|].
    split; [lia|]. split; [intros; lia|]. split; [intros; lia|].
    split; [exact H|]. split; [reflexivity|]. split; [reflexivity|].
    split; [lia|]. intros j Hj. cases_Zb.
  - pose proof (wf_data_range d H) as (Hl & Hc & Hn).
    cbn [read_loop]. unfold isKey.
    destruct (pref !! WM_PREFERENCES_KEY_SSID i) as [v|] eqn:Hkey.
    2:{ rewrite bool_decide_eq_false_2 by (by intros [? ?]). simpl.
        exists 0%nat, d. split; [f_equal; f_equal; lia|].
        split; [lia|]. split; [intros; lia|].
        split; [intros _; by rewrite Z.add_0_r|].
        split; [exact H|]. split; [reflexivity|]. split; [reflexivity|].
        split; [lia|]. intros j Hj. cases_Zb. }
    rewrite bool_decide_eq_true_2 by eauto. simpl.
    assert (exists d2,
              ((if i <? length d
                then _ ← deref (networks d) i; Some d
                else Some (mkData (status d) (networks d) (capacity d)
                             ((length d + 1) mod 256)))
               ≫= (fun data1 =>
                     nets ← store_slot (networks data1) i
                              (Some (stored_entry pref i));
                     Some (set_networks data1 nets))) = Some d2
              /\ wf_data d2 = true /\ capacity d2 = capacity d
              /\ status d2 = status d
              /\ length d2 = Z.max (length d) (i + 1)
              /\ forall j, 0 <= j ->
                   deref (networks d2) j
                   = if i =? j then Some (stored_entry pref i)
                     else deref (networks d) j)
      as (d2 & Hd2 & Hwf2 & Hcap2 & Hst2 & Hlen2 & Hderef2).
    { destruct (Z.ltb_spec i (length d)) as [Hlt|Hge].
      - destruct (deref_allocated d i H ltac:(lia)) as [e0 ->]. simpl.
        rewrite store_slot_Some by lia. simpl.
        destruct (update_slot_wf d i (stored_entry pref i) H ltac:(lia))
          as [Hwf2 _].
        eexists. split; [reflexivity|]. split; [exact Hwf2|].
        split; [reflexivity|]. split; [reflexivity|].
        split; [simpl; lia|]. intros j Hj. simpl.
        apply deref_insert; lia.
      - assert (i = length d) as -> by lia. simpl.
        rewrite store_slot_Some by lia. simpl.
        rewrite Z.mod_small by lia.
        destruct (append_slot_wf d (stored_entry pref (length d)) H
                    ltac:(lia)) as [Hwf2 _].
        eexists. split; [reflexivity|]. split; [exact Hwf2|].
        split; [reflexivity|]. split; [reflexivity|].
        split; [simpl; lia|]. intros j Hj. simpl.
        apply deref_insert; lia. }
    change (mkNetwork _ _ _) with (stored_entry pref i).
    destruct (IH (i + 1) d2 (r + 1) Hwf2 ltac:(lia) ltac:(lia) ltac:(lia)
                ltac:(lia))
      as (k & d' & Hread & Hk & Hkeys & Hstop & Hwf' & Hcap' & Hst' & Hlen'
          & Hderef').
    exists (S k), d'. split.
    { revert Hd2. destruct (i <? length d).
      - destruct (deref (networks d) i); simpl; [|discriminate].
        destruct (store_slot _ _ _); simpl; [|discriminate].
        intros [= <-]. rewrite Z.mod_small by lia. rewrite Hread.
        f_equal. f_equal. lia.
      - simpl. destruct (store_slot _ _ _); simpl; [|discriminate].
        intros [= <-]. rewrite (Z.mod_small (r + 1)) by lia. rewrite Hread.
        f_equal. f_equal. lia. }
    split; [lia|]. split.
    { intros j Hj. destruct (Z.eq_dec j i) as [->|]; [eauto|].
      apply Hkeys. lia. }
    split.
    { intros Hlt. replace (i + Z.of_nat (S k)) with (i + 1 + Z.of_nat k)
        by lia. apply Hstop. lia. }
    split; [exact Hwf'|]. split; [congruence|]. split; [congruence|].
    split; [lia|].
    intros j Hj. rewrite Hderef' by lia. rewrite Hderef2 by lia.
    cases_Zb. by subst.
Qed.

(** Without an SSID key for its first slot the load loop reads nothing. *)
Lemma read_loop_no_key pref n i d r :
  (n <> 0%nat -> pref !! WM_PREFERENCES_KEY_SSID i = None) ->
  read_loop pref n i d r = Some (r, d).
Proof.
  destruct n as [|n]; [reflexivity|]. intros Hkey.
  cbn [read_loop]. unfold isKey. rewrite Hkey by discriminate.
  rewrite bool_decide_eq_false_2; [reflexivity | by intros [? ?]].
Qed.

(** ** C8 *)

(** C8, amended: a round trip through the store.  For every store, every
    well-formed registry [d] and every index range, saving the range
    succeeds and writes, for each registry slot of the range, its SSID, its
    state and its passphrase if it has one, leaving the keys of the slots
    below the range alone.  Loading the range from the resulting store
    into any well-formed registry [d0] of the same capacity (the saved
    registry itself, or any other whose length reaches the start of the
    range, such as a freshly created one for a range that starts at slot
    0) then reads exactly the registry slots
    of the range, and gives back in each of them the same SSID and state,
    and the same passphrase when that is a non-empty string; an empty-string
    passphrase comes back as absent, and an absent one comes back as absent
    when the store held no passphrase key for the slot before the save.
    The slots that were not read keep the entries of [d0], as do capacity
    and status; [length] grows to cover the slots read. *)
Theorem eeprom_save_then_read
    (pref : gmap string PrefValue) (d d0 : WM_SharedData)
    (startIndex count : Z) :
  wf_data d = true -> wf_data d0 = true -> capacity d0 = capacity d ->
  is_uint8 startIndex = true -> is_uint8 count = true ->
  startIndex <= length d0 \/ length d <= startIndex ->
  exists pref' d',
    wifiman_saveToEEPROM pref d startIndex count = Some pref'
    /\ wifiman_readFromEEPROM pref' d0 startIndex count
       = Some (slots_in_range startIndex count (length d), d')
    /\ wf_data d' = true
    /\ length d'
       = (if slots_in_range startIndex count (length d) =? 0 then length d0
          else Z.max (length d0)
                 (startIndex + slots_in_range startIndex count (length d)))
    /\ capacity d' = capacity d0 /\ status d' = status d0
    /\ (forall i e,
          startIndex <= i < startIndex + count -> i < length d ->
          deref (networks d) i = Some e ->
          (pref' !! WM_PREFERENCES_KEY_SSID i = Some (PStr (ssid e))
           /\ pref' !! WM_PREFERENCES_KEY_STATE i = Some (PChar (state e))
           /\ forall p, pass e = Some p ->
                pref' !! WM_PREFERENCES_KEY_PASS i = Some (PStr p))
          /\ exists e',
               deref (networks d') i = Some e'
               /\ ssid e' = ssid e /\ state e' = state e
               /\ (forall p, pass e = Some p ->
                     pass e' = if String.eqb p "" then None else Some p)
               /\ (pass e = None ->
                   pref !! WM_PREFERENCES_KEY_PASS i = None ->
                   pass e' = None))
    /\ (forall i, 0 <= i ->
          ~ (startIndex <= i
             < startIndex + slots_in_range startIndex count (length d)) ->
          deref (networks d') i = deref (networks d0) i)
    /\ (forall j, 0 <= j < startIndex ->
          pref' !! WM_PREFERENCES_KEY_SSID j = pref !! WM_PREFERENCES_KEY_SSID j
          /\ pref' !! WM_PREFERENCES_KEY_PASS j
             = pref !! WM_PREFERENCES_KEY_PASS j
          /\ pref' !! WM_PREFERENCES_KEY_STATE j
             = pref !! WM_PREFERENCES_KEY_STATE j).
Proof.
  intros H H0 Hcap0 Hs Hc Hstart.
  unfold is_uint8 in Hs, Hc.
  apply andb_prop in Hs as [Hs1 Hs2]. apply andb_prop in Hc as [Hc1 Hc2].
  apply Z.leb_le in Hs1, Hs2, Hc1, Hc2.
  pose proof (wf_data_range d H) as (Hl & Hcap & Hn).
  pose proof (wf_data_range d0 H0) as (Hl0 & Hcap0' & Hn0).
  unfold wifiman_saveToEEPROM, wifiman_readFromEEPROM. rewrite Hcap0.
  set (k0 := slots_in_range startIndex count (length d)).
  assert (k0 = Z.max 0 (Z.min (startIndex + count) (length d) - startIndex))
    as Hk0 by reflexivity.
  destruct (Z.eqb_spec count 0) as [->|Hcount].
  { (* nothing is saved, nothing is in the range *)
    exists pref, d0. split; [reflexivity|].
    assert (range_iterations startIndex 0 (capacity d) = 0%nat) as ->
      by (unfold range_iterations; lia).
    assert (k0 = 0) as -> by lia.
    split; [reflexivity|]. split; [exact H0|]. split; [reflexivity|].
    split; [exact Hcap0|]. split; [reflexivity|].
    split; [intros; lia|]. split; [reflexivity | auto]. }
  rewrite (save_read_same_range d startIndex count H) by lia.
  set (n := range_iterations startIndex count (capacity d)).
  assert (startIndex + Z.of_nat n
          = Z.max startIndex (Z.min (startIndex + count) (capacity d))) as Hend
    by (subst n; unfold range_iterations; lia).
  destruct (save_loop_spec d H n startIndex pref Hs1)
    as (pref' & Hsave & Hframe & Hsaved & Hstop).
  assert (forall i e,
            startIndex <= i < startIndex + count -> i < length d ->
            deref (networks d) i = Some e ->
            pref' !! WM_PREFERENCES_KEY_SSID i = Some (PStr (ssid e))
            /\ pref' !! WM_PREFERENCES_KEY_STATE i = Some (PChar (state e))
            /\ forall p, pass e = Some p ->
                 pref' !! WM_PREFERENCES_KEY_PASS i = Some (PStr p))
    as Hstore.
  { intros i e Hi Hil He.
    destruct (Hsaved i e ltac:(lia) Hil He) as (Hk1 & Hk2 & Hk3).
    split; [exact Hk1|]. split; [exact Hk2|].
    intros p Hp. by rewrite Hp in Hk3. }
  assert (forall i e,
            startIndex <= i < startIndex + count -> i < length d ->
            deref (networks d) i = Some e ->
            ssid (stored_entry pref' i) = ssid e
            /\ state (stored_entry pref' i) = state e
            /\ (forall p, pass e = Some p ->
                  pass (stored_entry pref' i)
                  = if String.eqb p "" then None else Some p)
            /\ (pass e = None ->
                pref !! WM_PREFERENCES_KEY_PASS i = None ->
                pass (stored_entry pref' i) = None)) as Hback.
  { intros i e Hi Hil He.
    destruct (Hsaved i e ltac:(lia) Hil He) as (Hk1 & Hk2 & Hk3).
    unfold stored_entry, getString, getChar. rewrite Hk1, Hk2, Hk3. simpl.
    split; [reflexivity|]. split; [reflexivity|]. split.
    - intros p ->. by destruct (String.eqb p "").
    - intros -> ->. reflexivity. }
  exists pref'. rewrite Hsave.
  destruct (Z.le_gt_cases startIndex (length d0)) as [Hle|Hgt].
  - (* the load starts inside or right behind the target registry *)
    destruct (read_loop_general pref' n startIndex d0 0 H0)
      as (k & d' & Hread & Hk & Hkeys & Hstopr & Hwf' & Hcap' & Hst' & Hlen'
          & Hderef'); [lia | lia | lia | lia |].
    assert (Z.of_nat k = k0) as Hkk.
    { destruct (Z.lt_trichotomy (Z.of_nat k) k0) as [Hlt | [Heq | Hlt]];
        [|exact Heq|]; exfalso.
      - destruct (deref_allocated d (startIndex + Z.of_nat k) H ltac:(lia))
          as [e He].
        destruct (Hsaved (startIndex + Z.of_nat k) e ltac:(lia) ltac:(lia) He)
          as (Hk1 & _).
        rewrite Hstopr in Hk1 by lia. discriminate.
      - destruct (Hkeys (Z.max startIndex (length d)) ltac:(lia)) as [v Hv].
        rewrite Hstop in Hv by lia. discriminate. }
    exists d'. split; [reflexivity|].
    split; [rewrite Hread; f_equal; f_equal; lia|].
    split; [exact Hwf'|].
    split; [rewrite Hlen'; destruct (Z.eqb_spec k0 0); lia|].
    split; [congruence|]. split; [exact Hst'|].
    split; [|split; [|exact Hframe]].
    + intros i e Hi Hil He. split; [by apply Hstore|].
      exists (stored_entry pref' i). split; [|by apply Hback].
      rewrite Hderef' by lia.
      destruct (Z.leb_spec startIndex i); [|lia].
      destruct (Z.ltb_spec i (startIndex + Z.of_nat k)); [reflexivity | lia].
    + intros i Hi Hout. rewrite Hderef' by lia. rewrite Hkk. cases_Zb.
  - (* the range starts behind both registries: nothing to save or load *)
    destruct Hstart as [?|Hbehind]; [lia|].
    assert (k0 = 0) as Hz by lia.
    rewrite (read_loop_no_key pref' n startIndex d0 0).
    2:{ intros Hn'. rewrite Z.max_l in Hstop by lia. apply Hstop. lia. }
    exists d0. split; [reflexivity|]. split; [by rewrite Hz|].
    split; [exact H0|]. split; [by rewrite Hz|].
    split; [exact Hcap0|]. split; [reflexivity|].
    split; [intros; lia|]. split; [reflexivity | exact Hframe].
Qed.

(** C8, as stated, fails: an entry added with an empty passphrase has a
    passphrase (the empty string) before the round trip over an empty store
    and none after it. *)
Lemma empty_passphrase_not_reproduced :
  let d := mkData (mkStatus 255 WM_IDLE_STATUS 0)
             [Some (mkNetwork "cafe" (Some ""%string) NETWORK_STATE_UNKNOWN)]
             1 1 in
  wifiman_addOrUpdateNetwork
    (mkData (mkStatus 255 WM_IDLE_STATUS 0) [None] 1 0)
    (Some "cafe"%string) (Some ""%string)
  = Some (0, Some false, d)
  /\ (pref' ← wifiman_saveToEEPROM ∅ d 0 255;
      r ← wifiman_readFromEEPROM pref' d 0 255;
      deref (networks (snd r)) 0)
     = Some (mkNetwork "cafe" None NETWORK_STATE_UNKNOWN).
Proof. split; vm_compute; reflexivity. Qed.

(** Saving an entry without passphrase over a slot whose passphrase key is
    still in the store leaves that key in place: the entry is loaded with
    the stale passphrase. *)
Lemma stale_passphrase_is_loaded :
  let d := mkData (mkStatus 255 WM_IDLE_STATUS 0)
             [Some (mkNetwork "cafe" None NETWORK_STATE_UNKNOWN)] 1 1 in
  let pref : gmap string PrefValue :=
    <[WM_PREFERENCES_KEY_PASS 0 := PStr "secret"]> ∅ in
  (pref' ← wifiman_saveToEEPROM pref d 0 255;
   r ← wifiman_readFromEEPROM pref' d 0 255;
   deref (networks (snd r)) 0)
  = Some (mkNetwork "cafe" (Some "secret"%string) NETWORK_STATE_UNKNOWN).
Proof. vm_compute. reflexivity. Qed.

(** ** Concrete instances *)

(** An automatic retry issued while a manual command waits in the local
    copy, followed by a worker cycle before the command is due: the manual
    command is still there. *)
Lemma connect_mailbox_priority_instance :
  let s := mkSystem sample_manager worker_with_manual_command in
  let es := [IssueConnect sample_radio 0 false 1000; WorkerPoll sample_radio] in
  let s' := mkSystem
              (with_nextConnect sample_manager (mkConnect 6000 0 false false))
              worker_with_manual_command in
  run s es = Some s'
  /\ (connect (worker s') = connect (worker s)
      \/ exists es1 es2 s1,
           es = es1 ++ es2 /\ run s es1 = Some s1
           /\ connect (worker s1) = mark_handled (connect (worker s))).
Proof.
  intros s es s'. split; [reflexivity|].
  apply (proj2 (proj2 connect_mailbox_priority) es s s');
    [reflexivity | reflexivity | reflexivity | left; reflexivity
    | reflexivity].
Defined.

Lemma disconnect_retry_decision_instance :
  wf_manager sample_manager = true
  /\ exists index m',
       wifiman_findNetworkInList_len (_wifiman_data sample_manager) "home"
       = Some index
       /\ _wifiman_wifiDisconnectedEvent sample_radio "home"
            WIFI_REASON_ASSOC_LEAVE sample_manager = Some m'
       /\ code (status (_wifiman_data m')) = DISCONNECTED
       /\ nextConnect m' = nextConnect sample_manager
       /\ _wifiman_retryCount m' = _wifiman_retryCount sample_manager.
Proof.
  split; [reflexivity|].
  destruct (disconnect_retry_decision sample_radio "home"
              WIFI_REASON_ASSOC_LEAVE sample_manager eq_refl)
    as (index & m' & Hf & Hev & Hassoc & _).
  exists index, m'. split; [exact Hf|]. split; [exact Hev|].
  exact (Hassoc eq_refl).
Defined.

(** Two consecutive failures against "home": retries due after 1000 and
    after 2000 ms. *)
Lemma backoff_sequence_instance :
  wf_manager sample_manager = true
  /\ exists trace,
       consecutive_disconnects "home" [(sample_radio, 2); (sample_radio, 201)]
         sample_manager = Some trace
       /\ (exists m1, trace !! 0%nat = Some m1
                      /\ nextConnect m1 = mkConnect 6000 0 false false
                      /\ _wifiman_retryCount m1 = 1)
       /\ (exists m2, trace !! 1%nat = Some m2
                      /\ nextConnect m2 = mkConnect 7000 0 false false
                      /\ _wifiman_retryCount m2 = 2).
Proof.
  split; [reflexivity|].
  destruct (backoff_sequence_and_counter_reset sample_radio sample_manager
              eq_refl) as (_ & _ & Hseq & _).
  destruct (Hseq "home"%string 0 [(sample_radio, 2); (sample_radio, 201)])
    as (trace & Htrace & Hall);
    [reflexivity | reflexivity | reflexivity | reflexivity
    | apply Z.leb_le; reflexivity |].
  exists trace. split; [exact Htrace|]. split.
  - exact (Hall 0%nat sample_radio 2 eq_refl).
  - exact (Hall 1%nat sample_radio 201 eq_refl).
Defined.

Lemma status_callback_instance :
  wf_manager sample_manager = true
  /\ _wifiman_statusCallback sample_manager = true
  /\ exists m',
       run_operation sample_radio (EventConnected "home") sample_manager
       = Some m'
       /\ ((status (_wifiman_data m') = status (_wifiman_data sample_manager)
            /\ callbackLog m' = callbackLog sample_manager)
           \/ exists mid,
                callbackLog m'
                = status (_wifiman_data m')
                    :: mid ++ callbackLog sample_manager).
Proof.
  split; [reflexivity|]. split; [reflexivity|].
  apply (proj1 (status_callback_reports_status_changes sample_radio
                  (EventConnected "home") sample_manager
                  eq_refl eq_refl eq_refl)).
  reflexivity.
Defined.

(** The scenario of the specification: "A" at -70 dBm, "B" at -40 dBm,
    both usable; "B" (slot 1) is chosen. *)
Lemma best_wifi_instance :
  exists m' k s rssi,
    wifiman_connectToBestWifi (mkRadio 1000 false (ScanDone scan_AB))
      (manager_on registry_AB) = Some (WMRT_SUCCESS, m')
    /\ scan_AB !! k = Some (s, rssi)
    /\ nextConnect m' = mkConnect 1000 1 true false.
Proof.
  destruct (best_wifi_selects_strongest_usable
              (mkRadio 1000 false (ScanDone scan_AB)) (manager_on registry_AB)
              scan_AB) as [Hsel _];
    [vm_compute; reflexivity | reflexivity | vm_compute; discriminate
    | reflexivity | reflexivity |].
  destruct Hsel as (m' & k & s & rssi & j & Hbest & Hk & Hu & Hn & _ & Hmax).
  { exists 1%nat, "B"%string, (-40), 1. split; [reflexivity|].
    split; [simpl; lia|]. eexists. split; [reflexivity|].
    split; [reflexivity | discriminate]. }
  exists m', k, s, rssi. split; [exact Hbest|]. split; [exact Hk|].
  rewrite Hn. f_equal.
  assert (rssi = -40 /\ k = 1%nat) as [-> ->].
  { destruct (Hmax 1%nat "B"%string (-40) 1 eq_refl) as [Hle Htie].
    { split; [simpl; lia|]. eexists. split; [reflexivity|].
      split; [reflexivity | discriminate]. }
    destruct k as [|[|k]]; simpl in Hk; [| |discriminate].
    - injection Hk as <- <-. lia.
    - injection Hk as <- <-. auto. }
  simpl in Hk. injection Hk as <-.
  eapply (usable_match_unique registry_AB "B"); try exact Hu.
  - reflexivity.
  - apply (bool_decide_unpack _). vm_compute. exact I.
  - split; [simpl; lia|]. eexists. split; [reflexivity|].
    split; [reflexivity | discriminate].
Defined.

Lemma no_usable_network_instance :
  wf_data registry_failed_A = true /\ all_failed registry_failed_A = true
  /\ _wifiman_checkConnection sample_radio (manager_on registry_failed_A)
     = Some (manager_on registry_failed_A).
Proof.
  split; [reflexivity|]. split; [reflexivity|].
  apply (no_usable_network_gates sample_radio (manager_on registry_failed_A));
    reflexivity.
Defined.

Lemma registry_invariant_instance :
  let ops := [OpAddOrUpdate (Some "work"%string) None;
              OpAddOrUpdate (Some "home"%string) (Some "new"%string);
              OpDelete 0;
              OpDeleteByName (Some "work"%string)] in
  valid_registry sample_data = true
  /\ exists trace,
       run_ops sample_data ops = Some trace
       /\ List.length trace = List.length ops
       /\ Forall (fun d' => NoDup (ssids d') /\ length d' <= capacity d'
                            /\ capacity d' = capacity sample_data
                            /\ valid_registry d' = true) trace.
Proof.
  intros ops. split; [vm_compute; reflexivity|].
  apply (registry_invariant_under_add_update_delete sample_data ops);
    vm_compute; reflexivity.
Defined.

Lemma eeprom_save_then_read_instance :
  let fresh := mkData (mkStatus 255 WM_IDLE_STATUS 0) [None; None] 2 0 in
  wf_data sample_data = true /\ wf_data fresh = true
  /\ exists pref' d',
       wifiman_saveToEEPROM ∅ sample_data 0 255 = Some pref'
       /\ wifiman_readFromEEPROM pref' fresh 0 255 = Some (1, d')
       /\ length d' = 1
       /\ deref (networks d') 0 = Some home_network.
Proof.
  intros fresh. split; [reflexivity|]. split; [reflexivity|].
  destruct (eeprom_save_then_read ∅ sample_data fresh 0 255)
    as (pref' & d' & Hsave & Hread & _ & Hlen & _ & _ & Hslots & _);
    [reflexivity | reflexivity | reflexivity | reflexivity | reflexivity
     | left; simpl; lia |].
  exists pref', d'. split; [exact Hsave|]. split; [exact Hread|].
  split; [exact Hlen|].
  destruct (Hslots 0 home_network) as (_ & e' & -> & Hssid & Hstate & Hpass & _);
    [lia | simpl; lia | reflexivity |].
  specialize (Hpass "secret"%string eq_refl). simpl in Hpass.
  destruct e' as [s p st]. simpl in *. by subst.
Defined.

(** A deadline 1000 ticks ahead, set 500 ticks before the counter
    overflows: not passed 100 ticks later, passed 500 ticks after the
    overflow (the deadline itself having wrapped to tick 500). *)
Lemma time_now_or_passed_instance :
  _time_now_or_passed ((2 ^ 32 - 500 + 1000) mod 2 ^ 32)
    ((2 ^ 32 - 400) mod 2 ^ 32) = false
  /\ _time_now_or_passed ((2 ^ 32 - 500 + 1000) mod 2 ^ 32)
       ((2 ^ 32 + 500) mod 2 ^ 32) = true.
Proof.
  destruct (proj2 time_now_or_passed_window (2 ^ 32 - 500) 1000
              (2 ^ 32 - 400) ltac:(lia)) as (Hbefore & _ & _).
  destruct (proj2 time_now_or_passed_window (2 ^ 32 - 500) 1000
              (2 ^ 32 + 500) ltac:(lia)) as (_ & Hafter & _).
  split; [apply Hbefore; lia | apply Hafter; lia].
Defined.

Lemma deleteNetworkByName_instance :
  wf_data sample_data = true
  /\ wifiman_deleteNetworkByName sample_data (Some "work"%string)
     = Some (255, sample_data).
Proof.
  split; [reflexivity|].
  apply deleteNetworkByName_absent_is_noop; [reflexivity|].
  right. right. exists "work"%string. split; [reflexivity|].
  apply (bool_decide_unpack _). vm_compute. exact I.
Defined.

(** * Further properties of the registry, the store and the worker *)

(** ** Searching *)

Lemma ssids_lookup d i :
  wf_data d = true -> 0 <= i < length d ->
  ssids d !! Z.to_nat i = ssid <$> deref (networks d) i.
Proof.
  intros H Hi. unfold ssids.
  by rewrite list_lookup_fmap, (deref_entries d i H Hi).
Qed.

Lemma ssids_length d :
  wf_data d = true -> List.length (ssids d) = Z.to_nat (length d).
Proof. intros H. unfold ssids. by rewrite length_fmap, entries_length. Qed.

(** On a well-formed registry the C-string search is the position of the
    first occurrence in the list of SSIDs. *)
Lemma find_index_of d s :
  wf_data d = true -> String.eqb s "" = false ->
  wifiman_findNetworkInList d (Some s) = Some (index_of s (ssids d)).
Proof.
  intros H Hs. pose proof (wf_data_range d H) as (Hl & _ & _).
  unfold wifiman_findNetworkInList. rewrite Hs.
  destruct (first_match_wf d s H) as (r & -> & Hspec). simpl.
  unfold index_of. destruct r as [j|]; simpl.
  - destruct Hspec as (Hj & (e & He & Hse) & Hbefore).
    assert (list_find (fun x => x = s) (ssids d) = Some (Z.to_nat j, s)) as ->.
    { apply list_find_Some. split; [|split; [reflexivity|]].
      - by rewrite (ssids_lookup d j H Hj), He, <- Hse.
      - intros k y Hk Hlt Hy.
        pose proof (lookup_lt_Some _ _ _ Hk) as Hklen.
        rewrite (ssids_length d H) in Hklen.
        replace k with (Z.to_nat (Z.of_nat k)) in Hk by lia.
        rewrite (ssids_lookup d _ H) in Hk by lia.
        destruct (deref (networks d) (Z.of_nat k)) as [e'|] eqn:He';
          [|discriminate].
        simpl in Hk. injection Hk as Hk.
        apply (Hbefore (Z.of_nat k) e'); [lia | exact He' | congruence]. }
    f_equal. lia.
  - assert (list_find (fun x => x = s) (ssids d) = None) as ->; [|reflexivity].
    apply list_find_None. apply Forall_forall. intros x Hx ->.
    apply Hspec. by apply list_elem_of_In.
Qed.

(** X1: on a well-formed registry, [wifiman_findNetworkInList] with a
    non-empty SSID returns the lowest index whose entry has that SSID, and
    255 exactly when no entry has it. *)
Theorem findNetworkInList_first_match (d : WM_SharedData) (s : string) :
  wf_data d = true -> String.eqb s "" = false ->
  exists index,
    wifiman_findNetworkInList d (Some s) = Some index
    /\ ((index = 255 /\ s ∉ ssids d)
        \/ (0 <= index < length d
            /\ (exists e, deref (networks d) index = Some e /\ ssid e = s)
            /\ forall k e, 0 <= k < index ->
                 deref (networks d) k = Some e -> ssid e <> s)).
Proof.
  intros H Hs. unfold wifiman_findNetworkInList. rewrite Hs.
  destruct (first_match_wf d s H) as (r & -> & Hspec). simpl.
  destruct r as [j|]; simpl.
  - exists j. split; [reflexivity|]. right. exact Hspec.
  - exists 255. split; [reflexivity|]. left. auto.
Qed.

Lemma first_match_len_eq nets s n : forall i,
  first_match_len nets s i n = first_match nets s i n.
Proof.
  induction n as [|n IH]; intros i; simpl; [reflexivity|].
  destruct (deref nets i) as [e|]; simpl; [|reflexivity].
  rewrite IH.
  destruct (String.eqb_spec (ssid e) s) as [Heq|Hne]; simpl.
  - subst s. by rewrite Nat.eqb_refl.
  - by destruct (negb _).
Qed.

Lemma first_match_len_none nets bytes n : forall i,
  (forall j, i <= j < i + Z.of_nat n ->
     exists e, deref nets j = Some e /\ ssid e <> bytes) ->
  first_match_len nets bytes i n = Some None.
Proof.
  induction n as [|n IH]; intros i Hall; [reflexivity|].
  cbn [first_match_len].
  destruct (Hall i ltac:(lia)) as (e & -> & Hne). cbn [mbind option_bind].
  assert (first_match_len nets bytes (i + 1) n = Some None) as ->
    by (apply IH; intros j Hj; apply Hall; lia).
  destruct (negb _); [reflexivity|].
  destruct (String.eqb_spec (ssid e) bytes); [contradiction | reflexivity].
Qed.

(** X2: when the two overloads of [wifiman_findNetworkInList] agree.  For
    a byte buffer that is not empty and holds no zero byte, the
    length-delimited search returns what the C-string search returns for
    the C string with these bytes (on any registry, well formed or not).
    For an empty buffer or one that starts with a zero byte it returns
    255.  For a buffer with a zero byte anywhere it returns 255 on every
    well-formed registry whose SSIDs are C strings (no entry has as many
    bytes as the buffer and the same bytes), whatever the C-string search
    finds for the part of the buffer before the zero byte. *)
Theorem findNetworkInList_overloads_agree (d : WM_SharedData) :
  (forall c rest,
      no_zero_byte (String c rest) = true ->
      wifiman_findNetworkInList_len d (String c rest)
      = wifiman_findNetworkInList d (Some (String c rest)))
  /\ wifiman_findNetworkInList_len d "" = Some 255
  /\ (forall rest,
        wifiman_findNetworkInList_len d (String zero rest) = Some 255)
  /\ (wf_data d = true -> forallb no_zero_byte (ssids d) = true ->
      forall bytes, no_zero_byte bytes = false ->
        wifiman_findNetworkInList_len d bytes = Some 255).
Proof.
  split; [|split; [|split]].
  - intros c rest Hc. cbn [no_zero_byte] in Hc.
    apply andb_prop in Hc as [Hc _]. apply negb_true_iff in Hc.
    unfold wifiman_findNetworkInList_len, wifiman_findNetworkInList.
    rewrite Hc. simpl. by rewrite first_match_len_eq.
  - reflexivity.
  - intros rest. reflexivity.
  - intros H Hssids bytes Hbytes.
    pose proof (wf_data_range d H) as (Hl & _ & _).
    unfold wifiman_findNetworkInList_len.
    destruct bytes as [|c rest]; [reflexivity|].
    destruct (Ascii.eqb c zero); [reflexivity|].
    rewrite first_match_len_none; [reflexivity|].
    intros j Hj. destruct (deref_allocated d j H ltac:(lia)) as [e He].
    exists e. split; [exact He|]. intros Heq.
    rewrite forallb_forall in Hssids.
    assert (no_zero_byte (ssid e) = true) as Hz.
    { apply Hssids, list_elem_of_In, (elem_of_ssids d (ssid e) H).
      exists j, e. split; [lia | auto]. }
    rewrite Heq in Hz. congruence.
Qed.

(** ** Counting usable networks *)

Lemma count_usable_spec nets n : forall i count,
  0 <= i ->
  (forall j, i <= j < i + Z.of_nat n -> is_Some (deref nets j)) ->
  0 <= count -> count + Z.of_nat n < 256 ->
  exists usable_here,
    count_usable nets i n count = Some (count + Z.of_nat usable_here)
    /\ (usable_here <= n)%nat
    /\ forall es,
         List.length es = n ->
         (forall k, (k < n)%nat ->
                    deref nets (i + Z.of_nat k) = es !! k) ->
         usable_here = List.length (List.filter usable es).
Proof.
  induction n as [|n IH]; intros i count Hi Hall Hc Hbound.
  - exists 0%nat. split; [simpl; f_equal; lia|]. split; [lia|].
    intros es Hlen _. destruct es; [reflexivity | discriminate].
  - cbn [count_usable]. destruct (Hall i ltac:(lia)) as [e He]. rewrite He.
    simpl.
    set (count' := if negb (state e =? 0) then (count + 1) mod 256 else count).
    assert (count' = count + (if usable e then 1 else 0)) as Hcount'.
    { subst count'. unfold usable, NETWORK_FAILED_BEFORE.
      destruct (negb (state e =? 0)); [rewrite Z.mod_small; lia | lia]. }
    destruct (IH (i + 1) count' ltac:(lia)) as (u & Hu & Hle & Hfilter).
    { intros j Hj. apply Hall. lia. }
    { rewrite Hcount'. destruct (usable e); lia. }
    { rewrite Hcount'. destruct (usable e); lia. }
    exists ((if usable e then 1 else 0) + u)%nat.
    split; [rewrite Hu, Hcount'; f_equal; destruct (usable e); lia|].
    split; [destruct (usable e); lia|].
    intros es Hlen Hes. destruct es as [|e0 es]; [discriminate|].
    pose proof (Hes 0%nat ltac:(lia)) as H0. simpl in H0.
    rewrite Z.add_0_r, He in H0. injection H0 as <-.
    simpl. rewrite (Hfilter es).
    + by destruct (usable e).
    + simpl in Hlen. lia.
    + intros k Hk. specialize (Hes (S k) ltac:(lia)). simpl in Hes.
      rewrite <- Hes. f_equal. lia.
Qed.

Lemma countUsable_filter d :
  wf_data d = true ->
  wifiman_countUsableNetworks d
  = Some (Z.of_nat (List.length (List.filter usable (entries d))))
  /\ Z.of_nat (List.length (List.filter usable (entries d))) <= length d.
Proof.
  intros H. pose proof (wf_data_range d H) as (Hl & Hc & _).
  pose proof (entries_length d H) as Hlen.
  assert (Z.of_nat (List.length (List.filter usable (entries d))) <= length d)
    as Hle.
  { pose proof (List.filter_length_le usable (entries d)). lia. }
  split; [|exact Hle].
  unfold wifiman_countUsableNetworks.
  destruct (Z.eqb_spec (length d) 0) as [H0|Hn0].
  { destruct (entries d); [reflexivity | simpl in Hlen; lia]. }
  destruct (count_usable_spec (networks d) (Z.to_nat (length d)) 0 0)
    as (u & -> & _ & Hfilter); try lia.
  { intros j Hj. apply deref_allocated; [exact H | lia]. }
  rewrite (Hfilter (entries d) Hlen); [reflexivity|].
  intros k Hk. rewrite (deref_entries d _ H) by lia.
  f_equal. lia.
Qed.

(** X3: on a well-formed registry [wifiman_countUsableNetworks] is the
    number of entries whose state is not [NETWORK_FAILED_BEFORE]; the
    one-byte counter never wraps, and the count is at most [length]. *)
Theorem countUsableNetworks_counts_usable_entries (d : WM_SharedData) :
  wf_data d = true ->
  wifiman_countUsableNetworks d
  = Some (Z.of_nat (List.length (List.filter usable (entries d))))
  /\ Z.of_nat (List.length (List.filter usable (entries d))) <= length d.
Proof. apply countUsable_filter. Qed.

(** ** Adding, deleting and searching together *)

Lemma index_of_Some (l : list string) s k :
  index_of s l = Z.of_nat k -> (k < 255)%nat ->
  l !! k = Some s /\ forall j y, l !! j = Some y -> (j < k)%nat -> y <> s.
Proof.
  unfold index_of, UINT8_MINUS_1.
  destruct (list_find (fun x => x = s) l) as [[k' x]|] eqn:Hfind;
    intros Hk Hlt; [|lia].
  apply list_find_Some in Hfind as (Hl & -> & Hleast).
  assert (k' = k) as -> by lia. auto.
Qed.

Lemma index_of_intro (l : list string) s k :
  l !! k = Some s -> (forall j y, l !! j = Some y -> (j < k)%nat -> y <> s) ->
  index_of s l = Z.of_nat k.
Proof.
  intros Hl Hleast. unfold index_of.
  assert (list_find (fun x => x = s) l = Some (k, s)) as ->; [|reflexivity].
  apply list_find_Some. auto.
Qed.

Lemma index_of_absent (l : list string) s : s ∉ l -> index_of s l = 255.
Proof.
  intros Hs. unfold index_of.
  assert (list_find (fun x => x = s) l = None) as ->; [|reflexivity].
  apply list_find_None, Forall_forall. by intros x Hx ->.
Qed.

Lemma index_of_cases (l : list string) s :
  ((s ∉ l) /\ index_of s l = 255)
  \/ exists k, index_of s l = Z.of_nat k /\ l !! k = Some s
               /\ forall j y, l !! j = Some y -> (j < k)%nat -> y <> s.
Proof.
  unfold index_of.
  destruct (list_find (fun x => x = s) l) as [[k x]|] eqn:Hfind.
  - apply list_find_Some in Hfind as (Hl & -> & Hleast). right. eauto.
  - left. split; [|reflexivity].
    apply list_find_None in Hfind. rewrite Forall_forall in Hfind.
    intros Hin. by apply (Hfind s).
Qed.

Lemma index_of_app_other (l : list string) s s' :
  s' <> s -> index_of s' (l ++ [s]) = index_of s' l.
Proof.
  intros Hne. destruct (index_of_cases l s') as [[Hin ->]|(k & -> & Hk & Hleast)].
  - apply index_of_absent. rewrite elem_of_app, list_elem_of_singleton.
    tauto.
  - apply index_of_intro; [by apply lookup_app_l_Some|].
    intros j y Hj Hlt. apply (Hleast j y); [|exact Hlt].
    rewrite lookup_app_l in Hj; [exact Hj|].
    apply lookup_lt_Some in Hk. lia.
Qed.

Lemma index_of_app_new (l : list string) s :
  s ∉ l -> index_of s (l ++ [s]) = Z.of_nat (List.length l).
Proof.
  intros Hin. apply index_of_intro.
  - rewrite lookup_app_r by lia. by rewrite Nat.sub_diag.
  - intros j y Hj Hlt -> . apply Hin.
    rewrite lookup_app_l in Hj by lia. by eapply list_elem_of_lookup_2.
Qed.

(** X4: adding or updating and then searching.  On a well-formed registry
    [wifiman_addOrUpdateNetwork] with a non-empty SSID either finds no room
    (the SSID is new and the registry full: 255, nothing written, nothing
    changed) or returns the index under which [wifiman_findNetworkInList]
    finds the SSID afterwards; that slot then holds the SSID with the given
    passphrase in state Unknown, the flag tells whether the SSID was there
    before, and the search result for every other SSID is what it was
    before the call. *)
Theorem addOrUpdate_then_find
    (d : WM_SharedData) (s : string) (p : option string) :
  wf_data d = true -> String.eqb s "" = false ->
  exists i u d',
    wifiman_addOrUpdateNetwork d (Some s) p = Some (i, u, d')
    /\ wf_data d' = true
    /\ ((i = 255 /\ u = None /\ d' = d
         /\ (s ∉ ssids d) /\ length d = capacity d)
        \/ (0 <= i < length d'
            /\ u = Some (bool_decide (s ∈ ssids d))
            /\ wifiman_findNetworkInList d' (Some s) = Some i
            /\ deref (networks d') i
               = Some (mkNetwork s p NETWORK_STATE_UNKNOWN)
            /\ forall s', s' <> s ->
                 wifiman_findNetworkInList d' (Some s')
                 = wifiman_findNetworkInList d (Some s'))).
Proof.
  intros H Hs. pose proof (wf_data_range d H) as (Hl & Hc & Hn).
  pose proof (find_index_of d s H Hs) as Hfind.
  assert (forall d1 s',
            wf_data d1 = true -> index_of s' (ssids d1) = index_of s' (ssids d) ->
            wifiman_findNetworkInList d1 (Some s')
            = wifiman_findNetworkInList d (Some s')) as Hother.
  { intros d1 s' H1 Hidx. destruct (String.eqb s' "") eqn:Hs'.
    - unfold wifiman_findNetworkInList. by rewrite Hs'.
    - rewrite (find_index_of d1 s' H1 Hs'), (find_index_of d s' H Hs').
      by rewrite Hidx. }
  destruct (decide (s ∈ ssids d)) as [Hin|Hin].
  - destruct (addOrUpdate_existing d s p H Hin)
      as (i & e & Hi & He & Hse & Hadd).
    assert (wifiman_findNetworkInList d (Some s) = Some i) as Hfi.
    { revert Hadd. unfold wifiman_addOrUpdateNetwork, wifiman_findNetworkInList.
      rewrite Hs. destruct (first_match _ _ _ _) as [[j|]|]; simpl;
        try discriminate.
      - destruct (deref (networks d) j); simpl; [|discriminate].
        destruct (store_slot _ _ _); simpl; [|discriminate].
        by intros [= ->].
      - destruct (length d =? capacity d); [intros [= ?]; lia|].
        destruct (store_slot _ _ _); simpl; [|discriminate].
        intros Heq. injection Heq as Hlen _ _.
        rewrite (Z.mod_small (length d + 1)) in Hlen by lia.
        rewrite Z.mod_small in Hlen by lia. lia. }
    destruct (update_slot_wf d i (mkNetwork s p NETWORK_STATE_UNKNOWN) H Hi)
      as [Hwf' Hent'].
    set (d' := set_networks d _) in *.
    assert (ssids d' = ssids d) as Hss.
    { unfold ssids. rewrite Hent', list_fmap_insert. simpl.
      apply list_insert_id. fold (ssids d).
      by rewrite (ssids_lookup d i H Hi), He, <- Hse. }
    exists i, (Some true), d'. split; [exact Hadd|]. split; [exact Hwf'|].
    right. split; [exact Hi|].
    split; [by rewrite bool_decide_eq_true_2|].
    split; [rewrite <- Hfi; apply Hother; [exact Hwf' | by rewrite Hss]|].
    split.
    + subst d'. simpl. rewrite deref_insert by lia.
      by rewrite Z.eqb_refl.
    + intros s' _. apply Hother; [exact Hwf' | by rewrite Hss].
  - rewrite (addOrUpdate_absent d s p H Hin).
    destruct (Z.eqb_spec (length d) (capacity d)) as [Hfull|Hroom].
    { exists 255, None, d. split; [reflexivity|]. split; [exact H|].
      left. auto. }
    destruct (append_slot_wf d (mkNetwork s p NETWORK_STATE_UNKNOWN) H
                ltac:(lia)) as [Hwf' Hent'].
    set (d' := mkData _ _ _ _) in *.
    assert (ssids d' = ssids d ++ [s]) as Hss.
    { unfold ssids. by rewrite Hent', fmap_app. }
    exists (length d), (Some false), d'.
    split; [reflexivity|]. split; [exact Hwf'|]. right.
    split; [subst d'; simpl; lia|].
    split; [by rewrite bool_decide_eq_false_2|].
    split.
    + rewrite (find_index_of d' s Hwf' Hs), Hss, (index_of_app_new _ _ Hin).
      rewrite (ssids_length d H). f_equal. lia.
    + split.
      * subst d'. simpl. rewrite deref_insert by lia.
        by rewrite Z.eqb_refl.
      * intros s' Hne. apply Hother; [exact Hwf'|].
        rewrite Hss. by apply index_of_app_other.
Qed.

Lemma deleteNetwork_status d index r d' :
  wifiman_deleteNetwork d index = Some (r, d') -> index < length d ->
  r <> 255 ->
  status d'
  = mkStatus
      (if targetNetwork (status d) =? index then 255
       else if (targetNetwork (status d) >? index)
               && negb (targetNetwork (status d) =? 255)
            then (targetNetwork (status d) - 1) mod 256
            else targetNetwork (status d))
      (code (status d)) (attemptsOrReason (status d)).
Proof.
  unfold wifiman_deleteNetwork, UINT8_MINUS_1. intros Hdel Hlt Hr.
  destruct (Z.geb_spec index (length d)); [lia|].
  destruct (networks d !! Z.to_nat index) as [[e|]|]; simpl in Hdel;
    [|injection Hdel as <- _; contradiction | discriminate].
  destruct (memmove_slots _ _ _ _); simpl in Hdel; [|discriminate].
  destruct (store_slot _ _ _); simpl in Hdel; [|discriminate].
  by injection Hdel as _ <-.
Qed.

(** X5: deleting slot [index] of a well-formed registry removes exactly
    that entry and keeps the others in their order (the later ones one
    slot lower); code and reason of the status stay, and the target index
    of the status is renumbered with the entries: it becomes 255 when it
    named the deleted entry, stays 255 when it was 255, and otherwise names
    the same entry as before. *)
Theorem deleteNetwork_keeps_order_and_target
    (d : WM_SharedData) (index : Z) :
  wf_data d = true -> 0 <= index < length d ->
  exists d',
    wifiman_deleteNetwork d index = Some (index, d')
    /\ wf_data d' = true
    /\ entries d' = delete (Z.to_nat index) (entries d)
    /\ length d' = length d - 1 /\ capacity d' = capacity d
    /\ code (status d') = code (status d)
    /\ attemptsOrReason (status d') = attemptsOrReason (status d)
    /\ (targetNetwork (status d) = index ->
        targetNetwork (status d') = 255)
    /\ (targetNetwork (status d) = 255 ->
        targetNetwork (status d') = 255)
    /\ (targetNetwork (status d) <> index ->
        0 <= targetNetwork (status d) < length d ->
        0 <= targetNetwork (status d') < length d'
        /\ entries d' !! Z.to_nat (targetNetwork (status d'))
           = entries d !! Z.to_nat (targetNetwork (status d))).
Proof.
  intros H Hi. pose proof (wf_data_range d H) as (Hl & Hc & Hn).
  destruct (delete_in_range d index H Hi)
    as (d' & Hdel & Hwf' & Hent & Hlen & Hcap & Hcode).
  pose proof (deleteNetwork_status d index index d' Hdel ltac:(lia) ltac:(lia))
    as Hst.
  exists d'. split; [exact Hdel|]. split; [exact Hwf'|].
  split; [exact Hent|]. split; [exact Hlen|]. split; [exact Hcap|].
  split; [exact Hcode|]. rewrite Hst. simpl.
  split; [reflexivity|]. split; [|split].
  - intros ->. by rewrite Z.eqb_refl.
  - intros ->. destruct (255 =? index); [reflexivity|].
    rewrite Z.eqb_refl, andb_false_r. reflexivity.
  - intros Hne Htn. rewrite Hent, Hlen.
    destruct (Z.eqb_spec (targetNetwork (status d)) index); [contradiction|].
    destruct (Z.gtb_spec (targetNetwork (status d)) index) as [Hgt|Hle].
    + destruct (Z.eqb_spec (targetNetwork (status d)) 255); [lia|]. simpl.
      rewrite Z.mod_small by lia. split; [lia|].
      rewrite list_lookup_delete_ge by lia. f_equal. lia.
    + simpl. split; [lia|]. rewrite list_lookup_delete_lt by lia.
      reflexivity.
Qed.

Lemma index_of_delete_other (l : list string) (i : nat) s s' :
  (List.length l <= 255)%nat -> l !! i = Some s -> s' <> s ->
  index_of s' (delete i l)
  = if index_of s' l =? 255 then 255
    else if index_of s' l <? Z.of_nat i then index_of s' l
         else index_of s' l - 1.
Proof.
  intros Hlen Hi Hne.
  destruct (index_of_cases l s') as [[Hin ->]|(k & -> & Hk & Hleast)].
  - simpl. apply index_of_absent. intros Hin'. apply Hin.
    by eapply list_elem_of_delete_inv.
  - pose proof (lookup_lt_Some _ _ _ Hk) as Hklen.
    assert (k <> i) as Hki by (intros ->; congruence).
    destruct (Z.ltb_spec (Z.of_nat k) (Z.of_nat i)) as [Hlt|Hge].
    + assert (index_of s' (delete i l) = Z.of_nat k) as ->.
      { apply index_of_intro.
        - rewrite list_lookup_delete_lt by lia. exact Hk.
        - intros j y Hj Hjk. rewrite list_lookup_delete_lt in Hj by lia.
          by apply (Hleast j y). }
      destruct (Z.eqb_spec (Z.of_nat k) 255); [lia | reflexivity].
    + assert (index_of s' (delete i l) = Z.of_nat (k - 1)) as ->.
      { apply index_of_intro.
        - rewrite list_lookup_delete_ge by lia.
          replace (S (k - 1)) with k by lia. exact Hk.
        - intros j y Hj Hjk.
          destruct (Nat.lt_ge_cases j i).
          + rewrite list_lookup_delete_lt in Hj by lia.
            apply (Hleast j y); [exact Hj | lia].
          + rewrite list_lookup_delete_ge in Hj by lia.
            apply (Hleast (S j) y); [exact Hj | lia]. }
      destruct (Z.eqb_spec (Z.of_nat k) 255) as [H255|_]; lia.
Qed.

(** X6: deleting by name and then searching.  On a valid registry
    (well-formed, SSIDs pairwise different) [wifiman_deleteNetworkByName]
    with an SSID of the registry returns its index and leaves a valid
    registry in which that SSID is no longer found, while every other SSID
    is found exactly when it was found before: at the same index when that
    is below the deleted one, one lower otherwise. *)
Theorem deleteNetworkByName_then_find (d : WM_SharedData) (s : string) :
  valid_registry d = true -> String.eqb s "" = false -> s ∈ ssids d ->
  exists i d',
    wifiman_deleteNetworkByName d (Some s) = Some (i, d')
    /\ 0 <= i < length d
    /\ valid_registry d' = true
    /\ ssids d' = delete (Z.to_nat i) (ssids d)
    /\ wifiman_findNetworkInList d' (Some s) = Some 255
    /\ forall s', s' <> s ->
         exists j,
           wifiman_findNetworkInList d (Some s') = Some j
           /\ wifiman_findNetworkInList d' (Some s')
              = Some (if j =? 255 then 255
                      else if j <? i then j else j - 1).
Proof.
  intros Hv Hs Hin. apply valid_registry_spec in Hv as [H Hnd].
  pose proof (wf_data_range d H) as (Hl & Hc & Hn).
  pose proof (ssids_length d H) as Hslen.
  destruct (index_of_cases (ssids d) s) as [[Hout _]|(k & Hk & Hlook & Hleast)];
    [contradiction|].
  pose proof (lookup_lt_Some _ _ _ Hlook) as Hklen.
  unfold wifiman_deleteNetworkByName.
  rewrite (find_index_of d s H Hs), Hk. cbn [mbind option_bind].
  destruct (delete_in_range d (Z.of_nat k) H ltac:(lia))
    as (d' & -> & Hwf' & Hent & Hlen & Hcap & _).
  rewrite Nat2Z.id in Hent.
  assert (ssids d' = delete k (ssids d)) as Hss
    by (unfold ssids; by rewrite Hent, list_fmap_delete).
  assert (NoDup (ssids d')) as Hnd'.
  { rewrite Hss. eapply sublist_NoDup; [exact Hnd | apply sublist_delete]. }
  assert (s ∉ ssids d') as Hgone.
  { rewrite Hss. intros Hin'. apply list_elem_of_lookup in Hin' as [j Hj].
    destruct (Nat.lt_ge_cases j k).
    - rewrite list_lookup_delete_lt in Hj by lia.
      pose proof (NoDup_lookup _ _ _ _ Hnd Hj Hlook). lia.
    - rewrite list_lookup_delete_ge in Hj by lia.
      pose proof (NoDup_lookup _ _ _ _ Hnd Hj Hlook). lia. }
  exists (Z.of_nat k), d'. split; [reflexivity|]. split; [lia|].
  split; [by apply valid_registry_spec|].
  split; [by rewrite Nat2Z.id|].
  split; [rewrite (find_index_of d' s Hwf' Hs); by rewrite index_of_absent|].
  intros s' Hne. destruct (String.eqb s' "") eqn:Hs'.
  - exists 255. unfold wifiman_findNetworkInList. rewrite Hs'. auto.
  - exists (index_of s' (ssids d)).
    rewrite (find_index_of d s' H Hs'), (find_index_of d' s' Hwf' Hs'), Hss.
    split; [reflexivity|]. f_equal.
    apply (index_of_delete_other (ssids d) k s s'); [lia | exact Hlook | exact Hne].
Qed.

(** ** Creation *)

Lemma run_ops_valid ops : forall d,
  valid_registry d = true -> forallb op_args_ok ops = true ->
  exists trace,
    run_ops d ops = Some trace
    /\ Forall (fun d' => valid_registry d' = true
                         /\ capacity d' = capacity d) trace.
Proof.
  induction ops as [|op ops IH]; intros d Hv Hops; simpl.
  - exists []. auto.
  - simpl in Hops. apply andb_prop in Hops as [Hop Hops].
    destruct (apply_op_valid d op Hv Hop) as (d' & -> & Hv' & Hcap). simpl.
    destruct (IH d' Hv' Hops) as (trace & -> & Hall). simpl.
    eexists. split; [reflexivity|]. constructor; [auto|].
    eapply Forall_impl; [exact Hall|]. simpl. intros d'' [? ?].
    split; [assumption | congruence].
Qed.

Lemma first_null_slot_spec nets n : forall i,
  0 <= i -> i + Z.of_nat n <= Z.of_nat (List.length nets) ->
  exists r,
    first_null_slot nets i n = Some r
    /\ match r with
       | Some k =>
           i <= k < i + Z.of_nat n /\ nets !! Z.to_nat k = Some None
           /\ forall j, i <= j < k -> is_Some (deref nets j)
       | None => forall j, i <= j < i + Z.of_nat n -> is_Some (deref nets j)
       end.
Proof.
  induction n as [|n IH]; intros i Hi Hlen; simpl.
  - exists None. split; [reflexivity|]. intros; lia.
  - destruct (Z.ltb_spec i 0); [lia|].
    destruct (lookup_lt_is_Some_2 nets (Z.to_nat i) ltac:(lia)) as [p Hp].
    rewrite Hp. simpl. destruct p as [e|].
    + destruct (IH (i + 1) ltac:(lia) ltac:(lia)) as (r & -> & Hspec).
      assert (is_Some (deref nets i)) as Hsome.
      { exists e. apply deref_Some. split; [lia | exact Hp]. }
      exists r. split; [reflexivity|]. destruct r as [k|].
      * destruct Hspec as (Hk & Hnull & Hbefore). split; [lia|].
        split; [exact Hnull|]. intros j Hj.
        destruct (Z.eq_dec j i) as [->|]; [exact Hsome | apply Hbefore; lia].
      * intros j Hj.
        destruct (Z.eq_dec j i) as [->|]; [exact Hsome | apply Hspec; lia].
    + exists (Some i). split; [reflexivity|]. split; [lia|].
      split; [exact Hp|]. intros; lia.
Qed.

(** X7: [wifiman_create] refuses the capacities 0 and 255.  For a
    capacity from 1 to 254 and no list it returns an empty valid registry
    (length 0, target 255, status Idle) from which every sequence of
    add-or-update and delete calls keeps the registry valid and the
    capacity fixed.  For an existing list of [capacity] slots it sets
    [length] to the index of the first null slot, which gives a well-formed
    registry over that list; when the list has no null slot [length] is
    never assigned and keeps whatever the allocated record held. *)
Theorem create_gives_valid_registry
    (capacity_arg uninit_length uninit_byte : Z) :
  1 <= capacity_arg <= 254 ->
  wifiman_create None 0 uninit_length uninit_byte = Some None
  /\ wifiman_create None 255 uninit_length uninit_byte = Some None
  /\ (exists d,
        wifiman_create None capacity_arg uninit_length uninit_byte
        = Some (Some d)
        /\ valid_registry d = true
        /\ length d = 0 /\ capacity d = capacity_arg /\ entries d = []
        /\ targetNetwork (status d) = 255 /\ code (status d) = WM_IDLE_STATUS
        /\ forall ops,
             forallb op_args_ok ops = true ->
             exists trace,
               run_ops d ops = Some trace
               /\ Forall (fun d' => valid_registry d' = true
                                    /\ capacity d' = capacity_arg) trace)
  /\ (forall nets,
        Z.of_nat (List.length nets) = capacity_arg ->
        exists d,
          wifiman_create (Some nets) capacity_arg uninit_length uninit_byte
          = Some (Some d)
          /\ networks d = nets /\ capacity d = capacity_arg
          /\ ((0 <= length d < capacity_arg
               /\ nets !! Z.to_nat (length d) = Some None
               /\ wf_data d = true)
              \/ ((forall j, 0 <= j < capacity_arg -> is_Some (deref nets j))
                  /\ length d = uninit_length))).
Proof.
  intros Hcap. split; [reflexivity|]. split; [reflexivity|].
  unfold wifiman_create, UINT8_MINUS_1.
  destruct (Z.eqb_spec capacity_arg 0); [lia|].
  destruct (Z.eqb_spec capacity_arg 255); [lia|]. simpl.
  split.
  - eexists. split; [reflexivity|].
    set (st := mkStatus 255 WM_IDLE_STATUS uninit_byte).
    destruct (wf_data_intro st [] (replicate (Z.to_nat capacity_arg) None)
                capacity_arg 0) as [Hwf Hent];
      [reflexivity | simpl; rewrite length_replicate; lia | lia |].
    simpl in Hwf, Hent.
    assert (valid_registry
              (mkData st (replicate (Z.to_nat capacity_arg) None)
                      capacity_arg 0) = true) as Hv.
    { apply valid_registry_spec. split; [exact Hwf|].
      unfold ssids. rewrite Hent. constructor. }
    split; [exact Hv|]. repeat (split; [reflexivity || exact Hent|]).
    intros ops Hops.
    destruct (run_ops_valid ops _ Hv Hops) as (trace & Htrace & Hall).
    exists trace. split; [exact Htrace | exact Hall].
  - intros nets Hlen.
    destruct (first_null_slot_spec nets (Z.to_nat capacity_arg) 0)
      as (r & -> & Hspec); [lia | lia |].
    simpl. eexists. split; [reflexivity|]. split; [reflexivity|].
    split; [reflexivity|]. simpl. destruct r as [k|]; simpl.
    + destruct Hspec as (Hk & Hnull & Hbefore). left.
      split; [lia|]. split; [exact Hnull|].
      apply wf_data_pointwise; simpl; try lia. exact Hbefore.
    + right. split; [|reflexivity]. intros j Hj. apply Hspec. lia.
Qed.

(** ** Loading and saving *)

(** X8: loading from any store into a well-formed registry, starting at
    or below [length], never faults and leaves a well-formed registry of
    the same capacity and status.  The [n] slots it reports as read are the
    slots from [startIndex] on, each holding what the store has for it;
    every other slot keeps its entry; [length] grows to cover the slots
    read; and when it reads fewer slots than the range allows, the store
    has no SSID key for the slot at which it stopped. *)
Theorem readFromEEPROM_reads_a_prefix
    (pref : gmap string PrefValue) (d : WM_SharedData)
    (startIndex count : Z) :
  wf_data d = true ->
  is_uint8 startIndex = true -> is_uint8 count = true ->
  startIndex <= length d ->
  exists n d',
    wifiman_readFromEEPROM pref d startIndex count = Some (n, d')
    /\ wf_data d' = true /\ capacity d' = capacity d
    /\ status d' = status d
    /\ 0 <= n <= count
    /\ length d' = Z.max (length d) (startIndex + n)
    /\ (forall j, startIndex <= j < startIndex + n ->
          is_Some (pref !! WM_PREFERENCES_KEY_SSID j)
          /\ deref (networks d') j = Some (stored_entry pref j))
    /\ (forall j, 0 <= j -> ~ (startIndex <= j < startIndex + n) ->
          deref (networks d') j = deref (networks d) j)
    /\ (startIndex + n < Z.min (startIndex + count) (capacity d) ->
        pref !! WM_PREFERENCES_KEY_SSID (startIndex + n) = None).
Proof.
  intros H Hs Hc Hstart. unfold is_uint8 in Hs, Hc.
  apply andb_prop in Hs as [Hs1 Hs2]. apply andb_prop in Hc as [Hc1 Hc2].
  apply Z.leb_le in Hs1, Hs2, Hc1, Hc2.
  pose proof (wf_data_range d H) as (Hl & Hcap & Hn).
  unfold wifiman_readFromEEPROM.
  set (iters := range_iterations startIndex count (capacity d)).
  assert (startIndex + Z.of_nat iters
          = Z.min (startIndex + count) (capacity d)) as Hend
    by (subst iters; unfold range_iterations; lia).
  destruct (read_loop_general pref iters startIndex d 0 H)
    as (k & d' & Hread & Hk & Hkeys & Hstop & Hwf' & Hcap' & Hst' & Hlen'
        & Hderef'); try lia.
  exists (Z.of_nat k), d'. split; [exact Hread|]. split; [exact Hwf'|].
  split; [exact Hcap'|]. split; [exact Hst'|]. split; [lia|].
  split; [exact Hlen'|]. split; [|split].
  - intros j Hj. split; [by apply Hkeys|]. rewrite Hderef' by lia. cases_Zb.
  - intros j Hj Hout. rewrite Hderef' by lia. cases_Zb.
  - intros Hearly. apply Hstop. lia.
Qed.

Lemma stored_entry_saved pref' i e stale :
  pref' !! WM_PREFERENCES_KEY_SSID i = Some (PStr (ssid e)) ->
  pref' !! WM_PREFERENCES_KEY_STATE i = Some (PChar (state e)) ->
  pref' !! WM_PREFERENCES_KEY_PASS i
  = match pass e with Some p => Some (PStr p) | None => stale end ->
  (pass e = None -> stale = None) ->
  stored_entry pref' i = reloaded e.
Proof.
  intros Hk1 Hk2 Hk3 Hstale.
  unfold stored_entry, reloaded, reloaded_pass, getString, getChar.
  rewrite Hk1, Hk2, Hk3. destruct (pass e) as [p|]; simpl.
  - by destruct (String.eqb p "").
  - by rewrite Hstale.
Qed.

(** X9: the registry survives a restart.  Saving a well-formed registry
    over the whole range into a store that holds no stale passphrase key
    for an entry without passphrase, then loading the whole range into a
    freshly created registry of the same capacity, reads [length] slots and
    gives a well-formed registry with the same entries in the same order
    (an empty-string passphrase coming back as none). *)
Theorem registry_survives_restart
    (pref : gmap string PrefValue) (d : WM_SharedData)
    (uninit_length uninit_byte : Z) :
  wf_data d = true -> 1 <= capacity d ->
  (forall i e, deref (networks d) i = Some e -> pass e = None ->
               pref !! WM_PREFERENCES_KEY_PASS i = None) ->
  exists pref' fresh d',
    wifiman_saveToEEPROM pref d 0 255 = Some pref'
    /\ wifiman_create None (capacity d) uninit_length uninit_byte
       = Some (Some fresh)
    /\ wifiman_readFromEEPROM pref' fresh 0 255 = Some (length d, d')
    /\ wf_data d' = true /\ length d' = length d
    /\ capacity d' = capacity d
    /\ entries d' = reloaded <$> entries d.
Proof.
  intros H Hcap1 Hstale.
  pose proof (wf_data_range d H) as (Hl & Hcap & Hn).
  assert (range_iterations 0 255 (capacity d) = Z.to_nat (capacity d)) as Hit
    by (unfold range_iterations; lia).
  (* saving *)
  destruct (save_loop_spec d H (Z.to_nat (capacity d)) 0 pref ltac:(lia))
    as (pref' & Hsave & _ & Hsaved & Hstop).
  assert (wifiman_saveToEEPROM pref d 0 255 = Some pref') as Hsaved_all.
  { unfold wifiman_saveToEEPROM. simpl (255 =? 0). cbv iota.
    rewrite (save_read_same_range d 0 255 H) by lia.
    rewrite Hit. exact Hsave. }
  (* the fresh registry *)
  set (fresh := mkData (mkStatus 255 WM_IDLE_STATUS uninit_byte)
                  (replicate (Z.to_nat (capacity d)) None) (capacity d) 0).
  assert (wifiman_create None (capacity d) uninit_length uninit_byte
          = Some (Some fresh)) as Hcreate.
  { unfold wifiman_create, UINT8_MINUS_1.
    destruct (Z.eqb_spec (capacity d) 0); [lia|].
    destruct (Z.eqb_spec (capacity d) 255); [lia|]. reflexivity. }
  destruct (wf_data_intro (mkStatus 255 WM_IDLE_STATUS uninit_byte) []
              (replicate (Z.to_nat (capacity d)) None) (capacity d) 0)
    as [Hwff _];
    [reflexivity | simpl; rewrite length_replicate; lia | lia |].
  simpl in Hwff. fold fresh in Hwff.
  (* loading *)
  destruct (read_loop_general pref' (Z.to_nat (capacity d)) 0 fresh 0 Hwff)
    as (k & d' & Hread & Hk & Hkeys & Hstopr & Hwf' & Hcap' & Hst' & Hlen'
        & Hderef'); try (simpl; lia).
  simpl in Hlen', Hcap'.
  assert (Z.of_nat k = length d) as Hkl.
  { destruct (Z.lt_trichotomy (Z.of_nat k) (length d)) as [Hlt|[Heq|Hgt]];
      [|exact Heq|].
    - exfalso. destruct (deref_allocated d (Z.of_nat k) H ltac:(lia))
        as [e He].
      destruct (Hsaved (Z.of_nat k) e ltac:(lia) ltac:(lia) He) as (Hk1 & _).
      specialize (Hstopr ltac:(lia)). rewrite Z.add_0_l in Hstopr.
      rewrite Hstopr in Hk1. discriminate.
    - exfalso. destruct (Hkeys (length d) ltac:(lia)) as [v Hv].
      rewrite Z.max_r in Hstop by lia. rewrite Hstop in Hv by lia.
      discriminate. }
  exists pref', fresh, d'. split; [exact Hsaved_all|].
  split; [exact Hcreate|].
  split; [unfold wifiman_readFromEEPROM; change (capacity fresh) with (capacity d);
          rewrite Hit, Hread; f_equal; f_equal; lia|].
  split; [exact Hwf'|]. split; [lia|]. split; [exact Hcap'|].
  apply list_eq. intros j.
  destruct (Nat.lt_ge_cases j (Z.to_nat (length d))) as [Hj|Hj].
  - replace j with (Z.to_nat (Z.of_nat j)) by lia.
    rewrite <- (deref_entries d' (Z.of_nat j) Hwf') by lia.
    rewrite list_lookup_fmap, <- (deref_entries d (Z.of_nat j) H) by lia.
    rewrite Hderef' by lia.
    destruct (Z.leb_spec 0 (Z.of_nat j)); [|lia].
    destruct (Z.ltb_spec (Z.of_nat j) (0 + Z.of_nat k)); [|lia]. simpl.
    destruct (deref_allocated d (Z.of_nat j) H ltac:(lia)) as [e He].
    rewrite He. simpl. f_equal.
    destruct (Hsaved (Z.of_nat j) e ltac:(lia) ltac:(lia) He)
      as (Hk1 & Hk2 & Hk3).
    apply (stored_entry_saved pref' (Z.of_nat j) e
             (pref !! WM_PREFERENCES_KEY_PASS (Z.of_nat j)) Hk1 Hk2 Hk3).
    intros Hnone. exact (Hstale _ e He Hnone).
  - rewrite lookup_ge_None_2
      by (rewrite (entries_length d' Hwf'); lia).
    rewrite lookup_ge_None_2;
      [reflexivity | rewrite length_fmap, (entries_length d H); lia].
Qed.

(** A store that already holds the registry's slots of a range, and no
    SSID key at the first slot of the range beyond the registry, is left
    as it is by the save loop. *)
Lemma save_loop_fixed d (H : wf_data d = true) n : forall i pref,
  0 <= i ->
  (forall j e, i <= j < i + Z.of_nat n -> j < length d ->
     deref (networks d) j = Some e ->
     pref !! WM_PREFERENCES_KEY_SSID j = Some (PStr (ssid e))
     /\ pref !! WM_PREFERENCES_KEY_STATE j = Some (PChar (state e))
     /\ forall p, pass e = Some p ->
          pref !! WM_PREFERENCES_KEY_PASS j = Some (PStr p)) ->
  (Z.max i (length d) < i + Z.of_nat n ->
   pref !! WM_PREFERENCES_KEY_SSID (Z.max i (length d)) = None) ->
  save_loop d n i pref = Some pref.
Proof.
  induction n as [|n IH]; intros i pref Hi Hkeys Hstop; [reflexivity|].
  cbn [save_loop]. cbv zeta.
  destruct (Z.ltb_spec i (length d)) as [Hlt|Hge].
  - destruct (deref_allocated d i H ltac:(lia)) as [e He]. rewrite He.
    simpl.
    destruct (Hkeys i e ltac:(lia) Hlt He) as (Hk1 & Hk2 & Hk3).
    assert (putChar
              match pass e with
              | Some p =>
                  putString (putString pref (WM_PREFERENCES_KEY_SSID i) (ssid e))
                    (WM_PREFERENCES_KEY_PASS i) p
              | None => putString pref (WM_PREFERENCES_KEY_SSID i) (ssid e)
              end (WM_PREFERENCES_KEY_STATE i) (state e) = pref) as ->.
    { unfold putChar, putString.
      rewrite (insert_id pref (WM_PREFERENCES_KEY_SSID i)) by exact Hk1.
      destruct (pass e) as [p|].
      - rewrite (insert_id pref (WM_PREFERENCES_KEY_PASS i)) by auto.
        by rewrite insert_id.
      - by rewrite insert_id. }
    apply IH; [lia | |].
    + intros j e' Hj Hjl He'. apply Hkeys; [lia | exact Hjl | exact He'].
    + intros Hmax. rewrite Z.max_r in * by lia. apply Hstop. lia.
  - rewrite Z.max_l in Hstop by lia. unfold isKey.
    rewrite bool_decide_eq_false_2; [reflexivity|].
    rewrite Hstop by lia. by intros [? ?].
Qed.

(** X10: saving is idempotent.  When [wifiman_saveToEEPROM] has written a
    range of a well-formed registry, saving the same range again, to the
    store the first call produced, succeeds and changes nothing in that
    store. *)
Theorem saveToEEPROM_twice
    (pref pref' : gmap string PrefValue) (d : WM_SharedData)
    (startIndex count : Z) :
  wf_data d = true -> is_uint8 startIndex = true -> is_uint8 count = true ->
  wifiman_saveToEEPROM pref d startIndex count = Some pref' ->
  wifiman_saveToEEPROM pref' d startIndex count = Some pref'.
Proof.
  intros H Hs Hc. unfold is_uint8 in Hs, Hc.
  rewrite andb_true_iff, !Z.leb_le in Hs, Hc.
  unfold wifiman_saveToEEPROM.
  destruct (Z.eqb_spec count 0) as [Hz|Hz]; [congruence|].
  rewrite (save_read_same_range d startIndex count H) by lia.
  set (n := range_iterations startIndex count (capacity d)).
  destruct (save_loop_spec d H n startIndex pref ltac:(lia))
    as (p1 & Hsave & _ & Hsaved & Hstop).
  rewrite Hsave. intros [= <-].
  apply (save_loop_fixed d H); [lia | | exact Hstop].
  intros j e Hj Hjl He.
  destruct (Hsaved j e Hj Hjl He) as (Hk1 & Hk2 & Hk3).
  split; [exact Hk1|]. split; [exact Hk2|].
  intros p Hp. by rewrite Hp in Hk3.
Qed.

(** ** Event handlers and the registry *)

Lemma set_state_entries d index st :
  wf_data d = true -> 0 <= index < length d ->
  exists d',
    set_state d index st = Some d' /\ wf_data d' = true
    /\ status d' = status d /\ length d' = length d
    /\ capacity d' = capacity d
    /\ entries d' = alter (marked st) (Z.to_nat index) (entries d).
Proof.
  intros H Hi. pose proof (wf_data_range d H) as (Hl & Hc & Hn).
  unfold set_state.
  destruct (deref_allocated d index H Hi) as [e He]. rewrite He. simpl.
  rewrite store_slot_Some by lia. simpl.
  eexists. split; [reflexivity|].
  destruct (update_slot_wf d index (mkNetwork (ssid e) (pass e) st) H Hi)
    as [Hwf Hent].
  split; [exact Hwf|]. do 3 (split; [reflexivity|]).
  rewrite Hent, list_insert_alter. apply list_alter_ext; [|reflexivity].
  intros x Hx. rewrite <- (deref_entries d index H Hi), He in Hx.
  by injection Hx as <-.
Qed.

Lemma data_call_statusCallback m :
  _wifiman_data (call_statusCallback m) = _wifiman_data m.
Proof. unfold call_statusCallback. by destruct (_wifiman_statusCallback m). Qed.

Lemma target_known_spec m ev_ssid index :
  wifiman_findNetworkInList_len (_wifiman_data m) ev_ssid = Some index ->
  target_known m ev_ssid = (index <? length (_wifiman_data m)).
Proof. intros Hf. unfold target_known. by rewrite Hf. Qed.

(** X11: the connected event and the registry.  On a well-formed manager
    the handler returns; when the event's SSID names an entry, that entry
    alone is marked [NETWORK_WORKED_BEFORE], the retry counter is reset,
    and in autonomous mode periodic scanning is paused (notification value
    0); when it names none, registry, retry counter and notification value
    stay as they are.  In both cases the pending connect and scan commands
    are untouched. *)
Theorem connectedEvent_marks_the_network (ev_ssid : string) (m : Manager) :
  wf_manager m = true ->
  exists index m',
    wifiman_findNetworkInList_len (_wifiman_data m) ev_ssid = Some index
    /\ _wifiman_wifiConnectedEvent ev_ssid m = Some m'
    /\ nextConnect m' = nextConnect m /\ nextScan m' = nextScan m
    /\ if target_known m ev_ssid
       then entries (_wifiman_data m')
            = alter (marked NETWORK_WORKED_BEFORE) (Z.to_nat index)
                (entries (_wifiman_data m))
            /\ _wifiman_retryCount m' = 0
            /\ workerNotification m'
               = (if _wifiman_autoConnect m then 0 else workerNotification m)
       else networks (_wifiman_data m') = networks (_wifiman_data m)
            /\ length (_wifiman_data m') = length (_wifiman_data m)
            /\ _wifiman_retryCount m' = _wifiman_retryCount m
            /\ workerNotification m' = workerNotification m.
Proof.
  intros Hm. pose proof Hm as Hm'.
  apply wf_manager_spec in Hm' as (H & Hrc & Hmax).
  destruct (find_len_wf _ ev_ssid H) as (index & Hf & Hidx).
  exists index. rewrite (target_known_spec m ev_ssid index Hf).
  unfold _wifiman_wifiConnectedEvent. rewrite Hf. simpl.
  set (st := mkStatus index CONNECTED ((_wifiman_retryCount m + 1) mod 256)).
  rewrite data_call_statusCallback. simpl.
  destruct (Z.geb_spec index (length (_wifiman_data m))) as [Hge|Hlt].
  - destruct (Z.ltb_spec index (length (_wifiman_data m))); [lia|].
    eexists. split; [reflexivity|]. split; [reflexivity|].
    unfold call_statusCallback.
    destruct (_wifiman_statusCallback _); simpl; auto 10.
  - destruct (Z.ltb_spec index (length (_wifiman_data m))); [|lia].
    destruct (set_state_entries (set_status (_wifiman_data m) st) index
                NETWORK_WORKED_BEFORE H ltac:(simpl; lia))
      as (d' & Hset & Hwf' & Hst' & Hlen' & Hcap' & Hent').
    rewrite Hset. simpl.
    unfold call_statusCallback. simpl.
    destruct (_wifiman_statusCallback m) eqn:Hcb; simpl; rewrite ?Hcb; simpl;
      destruct (_wifiman_autoConnect m); simpl;
      (eexists; split; [reflexivity|]; split; [reflexivity|]; simpl; auto).
Qed.

(** X12: the disconnect handler and the registry, with autonomous mode
    off.  On a well-formed manager the handler returns, the status names
    the target, the code of the reason and the reason, and the only change
    it ever makes to the registry is to mark the target entry
    [NETWORK_FAILED_BEFORE]; it does so exactly when the target is known,
    the retry counter has reached [maxRetries] and the reason is none of
    [WIFI_REASON_ASSOC_LEAVE], [WIFI_REASON_AUTH_LEAVE] and
    [WIFI_REASON_NO_AP_FOUND]. *)
Theorem disconnectedEvent_marks_failed_after_last_retry
    (r : Radio) (ev_ssid : string) (reason : Z) (m : Manager) :
  wf_manager m = true -> _wifiman_autoConnect m = false ->
  exists index m',
    wifiman_findNetworkInList_len (_wifiman_data m) ev_ssid = Some index
    /\ _wifiman_wifiDisconnectedEvent r ev_ssid reason m = Some m'
    /\ status (_wifiman_data m')
       = mkStatus index (disconnect_code reason) reason
    /\ length (_wifiman_data m') = length (_wifiman_data m)
    /\ entries (_wifiman_data m')
       = if target_known m ev_ssid
            && (_wifiman_maxRetries m <=? _wifiman_retryCount m)
            && failure_reason reason
         then alter (marked NETWORK_FAILED_BEFORE) (Z.to_nat index)
                (entries (_wifiman_data m))
         else entries (_wifiman_data m).
Proof.
  intros Hm Hauto. pose proof Hm as Hm'.
  apply wf_manager_spec in Hm' as (H & Hrc & Hmax).
  destruct (find_len_wf _ ev_ssid H) as (index & Hf & Hidx).
  exists index. rewrite (target_known_spec m ev_ssid index Hf).
  destruct (retry_due m ev_ssid reason) eqn:Hdue.
  - rewrite (disconnected_retry r ev_ssid reason m index Hm Hf Hdue).
    apply (retry_due_spec m ev_ssid reason index Hf) in Hdue
      as (Hi & Hlt & Hreason).
    eexists. split; [exact Hf|]. split; [reflexivity|]. simpl.
    split; [reflexivity|]. split; [reflexivity|].
    destruct (Z.leb_spec (_wifiman_maxRetries m) (_wifiman_retryCount m));
      [lia|].
    by rewrite andb_false_r.
  - unfold retry_due in Hdue.
    rewrite (target_known_spec m ev_ssid index Hf) in Hdue.
    unfold _wifiman_wifiDisconnectedEvent, disconnect_code, failure_reason.
    rewrite Hf. cbn [mbind option_bind].
    destruct (Z.eqb_spec reason WIFI_REASON_ASSOC_LEAVE) as [Ha|Ha].
    { cbn [orb negb andb]. cbv beta iota. simpl. rewrite !andb_false_r.
      unfold call_statusCallback. simpl.
      destruct (_wifiman_statusCallback m); simpl;
        (eexists; split; [reflexivity|]; split; [reflexivity|]; simpl;
         auto). }
    cbn [orb negb]. rewrite andb_true_r in Hdue.
    destruct (Z.eqb_spec reason WIFI_REASON_AUTH_LEAVE) as [Hb|Hb].
    { simpl. rewrite andb_true_r, Hdue.
      unfold call_statusCallback. simpl.
      destruct (_wifiman_statusCallback m); simpl; rewrite Hauto; simpl;
        (eexists; split; [reflexivity|]; split; [reflexivity|]; simpl;
         by rewrite !andb_false_r). }
    destruct (Z.eqb_spec reason WIFI_REASON_NO_AP_FOUND) as [Hc|Hc].
    { simpl. rewrite andb_true_r, Hdue.
      unfold call_statusCallback. simpl.
      destruct (_wifiman_statusCallback m); simpl; rewrite Hauto; simpl;
        (eexists; split; [reflexivity|]; split; [reflexivity|]; simpl;
         by rewrite !andb_false_r). }
    cbn [negb andb]. rewrite !andb_true_r.
    destruct (Z.ltb_spec index (length (_wifiman_data m))) as [Hi|Hi].
    + cbn [andb] in Hdue |- *. apply Z.ltb_ge in Hdue.
      destruct (Z.geb_spec (_wifiman_retryCount m) (_wifiman_maxRetries m));
        [|lia].
      destruct (Z.leb_spec (_wifiman_maxRetries m) (_wifiman_retryCount m));
        [|lia].
      destruct (set_state_entries (_wifiman_data m) index
                  NETWORK_FAILED_BEFORE H ltac:(lia))
        as (d' & Hset & Hwf' & Hst' & Hlen' & Hcap' & Hent').
      rewrite Hset. simpl. rewrite Hlen'.
      destruct (Z.ltb_spec index (length (_wifiman_data m))); [|lia].
      destruct (Z.ltb_spec (_wifiman_retryCount m) (_wifiman_maxRetries m));
        [lia|].
      simpl. unfold call_statusCallback. simpl.
      destruct (_wifiman_statusCallback m); simpl; rewrite Hauto; simpl;
        (eexists; split; [reflexivity|]; split; [reflexivity|]; simpl; auto).
    + simpl.
      destruct (Z.ltb_spec index (length (_wifiman_data m))); [lia|].
      simpl. unfold call_statusCallback. simpl.
      destruct (_wifiman_statusCallback m); simpl; rewrite Hauto; simpl;
        (eexists; split; [reflexivity|]; split; [reflexivity|]; simpl; auto).
Qed.

(** ** The selector and the registry *)

Lemma reset_failed_entries d :
  wf_data d = true ->
  exists nets',
    reset_failed (networks d) 0 (Z.to_nat (length d)) = Some nets'
    /\ wf_data (set_networks d nets') = true
    /\ entries (set_networks d nets') = reset_entry <$> entries d.
Proof.
  intros H. pose proof (wf_data_range d H) as (Hl & Hc & Hn).
  destruct (reset_failed_wf d H) as (nets' & Hreset & Hwf & Hderef).
  exists nets'. split; [exact Hreset|]. split; [exact Hwf|].
  apply list_eq. intros j.
  destruct (Nat.lt_ge_cases j (Z.to_nat (length d))) as [Hj|Hj].
  - replace j with (Z.to_nat (Z.of_nat j)) by lia.
    rewrite <- (deref_entries _ (Z.of_nat j) Hwf) by (simpl; lia).
    rewrite list_lookup_fmap, <- (deref_entries d (Z.of_nat j) H) by lia.
    simpl. apply Hderef. lia.
  - rewrite lookup_ge_None_2
      by (rewrite (entries_length _ Hwf); simpl; lia).
    rewrite lookup_ge_None_2;
      [reflexivity | rewrite length_fmap, (entries_length d H); lia].
Qed.

Lemma usable_reset_entry e : usable (reset_entry e) = true.
Proof.
  unfold usable, reset_entry.
  destruct (Z.eqb_spec (state e) NETWORK_FAILED_BEFORE) as [Heq|Hne];
    [reflexivity|].
  simpl. by destruct (Z.eqb_spec (state e) NETWORK_FAILED_BEFORE).
Qed.

Lemma filter_usable_reset (l : list WM_WifiNetwork) :
  List.filter usable (reset_entry <$> l) = reset_entry <$> l.
Proof.
  induction l as [|e l IH]; [reflexivity|].
  cbn [fmap list_fmap List.filter]. fold (reset_entry <$> l).
  by rewrite usable_reset_entry, IH.
Qed.

(** X13: what [wifiman_connectToBestWifi] can do to the registry.  On a
    well-formed registry the call returns and leaves a well-formed registry
    with the same SSIDs and passphrases in the same slots; either no entry
    changed at all, or the call reports NetworkNotInList and has reset
    every failed entry to unknown, after which
    [wifiman_countUsableNetworks] counts every entry. *)
Theorem connectToBestWifi_registry_effect (r : Radio) (m : Manager) :
  wf_data (_wifiman_data m) = true ->
  exists rc m',
    wifiman_connectToBestWifi r m = Some (rc, m')
    /\ wf_data (_wifiman_data m') = true
    /\ ssids (_wifiman_data m') = ssids (_wifiman_data m)
    /\ pass <$> entries (_wifiman_data m')
       = pass <$> entries (_wifiman_data m)
    /\ (entries (_wifiman_data m') = entries (_wifiman_data m)
        \/ (rc = WMRT_NETWORK_NOT_IN_LIST
            /\ entries (_wifiman_data m')
               = reset_entry <$> entries (_wifiman_data m)
            /\ wifiman_countUsableNetworks (_wifiman_data m')
               = Some (length (_wifiman_data m)))).
Proof.
  intros H.
  assert (forall rc m',
            _wifiman_data m' = _wifiman_data m ->
            exists rc0 m0,
              Some (rc, m') = Some (rc0, m0)
              /\ wf_data (_wifiman_data m0) = true
              /\ ssids (_wifiman_data m0) = ssids (_wifiman_data m)
              /\ pass <$> entries (_wifiman_data m0)
                 = pass <$> entries (_wifiman_data m)
              /\ (entries (_wifiman_data m0) = entries (_wifiman_data m)
                  \/ (rc0 = WMRT_NETWORK_NOT_IN_LIST
                      /\ entries (_wifiman_data m0)
                         = reset_entry <$> entries (_wifiman_data m)
                      /\ wifiman_countUsableNetworks (_wifiman_data m0)
                         = Some (length (_wifiman_data m))))) as Hsame.
  { intros rc m' Hd. exists rc, m'. rewrite Hd. auto 10. }
  unfold wifiman_connectToBestWifi.
  destruct (length (_wifiman_data m) =? 0); [by apply Hsame|].
  destruct (_ >? WM_SCAN_MAX_AGE_MS); [by apply Hsame|].
  destruct (scanComplete r =? -2); [by apply Hsame|].
  destruct (scanComplete r =? -1); [by apply Hsame|].
  destruct (scanComplete r =? 0); [by apply Hsame|].
  destruct (select_best_total (_wifiman_data m) H (scanResults r) INT_MIN (-1))
    as (b' & bi' & -> & Hbi). simpl.
  destruct (Z.eqb_spec bi' (-1)) as [->|Hne].
  - destruct (reset_failed_entries (_wifiman_data m) H)
      as (nets' & -> & Hwf & Hent).
    simpl. eexists _, _. split; [reflexivity|]. simpl.
    split; [exact Hwf|].
    assert (forall (B : Type) (f : WM_WifiNetwork -> B),
              (forall e, f (reset_entry e) = f e) ->
              f <$> entries (set_networks (_wifiman_data m) nets')
              = f <$> entries (_wifiman_data m)) as Hkeep.
    { intros B f Hf. rewrite Hent, <- list_fmap_compose.
      apply list_fmap_ext. intros _ e _. apply Hf. }
    split; [apply Hkeep; intros e; unfold reset_entry;
            by destruct (state e =? _)|].
    split; [apply Hkeep; intros e; unfold reset_entry;
            by destruct (state e =? _)|].
    right. split; [reflexivity|]. split; [exact Hent|].
    destruct (countUsable_filter _ Hwf) as [-> _]. f_equal.
    rewrite Hent, filter_usable_reset, length_fmap.
    rewrite (entries_length _ H).
    pose proof (wf_data_range _ H). lia.
  - destruct Hbi as [?|Hbi]; [contradiction|].
    destruct (deref_allocated (_wifiman_data m) bi' H Hbi) as [e ->]. simpl.
    eexists _, _. split; [reflexivity|].
    rewrite data_call_statusCallback. simpl. auto 10.
Qed.

(** X14: the scan-done event.  On a well-formed manager, with the scan
    complete, the handler returns, stamps the scan time with the clock and
    queues no further scan command (the scan just finished is never too
    old for the selector).  When the radio is connected or no entry is
    usable nothing else changes.  Otherwise exactly one of two things
    happens: a manual-priority connect command for a registry slot is
    queued for immediate execution, the status is Connecting for that slot,
    the retry counter is reset and periodic scanning is paused
    (notification value 0); or no connect command is queued, the status
    stays, and periodic scanning is resumed (notification value 1). *)
Theorem scanDoneEvent_connects_or_resumes_scanning
    (r : Radio) (m : Manager) (results : list (string * Z)) :
  wf_manager m = true -> scanState r = ScanDone results ->
  exists m',
    _wifiman_wifiScanDoneEvent r m = Some m'
    /\ _wifiman_scanTime m' = millis r /\ nextScan m' = nextScan m
    /\ if wl_connected r
          || (List.length (List.filter usable (entries (_wifiman_data m)))
              =? 0)%nat
       then m' = with_scanTime m (millis r)
       else
         (workerNotification m' = 0
          /\ nextConnect m'
             = mkConnect ((millis r + 0) mod 2 ^ 32)
                 (targetNetwork (status (_wifiman_data m'))) true false
          /\ 0 <= targetNetwork (status (_wifiman_data m'))
             < length (_wifiman_data m)
          /\ code (status (_wifiman_data m')) = CONNECTING
          /\ _wifiman_retryCount m' = 0)
         \/ (workerNotification m' = 1
             /\ nextConnect m' = nextConnect m
             /\ status (_wifiman_data m') = status (_wifiman_data m)).
Proof.
  intros Hm Hscan. apply wf_manager_spec in Hm as (H & Hrc & Hmax).
  assert (scanComplete r = Z.of_nat (List.length results)) as Hsc
    by (unfold scanComplete; by rewrite Hscan).
  unfold _wifiman_wifiScanDoneEvent, _wifiman_checkConnection.
  destruct (wl_connected r);
    [eexists; split; [reflexivity|]; simpl; auto|].
  cbn [orb]. cbn [_wifiman_data with_scanTime].
  destruct (countUsable_filter _ H) as [-> Hle]. cbn [mbind option_bind].
  set (n := List.length (List.filter usable (entries (_wifiman_data m))))
    in *.
  destruct (Z.eqb_spec (Z.of_nat n) 0) as [Hz|Hz];
    destruct (Nat.eqb_spec n 0); try lia;
    [eexists; split; [reflexivity|]; simpl; auto|].
  unfold wifiman_connectToBestWifi.
  cbn [_wifiman_data _wifiman_scanTime with_scanTime].
  destruct (Z.eqb_spec (length (_wifiman_data m)) 0); [lia|].
  rewrite Z.sub_diag. change (0 mod 2 ^ 32 >? WM_SCAN_MAX_AGE_MS) with false.
  cbv iota. rewrite Hsc.
  destruct (Z.eqb_spec (Z.of_nat (List.length results)) (-2)); [lia|].
  destruct (Z.eqb_spec (Z.of_nat (List.length results)) (-1)); [lia|].
  destruct (Z.eqb_spec (Z.of_nat (List.length results)) 0).
  { simpl. eexists. split; [reflexivity|]. simpl. auto 10. }
  destruct (select_best_total (_wifiman_data m) H (scanResults r) INT_MIN (-1))
    as (b' & bi' & -> & Hbi). simpl.
  destruct (Z.eqb_spec bi' (-1)) as [->|Hne].
  - destruct (reset_failed_wf (_wifiman_data m) H) as (nets' & -> & _).
    simpl. eexists. split; [reflexivity|]. simpl. auto 10.
  - destruct Hbi as [?|Hbi]; [contradiction|].
    destruct (deref_allocated (_wifiman_data m) bi' H Hbi) as [e ->]. simpl.
    eexists. split; [reflexivity|].
    unfold call_statusCallback. simpl.
    destruct (_wifiman_statusCallback m); simpl;
      (split; [reflexivity|]; split; [reflexivity|]; left; auto 10).
Qed.

(** ** The worker and the radio *)

Lemma exec_scan_calls r m w :
  List.filter is_connect_call (snd (exec_scan r m w)) = []
  /\ (snd (exec_scan r m w) = []
      \/ snd (exec_scan r m w) = [WiFi_scanDelete; WiFi_scanNetworks]).
Proof.
  unfold exec_scan. destruct (_ && _); [|simpl; auto].
  destruct (negb (scanComplete r =? -1)); simpl; auto.
Qed.

(** A deadline set to the clock is passed for the next 2^31 ticks. *)
Lemma deadline_passed now dt :
  0 <= now < 2 ^ 32 -> 0 <= dt < 2 ^ 31 ->
  _time_now_or_passed ((now + 0) mod 2 ^ 32) ((now + dt) mod 2 ^ 32) = true.
Proof.
  intros Hnow Hdt. rewrite time_now_or_passed_ge. apply Z.leb_le.
  rewrite Z.add_0_r, (Z.mod_small now) by lia.
  Z.to_euclidean_division_equations. lia.
Qed.

(** X15: a manual connect request reaches the radio with the next worker
    cycle.  On a well-formed manager, [wifiman_connectToNetwork] for slot
    [index] of the registry succeeds, and the next cycle of the worker, up
    to 2^31 - 1 ticks later and whatever command the worker was holding,
    disconnects and then begins a connection with the SSID and passphrase
    of that slot, before any scan call; both copies of the command are
    marked handled. *)
Theorem manual_connect_reaches_radio
    (r r' : Radio) (index dt : Z) (m : Manager) (w : Worker) :
  wf_manager m = true -> 0 <= index < length (_wifiman_data m) ->
  0 <= millis r < 2 ^ 32 -> 0 <= dt < 2 ^ 31 ->
  millis r' = (millis r + dt) mod 2 ^ 32 ->
  exists e m1 m2 w2 scan_calls,
    deref (networks (_wifiman_data m)) index = Some e
    /\ wifiman_connectToNetwork r index m = Some (WMRT_SUCCESS, m1)
    /\ worker_cycle r' m1 w
       = Some (m2, w2,
               [WiFi_disconnect; WiFi_begin (ssid e) (pass e)] ++ scan_calls)
    /\ List.filter is_connect_call scan_calls = []
    /\ handled (nextConnect m2) = true
    /\ connect w2 = mkConnect (millis r) index true true.
Proof.
  intros Hm Hi Hnow Hdt Hclock.
  apply wf_manager_spec in Hm as (H & Hrc & Hmax).
  destruct (deref_allocated _ index H Hi) as [e He]. exists e.
  unfold wifiman_connectToNetwork. rewrite He.
  destruct (Z.ltb_spec index (length (_wifiman_data m))); [|lia].
  cbn [negb mbind option_bind].
  set (m1 := call_statusCallback _).
  assert (nextConnect m1 = mkConnect ((millis r + 0) mod 2 ^ 32) index true false
          /\ networks (_wifiman_data m1) = networks (_wifiman_data m))
    as [Hnc Hnets].
  { subst m1. unfold call_statusCallback. simpl.
    by destruct (_wifiman_statusCallback m). }
  exists m1. unfold worker_cycle, pull_connect. rewrite Hnc. simpl.
  set (m1' := with_nextConnect m1 _).
  set (w1 := mkWorker _ _ _).
  destruct (pull_scan m1' w1) as [m2 w2] eqn:Hps.
  pose proof (pull_scan_connect m1' w1) as [Hpc Hpw]. rewrite Hps in Hpc, Hpw.
  simpl in Hpc, Hpw.
  assert (networks (_wifiman_data m2) = networks (_wifiman_data m)) as Hn2.
  { unfold pull_scan in Hps.
    destruct (negb (scan_handled (nextScan m1'))); injection Hps as <- <-;
      exact Hnets. }
  unfold exec_connect. cbn [connect]. rewrite Hpw. cbn [handled execTime negb].
  rewrite Hclock, (deadline_passed (millis r) dt Hnow Hdt).
  cbn [andb networkIndex]. rewrite Hn2, He. cbn [mbind option_bind].
  set (w4 := mkWorker _ _ _).
  pose proof (exec_scan_calls r' m2 w4) as [Hnone _].
  pose proof (exec_scan_connect r' m2 w4) as Hconn.
  destruct (exec_scan r' m2 w4) as [w5 calls2]. simpl in Hnone, Hconn.
  exists m2, w5, calls2. split; [reflexivity|]. split; [reflexivity|].
  split; [reflexivity|]. split; [exact Hnone|].
  split; [by rewrite Hpc|].
  rewrite Hconn. subst w4. simpl.
  rewrite Z.add_0_r, Z.mod_small by lia. reflexivity.
Qed.

(** One worker cycle with nothing new in the connect mailbox. *)
Lemma worker_cycle_idle_mailbox r m w e :
  handled (nextConnect m) = true ->
  (handled (connect w) = false ->
   deref (networks (_wifiman_data m)) (networkIndex (connect w)) = Some e) ->
  exists m' w' calls,
    worker_cycle r m w = Some (m', w', calls)
    /\ nextConnect m' = nextConnect m
    /\ _wifiman_data m' = _wifiman_data m
    /\ if negb (handled (connect w))
          && _time_now_or_passed (execTime (connect w)) (millis r)
       then List.filter is_connect_call calls
            = [WiFi_disconnect; WiFi_begin (ssid e) (pass e)]
            /\ connect w' = mark_handled (connect w)
       else List.filter is_connect_call calls = [] /\ connect w' = connect w.
Proof.
  intros Hmail Hderef. unfold worker_cycle, pull_connect. rewrite Hmail.
  cbn [negb].
  destruct (pull_scan m w) as [m2 w2] eqn:Hps.
  pose proof (pull_scan_connect m w) as [Hpc Hpw]. rewrite Hps in Hpc, Hpw.
  simpl in Hpc, Hpw.
  assert (_wifiman_data m2 = _wifiman_data m) as Hd2.
  { unfold pull_scan in Hps.
    by destruct (negb (scan_handled (nextScan m))); injection Hps as <- <-. }
  unfold exec_connect. cbn [connect]. rewrite Hpw, Hd2.
  destruct (negb (handled (connect w))
            && _time_now_or_passed (execTime (connect w)) (millis r)) eqn:Hgo.
  - apply andb_prop in Hgo as [Hh _]. apply negb_true_iff in Hh.
    rewrite (Hderef Hh). cbn [mbind option_bind].
    set (w4 := mkWorker _ _ _).
    pose proof (exec_scan_calls r m2 w4) as [Hnone _].
    pose proof (exec_scan_connect r m2 w4) as Hconn.
    destruct (exec_scan r m2 w4) as [w5 calls2]. simpl in Hnone, Hconn.
    exists m2, w5, ([WiFi_disconnect; WiFi_begin (ssid e) (pass e)] ++ calls2).
    split; [reflexivity|]. split; [exact Hpc|]. split; [exact Hd2|].
    split; [|exact Hconn].
    rewrite List.filter_app, Hnone. reflexivity.
  - cbn [mbind option_bind].
    set (w4 := mkWorker _ _ _).
    pose proof (exec_scan_calls r m2 w4) as [Hnone _].
    pose proof (exec_scan_connect r m2 w4) as Hconn.
    destruct (exec_scan r m2 w4) as [w5 calls2]. simpl in Hnone, Hconn.
    exists m2, w5, calls2.
    split; [reflexivity|]. split; [exact Hpc|]. split; [exact Hd2|].
    split; [exact Hnone | exact Hconn].
Qed.

Lemma worker_cycles_handled rs : forall m w,
  handled (nextConnect m) = true -> handled (connect w) = true ->
  exists m' w' calls,
    worker_cycles rs m w = Some (m', w', calls)
    /\ List.filter is_connect_call calls = [] /\ connect w' = connect w.
Proof.
  induction rs as [|r rs IH]; intros m w Hmail Hh.
  - exists m, w, []. auto.
  - destruct (worker_cycle_idle_mailbox r m w (mkNetwork "" None 0) Hmail)
      as (m1 & w1 & calls1 & Hcyc & Hnc & _ & Hcase);
      [congruence|].
    rewrite Hh in Hcase. simpl in Hcase. destruct Hcase as [Hc1 Hw1].
    destruct (IH m1 w1) as (m2 & w2 & calls2 & Hrest & Hc2 & Hw2);
      [congruence | congruence |].
    exists m2, w2, (calls1 ++ calls2). cbn [worker_cycles].
    rewrite Hcyc. cbn [mbind option_bind]. rewrite Hrest.
    split; [reflexivity|]. rewrite List.filter_app, Hc1, Hc2.
    split; [reflexivity | congruence].
Qed.

(** X16: a pending command is executed exactly once.  With nothing new in
    the connect mailbox and an unhandled command for an allocated slot in
    the worker, any number of worker cycles make the connect calls
    (disconnect, then begin with the slot's SSID and passphrase) exactly
    once if the clock of some cycle has reached the command's deadline,
    and not at all otherwise; the command is marked handled exactly in the
    first case. *)
Theorem pending_connect_runs_exactly_once
    (rs : list Radio) (m : Manager) (w : Worker) (e : WM_WifiNetwork) :
  handled (nextConnect m) = true ->
  handled (connect w) = false ->
  deref (networks (_wifiman_data m)) (networkIndex (connect w)) = Some e ->
  exists m' w' calls,
    worker_cycles rs m w = Some (m', w', calls)
    /\ List.filter is_connect_call calls
       = (if existsb (fun r => _time_now_or_passed (execTime (connect w))
                                 (millis r)) rs
          then [WiFi_disconnect; WiFi_begin (ssid e) (pass e)] else [])
    /\ handled (connect w')
       = existsb (fun r => _time_now_or_passed (execTime (connect w))
                             (millis r)) rs.
Proof.
  revert m w. induction rs as [|r rs IH]; intros m w Hmail Hh He.
  - exists m, w, []. auto.
  - destruct (worker_cycle_idle_mailbox r m w e Hmail (fun _ => He))
      as (m1 & w1 & calls1 & Hcyc & Hnc & Hd1 & Hcase).
    rewrite Hh in Hcase. cbn [negb andb existsb] in Hcase |- *.
    cbn [worker_cycles]. rewrite Hcyc. cbn [mbind option_bind].
    destruct (_time_now_or_passed (execTime (connect w)) (millis r)).
    + destruct Hcase as [Hc1 Hw1].
      destruct (worker_cycles_handled rs m1 w1)
        as (m2 & w2 & calls2 & -> & Hc2 & Hw2);
        [congruence | by rewrite Hw1 |].
      exists m2, w2, (calls1 ++ calls2). split; [reflexivity|].
      rewrite List.filter_app, Hc1, Hc2, Hw2, Hw1. auto.
    + destruct Hcase as [Hc1 Hw1].
      destruct (IH m1 w1) as (m2 & w2 & calls2 & -> & Hc2 & Hw2);
        [congruence | congruence | by rewrite Hd1, Hw1 |].
      exists m2, w2, (calls1 ++ calls2). split; [reflexivity|].
      rewrite List.filter_app, Hc1, Hc2, Hw2, Hw1. auto.
Qed.

Lemma exec_connect_scan r m w w' calls :
  exec_connect r m w = Some (w', calls) ->
  List.filter is_scan_call calls = [] /\ scan w' = scan w
  /\ notifyValue w' = notifyValue w.
Proof.
  unfold exec_connect. destruct (_ && _).
  - destruct (deref _ _) as [e|]; [|discriminate]. simpl.
    intros [= <- <-]. auto.
  - intros [= <- <-]. auto.
Qed.

Lemma pull_connect_scan m w :
  nextScan (fst (pull_connect m w)) = nextScan m
  /\ workerNotification (fst (pull_connect m w)) = workerNotification m
  /\ scan (snd (pull_connect m w)) = scan w.
Proof.
  unfold pull_connect. destruct (negb (handled (nextConnect m))); [|auto].
  destruct (_ || _); auto.
Qed.

(** X17: when the worker starts a scan.  In one worker cycle the scan
    calls are either none or [scanDelete] followed by [scanNetworks]; there
    are none while a scan is running; and there are none, and the worker's
    scan command stays as it is, while periodic scanning is paused
    (notification value 0) and neither the mailbox nor the worker holds an
    unhandled scan command. *)
Theorem worker_scan_calls
    (r : Radio) (m m' : Manager) (w w' : Worker) (calls : list RadioCall) :
  worker_cycle r m w = Some (m', w', calls) ->
  (List.filter is_scan_call calls = []
   \/ List.filter is_scan_call calls = [WiFi_scanDelete; WiFi_scanNetworks])
  /\ (scanState r = ScanRunning -> List.filter is_scan_call calls = [])
  /\ (workerNotification m = 0 -> scan_handled (nextScan m) = true ->
      scan_handled (scan w) = true ->
      List.filter is_scan_call calls = [] /\ scan w' = scan w).
Proof.
  unfold worker_cycle.
  pose proof (pull_connect_scan m w) as (Hns & Hwn & Hsw).
  destruct (pull_connect m w) as [m1 w1]. simpl in Hns, Hwn, Hsw.
  assert (workerNotification (fst (pull_scan m1 w1)) = workerNotification m
          /\ (scan_handled (nextScan m) = true ->
              scan (snd (pull_scan m1 w1)) = scan w)) as [Hwn2 Hsw2].
  { unfold pull_scan. rewrite Hns.
    destruct (scan_handled (nextScan m)); simpl; auto.
    split; [exact Hwn | discriminate]. }
  destruct (pull_scan m1 w1) as [m2 w2]. simpl in Hwn2, Hsw2.
  set (w3 := mkWorker _ _ _).
  destruct (exec_connect r m2 w3) as [[w4 calls1]|] eqn:Hec; [|discriminate].
  cbn [mbind option_bind].
  apply exec_connect_scan in Hec as (Hc1 & Hs4 & Hn4). simpl in Hs4, Hn4.
  unfold exec_scan. rewrite Hs4, Hn4, Hwn2.
  destruct ((negb (scan_handled (scan w2))
             || negb (workerNotification m =? 0))
            && _time_now_or_passed (scan_execTime (scan w2)) (millis r))
    eqn:Hgo.
  - intros [= <- <- <-]. rewrite List.filter_app, Hc1.
    split; [|split].
    + destruct (negb (scanComplete r =? -1)); simpl; auto.
    + intros Hrun. unfold scanComplete. rewrite Hrun. reflexivity.
    + intros Hz Hmail Hh. rewrite Hsw2, Hh, Hz in Hgo by exact Hmail.
      discriminate.
  - intros [= <- <- <-]. rewrite List.filter_app, Hc1. simpl.
    split; [auto|]. split; [auto|]. intros _ Hmail _.
    split; [reflexivity|]. rewrite Hs4. auto.
Qed.

(** ** Display filters *)

Lemma store_display_Some buffer i v :
  0 <= i < Z.of_nat (List.length buffer) ->
  store_display buffer i v = Some (<[Z.to_nat i := v]> buffer).
Proof.
  intros Hi. unfold store_display.
  destruct (Z.leb_spec 0 i); [|lia].
  destruct (Z.ltb_spec i (Z.of_nat (List.length buffer))); [reflexivity | lia].
Qed.

(** The fill loop: the slot of every scan result holds the registry index
    of the result's SSID and the scan position; the other slots are not
    written. *)
Lemma fill_by_scan_spec d (H : wf_data d = true) results : forall i buffer,
  0 <= i -> i + Z.of_nat (List.length results) <= Z.of_nat (List.length buffer) ->
  i + Z.of_nat (List.length results) <= 256 ->
  exists buffer',
    fill_by_scan d results i buffer = Some buffer'
    /\ List.length buffer' = List.length buffer
    /\ (forall k s rssi, results !! k = Some (s, rssi) ->
          exists index,
            wifiman_findNetworkInList d (Some s) = Some index
            /\ buffer' !! (Z.to_nat i + k)%nat
               = Some (mkDisplay index (i + Z.of_nat k)))
    /\ forall j, (j < Z.to_nat i
                  \/ Z.to_nat i + List.length results <= j)%nat ->
         buffer' !! j = buffer !! j.
Proof.
  induction results as [|[s rssi] results IH]; intros i buffer Hi Hlen H256.
  - exists buffer. split; [reflexivity|]. split; [reflexivity|].
    split; [intros k s rssi Hk; by rewrite lookup_nil in Hk | auto].
  - cbn [List.length] in Hlen, H256. cbn [fill_by_scan].
    destruct (find_wf d (Some s) H) as (index & Hfind & _). rewrite Hfind.
    cbn [mbind option_bind]. rewrite store_display_Some by lia.
    cbn [mbind option_bind]. rewrite (Z.mod_small i) by lia.
    destruct (IH (i + 1) (<[Z.to_nat i := mkDisplay index i]> buffer))
      as (buffer' & -> & Hl & Hin & Hout);
      [lia | rewrite length_insert; lia | lia |].
    exists buffer'. split; [reflexivity|].
    split; [by rewrite Hl, length_insert|]. split.
    + intros [|k] s' rssi' Hk.
      * injection Hk as <- <-. exists index. split; [exact Hfind|].
        rewrite Hout by lia. rewrite Nat.add_0_r, Z.add_0_r.
        apply list_lookup_insert_eq. lia.
      * destruct (Hin k s' rssi' Hk) as (index' & Hf' & Hb').
        exists index'. split; [exact Hf'|].
        replace (Z.to_nat i + S k)%nat with (Z.to_nat (i + 1) + k)%nat by lia.
        rewrite Hb'. do 2 f_equal. lia.
    + intros j Hj. cbn [List.length] in Hj. rewrite Hout by lia.
      apply list_lookup_insert_ne. lia.
Qed.

(** X18: [wifiman_getDisplayFilterByScan] on a complete scan.  With a
    well-formed registry, at least one scan result and a buffer of [count]
    records that has room for all of them, the call succeeds; record [k]
    then holds the position [k] of the scan result and the registry index
    [wifiman_findNetworkInList] gives for its SSID (255 when the network
    is not saved), and the records beyond the scan results are as
    before. *)
Theorem getDisplayFilterByScan_fills_one_record_per_result
    (r : Radio) (d : WM_SharedData) (buffer : list WM_WifiNetworkDisplay)
    (count : Z) (results : list (string * Z)) :
  wf_data d = true -> scanState r = ScanDone results -> results <> [] ->
  Z.of_nat (List.length buffer) = count -> count <= 255 ->
  Z.of_nat (List.length results) <= count ->
  exists buffer',
    wifiman_getDisplayFilterByScan r d buffer count
    = Some (WMRT_SUCCESS, buffer')
    /\ List.length buffer' = List.length buffer
    /\ (forall k s rssi, results !! k = Some (s, rssi) ->
          exists index,
            wifiman_findNetworkInList d (Some s) = Some index
            /\ buffer' !! k = Some (mkDisplay index (Z.of_nat k)))
    /\ forall j, (List.length results <= j)%nat ->
         buffer' !! j = buffer !! j.
Proof.
  intros H Hscan Hne Hbuf Hcount Hroom.
  assert (0 < Z.of_nat (List.length results)) as Hpos
    by (destruct results; [contradiction | simpl; lia]).
  unfold wifiman_getDisplayFilterByScan, scanComplete, scanResults.
  rewrite Hscan.
  destruct (Z.gtb_spec count 0); [|lia]. cbn [negb].
  destruct (Z.eqb_spec (Z.of_nat (List.length results)) (-2)); [lia|].
  destruct (Z.eqb_spec (Z.of_nat (List.length results)) (-1)); [lia|].
  destruct (Z.eqb_spec (Z.of_nat (List.length results)) 0); [lia|].
  destruct (Z.ltb_spec count (Z.of_nat (List.length results))); [lia|].
  cbn [orb].
  destruct (fill_by_scan_spec d H results 0 buffer)
    as (buffer' & -> & Hl & Hin & Hout); [lia | lia | lia |].
  exists buffer'. split; [reflexivity|]. split; [exact Hl|]. split.
  - intros k s rssi Hk. destruct (Hin k s rssi Hk) as (index & Hf & Hb).
    exists index. split; [exact Hf|]. exact Hb.
  - intros j Hj. apply Hout. simpl. lia.
Qed.

(** Replaying a filter that holds, for every scan result, the registry
    index of its SSID and its scan position does what the loop over the
    live scan results does. *)
Lemma apply_filter_from_scan d count results : forall i filter buffer,
  0 <= i -> i + Z.of_nat (List.length results) <= 256 ->
  (forall k s rssi, results !! k = Some (s, rssi) ->
     exists index,
       wifiman_findNetworkInList d (Some s) = Some index
       /\ filter !! (Z.to_nat i + k)%nat
          = Some (mkDisplay index (i + Z.of_nat k))) ->
  apply_scan_filter filter count i (List.length results) buffer
  = mark_from_scan d count results i buffer.
Proof.
  induction results as [|[s rssi] results IH]; intros i filter buffer Hi H256 Hf;
    [reflexivity|].
  cbn [List.length] in H256. cbn [List.length apply_scan_filter mark_from_scan].
  destruct (Hf 0%nat s rssi eq_refl) as (index & Hfind & Hrec).
  rewrite Nat.add_0_r, Z.add_0_r in Hrec.
  destruct (Z.ltb_spec i 0); [lia|]. rewrite Hrec, Hfind.
  cbn [mbind option_bind disp_networkIndex disp_scanIndex].
  rewrite (Z.mod_small i) by lia.
  destruct (if index <? count then store_scanIndex buffer index i
            else Some buffer) as [buffer'|]; [|reflexivity].
  cbn [mbind option_bind]. apply IH; [lia | lia |].
  intros k s' rssi' Hk. destruct (Hf (S k) s' rssi' Hk) as (index' & Hf' & Hb').
  exists index'. split; [exact Hf'|].
  replace (Z.to_nat (i + 1) + k)%nat with (Z.to_nat i + S k)%nat by lia.
  rewrite Hb'. do 2 f_equal. lia.
Qed.

(** X19: the two display filters compose.  When
    [wifiman_getDisplayFilterByScan] has succeeded on a well-formed
    registry, passing the records it wrote, with the number of scan
    results, as scan filter to [wifiman_getDisplayFilterBySaved] gives the
    result the call without a scan filter computes from the live scan
    results. *)
Theorem getDisplayFilterBySaved_with_filter_from_scan
    (r : Radio) (d : WM_SharedData)
    (scanBuffer filter buffer : list WM_WifiNetworkDisplay)
    (scanCount count ignored : Z) (results : list (string * Z)) :
  wf_data d = true -> scanState r = ScanDone results ->
  Z.of_nat (List.length scanBuffer) = scanCount -> scanCount <= 255 ->
  wifiman_getDisplayFilterByScan r d scanBuffer scanCount
  = Some (WMRT_SUCCESS, filter) ->
  wifiman_getDisplayFilterBySaved r d buffer count (Some filter)
    (Z.of_nat (List.length results))
  = wifiman_getDisplayFilterBySaved r d buffer count None ignored.
Proof.
  intros H Hscan Hbuf Hcount.
  unfold wifiman_getDisplayFilterByScan, wifiman_getDisplayFilterBySaved,
    scanComplete, scanResults.
  rewrite Hscan.
  destruct (negb (scanCount >? 0)); [discriminate|].
  destruct (Z.eqb_spec (Z.of_nat (List.length results)) (-2)); [lia|].
  destruct (Z.eqb_spec (Z.of_nat (List.length results)) (-1)); [lia|].
  cbn [orb].
  destruct (Z.eqb_spec (Z.of_nat (List.length results)) 0); [discriminate|].
  destruct (Z.ltb_spec scanCount (Z.of_nat (List.length results)));
    [discriminate|].
  destruct (fill_by_scan_spec d H results 0 scanBuffer)
    as (filter' & -> & _ & Hin & _); [lia | lia | lia |].
  cbn [mbind option_bind]. intros [= <-].
  destruct (negb (count >? 0)); [reflexivity|].
  destruct (count <? length d); [reflexivity|].
  destruct (init_by_saved 0 (Z.to_nat (length d)) buffer) as [buffer1|];
    [|reflexivity].
  cbn [mbind option_bind].
  destruct (Z.leb_spec (Z.of_nat (List.length results)) 0); [lia|].
  rewrite Nat2Z.id.
  rewrite (apply_filter_from_scan d count results 0 filter' buffer1);
    [reflexivity | lia | lia | exact Hin].
Qed.

Lemma init_by_saved_spec n : forall i buffer,
  0 <= i -> i + Z.of_nat n <= Z.of_nat (List.length buffer) ->
  i + Z.of_nat n <= 256 ->
  exists buffer',
    init_by_saved i n buffer = Some buffer'
    /\ List.length buffer' = List.length buffer
    /\ (forall j, (Z.to_nat i <= j < Z.to_nat i + n)%nat ->
          buffer' !! j = Some (mkDisplay (Z.of_nat j) UINT8_MINUS_1))
    /\ forall j, (j < Z.to_nat i \/ Z.to_nat i + n <= j)%nat ->
         buffer' !! j = buffer !! j.
Proof.
  induction n as [|n IH]; intros i buffer Hi Hlen H256.
  - exists buffer. split; [reflexivity|]. split; [reflexivity|].
    split; [intros; lia | auto].
  - cbn [init_by_saved]. rewrite store_display_Some by lia.
    cbn [mbind option_bind]. rewrite (Z.mod_small i) by lia.
    destruct (IH (i + 1)
                (<[Z.to_nat i := mkDisplay i UINT8_MINUS_1]> buffer))
      as (buffer' & -> & Hl & Hin & Hout);
      [lia | rewrite length_insert; lia | lia |].
    exists buffer'. split; [reflexivity|].
    split; [by rewrite Hl, length_insert|]. split.
    + intros j Hj. destruct (Nat.eq_dec j (Z.to_nat i)) as [->|Hne].
      * rewrite Hout by lia. rewrite Z2Nat.id by lia.
        apply list_lookup_insert_eq. lia.
      * apply Hin. lia.
    + intros j Hj. rewrite Hout by lia. apply list_lookup_insert_ne. lia.
Qed.

(** The loop over the live scan results, started at scan position [i] on
    a buffer whose first [length] records carry their own index: record
    [j] ends with the position of the last result whose SSID is found at
    registry index [j], and is left alone when there is none. *)
Lemma mark_from_scan_spec d (H : wf_data d = true) count results :
  forall i buffer,
  0 <= i -> i + Z.of_nat (List.length results) <= 256 ->
  length d <= count <= 255 -> count <= Z.of_nat (List.length buffer) ->
  (forall j, (j < Z.to_nat (length d))%nat ->
     exists v, buffer !! j = Some (mkDisplay (Z.of_nat j) v)) ->
  exists buffer',
    mark_from_scan d count results i buffer = Some buffer'
    /\ List.length buffer' = List.length buffer
    /\ (forall j, (Z.to_nat (length d) <= j)%nat ->
          buffer' !! j = buffer !! j)
    /\ forall j, (j < Z.to_nat (length d))%nat ->
         exists v,
           buffer' !! j = Some (mkDisplay (Z.of_nat j) v)
           /\ ((buffer !! j = Some (mkDisplay (Z.of_nat j) v)
                /\ forall k s rssi, results !! k = Some (s, rssi) ->
                     wifiman_findNetworkInList d (Some s)
                     <> Some (Z.of_nat j))
               \/ exists k s rssi,
                    v = i + Z.of_nat k /\ results !! k = Some (s, rssi)
                    /\ wifiman_findNetworkInList d (Some s)
                       = Some (Z.of_nat j)
                    /\ forall k' s' rssi',
                         results !! k' = Some (s', rssi') ->
                         wifiman_findNetworkInList d (Some s')
                         = Some (Z.of_nat j) ->
                         (k' <= k)%nat).
Proof.
  pose proof (wf_data_range d H) as (Hl & Hc & _).
  induction results as [|[s rssi] results IH];
    intros i buffer Hi H256 Hcount Hbuf Hown.
  - exists buffer. split; [reflexivity|]. split; [reflexivity|].
    split; [auto|]. intros j Hj. destruct (Hown j Hj) as [v Hv].
    exists v. split; [exact Hv|]. left. split; [exact Hv|].
    intros k s rssi Hk. by rewrite lookup_nil in Hk.
  - cbn [List.length] in H256. cbn [mark_from_scan].
    destruct (find_wf d (Some s) H) as (found & Hfind & Hrange).
    rewrite Hfind. cbn [mbind option_bind]. rewrite (Z.mod_small i) by lia.
    destruct (Z.ltb_spec found count) as [Hlt|Hge].
    + destruct Hrange as [->|Hrange]; [lia|].
      destruct (Hown (Z.to_nat found) ltac:(lia)) as [v0 Hv0].
      rewrite Z2Nat.id in Hv0 by lia.
      unfold store_scanIndex. destruct (Z.ltb_spec found 0); [lia|].
      rewrite Hv0. cbn [mbind option_bind disp_networkIndex].
      rewrite store_display_Some by lia. cbn [mbind option_bind].
      set (buffer1 := <[Z.to_nat found := mkDisplay found i]> buffer).
      destruct (IH (i + 1) buffer1) as (buffer' & -> & Hlen' & Hout & Hin);
        [lia | lia | lia | subst buffer1; rewrite length_insert; lia | |].
      { intros j Hj. subst buffer1.
        destruct (Nat.eq_dec j (Z.to_nat found)) as [->|Hne].
        - exists i. rewrite Z2Nat.id by lia.
          apply list_lookup_insert_eq. lia.
        - destruct (Hown j Hj) as [v Hv]. exists v.
          rewrite list_lookup_insert_ne by lia. exact Hv. }
      exists buffer'. split; [reflexivity|].
      split; [subst buffer1; by rewrite Hlen', length_insert|]. split.
      { intros j Hj. rewrite Hout by exact Hj. subst buffer1.
        apply list_lookup_insert_ne. lia. }
      intros j Hj. destruct (Hin j Hj) as (v & Hv & Hcases).
      exists v. split; [exact Hv|].
      destruct Hcases as [[Hold Hnone]|(k & s' & rssi' & -> & Hk & Hf & Hlast)].
      * destruct (Nat.eq_dec j (Z.to_nat found)) as [->|Hne].
        -- right. exists 0%nat, s, rssi. subst buffer1.
           rewrite list_lookup_insert_eq in Hold by lia.
           assert (Z.of_nat (Z.to_nat found) = found) as Hid by lia.
           rewrite Hid in *. injection Hold as <-.
           split; [lia|]. split; [reflexivity|]. split; [exact Hfind|].
           intros [|k'] s' rssi' Hk' Hf'; [lia|].
           exfalso. exact (Hnone k' s' rssi' Hk' Hf').
        -- left. subst buffer1. rewrite list_lookup_insert_ne in Hold by lia.
           split; [exact Hold|].
           intros [|k'] s' rssi' Hk'.
           ++ injection Hk' as <- <-. rewrite Hfind. intros [= ->]. lia.
           ++ apply (Hnone k' s' rssi' Hk').
      * right. exists (S k), s', rssi'. split; [lia|]. split; [exact Hk|].
        split; [exact Hf|].
        intros [|k'] s'' rssi'' Hk' Hf'; [lia|].
        pose proof (Hlast k' s'' rssi'' Hk' Hf'). lia.
    + destruct Hrange as [->|Hrange]; [|lia].
      cbn [mbind option_bind].
      destruct (IH (i + 1) buffer) as (buffer' & -> & Hlen' & Hout & Hin);
        [lia | lia | lia | lia | exact Hown |].
      exists buffer'. split; [reflexivity|]. split; [exact Hlen'|].
      split; [exact Hout|].
      intros j Hj. destruct (Hin j Hj) as (v & Hv & Hcases).
      exists v. split; [exact Hv|].
      destruct Hcases as [[Hold Hnone]|(k & s' & rssi' & -> & Hk & Hf & Hlast)].
      * left. split; [exact Hold|].
        intros [|k'] s' rssi' Hk'.
        -- injection Hk' as <- <-. rewrite Hfind. intros [= Heq]. lia.
        -- apply (Hnone k' s' rssi' Hk').
      * right. exists (S k), s', rssi'. split; [lia|]. split; [exact Hk|].
        split; [exact Hf|].
        intros [|k'] s'' rssi'' Hk' Hf'; [lia|].
        pose proof (Hlast k' s'' rssi'' Hk' Hf'). lia.
Qed.

(** On a valid registry a search returns index [j] exactly for the SSID
    of entry [j]. *)
Lemma find_names_slot d j name s :
  valid_registry d = true -> ssids d !! j = Some name ->
  String.eqb name "" = false ->
  wifiman_findNetworkInList d (Some s) = Some (Z.of_nat j) <-> s = name.
Proof.
  intros Hv Hj Hname. apply valid_registry_spec in Hv as [H Hnd].
  pose proof (wf_data_range d H) as (Hl & Hc & _).
  assert (j < Z.to_nat (length d))%nat as Hjl.
  { rewrite <- (ssids_length d H). by apply lookup_lt_Some in Hj. }
  split.
  - destruct (String.eqb s "") eqn:Hs.
    + unfold wifiman_findNetworkInList. rewrite Hs.
      unfold UINT8_MINUS_1. intros [= Heq]. lia.
    + rewrite (find_index_of d s H Hs). intros [= Hidx].
      apply index_of_Some in Hidx as [Hk _]; [congruence | lia].
  - intros ->. rewrite (find_index_of d name H Hname). f_equal.
    apply index_of_intro; [exact Hj|].
    intros j' y Hj' Hlt ->.
    pose proof (NoDup_lookup _ _ _ _ Hnd Hj' Hj). lia.
Qed.

(** X20: [wifiman_getDisplayFilterBySaved] without a scan filter, on a
    complete scan.  With a valid registry of non-empty SSIDs and a buffer
    of [count] records that has room for every registry entry, the call
    succeeds; the record of every entry holds the entry's index and the
    position of the last scan result carrying the entry's SSID, or 255
    when no scan result carries it; the records beyond the registry are as
    before. *)
Theorem getDisplayFilterBySaved_marks_networks_in_range
    (r : Radio) (d : WM_SharedData) (buffer : list WM_WifiNetworkDisplay)
    (count ignored : Z) (results : list (string * Z)) :
  valid_registry d = true -> nonempty_ssids d = true ->
  scanState r = ScanDone results ->
  (List.length results <= 255)%nat ->
  0 < count <= 255 -> Z.of_nat (List.length buffer) = count ->
  length d <= count ->
  exists buffer',
    wifiman_getDisplayFilterBySaved r d buffer count None ignored
    = Some (WMRT_SUCCESS, buffer')
    /\ List.length buffer' = List.length buffer
    /\ (forall j, (Z.to_nat (length d) <= j)%nat ->
          buffer' !! j = buffer !! j)
    /\ forall j name, ssids d !! j = Some name ->
         exists v,
           buffer' !! j = Some (mkDisplay (Z.of_nat j) v)
           /\ ((v = 255 /\ name ∉ (fst <$> results))
               \/ exists k rssi,
                    v = Z.of_nat k /\ results !! k = Some (name, rssi)
                    /\ forall k' rssi',
                         results !! k' = Some (name, rssi') -> (k' <= k)%nat).
Proof.
  intros Hv Hne Hscan Hres Hcount Hbuf Hroom. pose proof Hv as Hv'.
  apply valid_registry_spec in Hv' as [H Hnd].
  pose proof (wf_data_range d H) as (Hl & Hc & _).
  unfold wifiman_getDisplayFilterBySaved, scanComplete, scanResults.
  rewrite Hscan.
  destruct (Z.gtb_spec count 0); [|lia]. cbn [negb].
  destruct (Z.ltb_spec count (length d)); [lia|].
  destruct (init_by_saved_spec (Z.to_nat (length d)) 0 buffer)
    as (buffer1 & -> & Hlen1 & Hin1 & Hout1); [lia | lia | lia |].
  cbn [mbind option_bind].
  assert (forall j name, ssids d !! j = Some name ->
            (j < Z.to_nat (length d))%nat /\ String.eqb name "" = false)
    as Hslot.
  { intros j name Hj. split.
    - rewrite <- (ssids_length d H). by apply lookup_lt_Some in Hj.
    - unfold nonempty_ssids in Hne. rewrite forallb_forall in Hne.
      apply list_elem_of_lookup_2, list_elem_of_In, Hne in Hj.
      by apply negb_true_iff in Hj. }
  destruct (Z.leb_spec (Z.of_nat (List.length results)) 0) as [Hz|Hnz].
  - destruct results; [|simpl in Hz; lia].
    exists buffer1. split; [reflexivity|]. split; [exact Hlen1|].
    split; [intros j Hj; apply Hout1; lia|].
    intros j name Hj. destruct (Hslot j name Hj) as [Hjl _].
    exists UINT8_MINUS_1. split; [apply Hin1; lia|].
    left. split; [reflexivity|]. simpl. apply not_elem_of_nil.
  - destruct (mark_from_scan_spec d H count results 0 buffer1)
      as (buffer' & -> & Hlen' & Hout' & Hin'); [lia | lia | lia | lia | |].
    { intros j Hj. exists UINT8_MINUS_1. apply Hin1. lia. }
    cbn [mbind option_bind].
    exists buffer'. split; [reflexivity|]. split; [congruence|].
    split; [intros j Hj; rewrite Hout' by exact Hj; apply Hout1; lia|].
    intros j name Hj. destruct (Hslot j name Hj) as [Hjl Hname].
    destruct (Hin' j Hjl) as (v & Hv' & Hcases). exists v.
    split; [exact Hv'|].
    destruct Hcases as [[Hold Hnone]|(k & s & rssi & -> & Hk & Hf & Hlast)].
    + left. rewrite Hin1 in Hold by lia. injection Hold as <-.
      split; [reflexivity|].
      intros Hel. apply list_elem_of_fmap in Hel as ([s rssi] & -> & Hel).
      apply list_elem_of_lookup_1 in Hel as [k Hk].
      apply (Hnone k s rssi Hk).
      by apply (find_names_slot d j s s Hv Hj Hname).
    + right. apply (find_names_slot d j name s Hv Hj Hname) in Hf as ->.
      exists k, rssi. split; [lia|]. split; [exact Hk|].
      intros k' rssi' Hk'. apply (Hlast k' name rssi' Hk').
      by apply (find_names_slot d j name name Hv Hj Hname).
Qed.

(** X21: a stale scan is renewed.  When [wifiman_connectToBestWifi] is
    called on a non-empty registry and the last scan is older than
    [WM_SCAN_MAX_AGE_MS], it reports ScanNotReady, queues a scan command
    due at once and stamps the scan time, leaving registry, status and
    connect mailbox alone; the next worker cycle, up to 2^31 - 1 ticks
    later, takes the command and, unless a scan is running, deletes the
    old results and starts a scan. *)
Theorem stale_scan_is_renewed
    (r r' : Radio) (dt : Z) (m m2 : Manager) (w w2 : Worker)
    (calls : list RadioCall) :
  length (_wifiman_data m) <> 0 ->
  (millis r - _wifiman_scanTime m) mod 2 ^ 32 > WM_SCAN_MAX_AGE_MS ->
  0 <= millis r < 2 ^ 32 -> 0 <= dt < 2 ^ 31 ->
  millis r' = (millis r + dt) mod 2 ^ 32 ->
  scanState r' <> ScanRunning ->
  exists m1,
    wifiman_connectToBestWifi r m = Some (WMRT_SCAN_NOT_READY, m1)
    /\ _wifiman_data m1 = _wifiman_data m
    /\ nextConnect m1 = nextConnect m
    /\ _wifiman_scanTime m1 = millis r
    /\ nextScan m1 = mkScan (millis r) false
    /\ (worker_cycle r' m1 w = Some (m2, w2, calls) ->
        List.filter is_scan_call calls = [WiFi_scanDelete; WiFi_scanNetworks]
        /\ scan_handled (nextScan m2) = true
        /\ scan_handled (scan w2) = true).
Proof.
  intros Hlen Hage Hnow Hdt Hclock Hrun.
  unfold wifiman_connectToBestWifi.
  destruct (Z.eqb_spec (length (_wifiman_data m)) 0); [contradiction|].
  destruct (Z.gtb_spec ((millis r - _wifiman_scanTime m) mod 2 ^ 32)
              WM_SCAN_MAX_AGE_MS); [|lia].
  eexists. split; [reflexivity|]. split; [reflexivity|].
  split; [reflexivity|]. split; [reflexivity|].
  split; [simpl; rewrite Z.add_0_r, Z.mod_small by lia; reflexivity|].
  set (m1 := with_scanTime _ _).
  unfold worker_cycle.
  pose proof (pull_connect_scan m1 w) as (Hns & Hwn & Hsw).
  destruct (pull_connect m1 w) as [m1' w1]. simpl in Hns, Hwn, Hsw.
  unfold pull_scan. rewrite Hns. cbn [nextScan m1 with_scanTime _wifiman_doScan
    with_nextScan scan_handled negb scan_execTime].
  set (w3 := mkWorker _ _ _).
  destruct (exec_connect r' _ w3) as [[w4 calls1]|] eqn:Hec; [|discriminate].
  cbn [mbind option_bind].
  apply exec_connect_scan in Hec as (Hc1 & Hs4 & Hn4). simpl in Hs4, Hn4.
  unfold exec_scan. rewrite Hs4. cbn [scan_handled scan_execTime negb orb].
  rewrite Hclock, (deadline_passed (millis r) dt Hnow Hdt). cbn [andb].
  assert ((scanComplete r' =? -1) = false) as ->.
  { unfold scanComplete. destruct (scanState r'); [reflexivity | congruence|].
    apply Z.eqb_neq. lia. }
  intros [= <- <- <-]. rewrite List.filter_app, Hc1. auto.
Qed.

(** ** Instances of the further properties *)

Lemma findNetworkInList_first_match_instance :
  wf_data sample_data = true
  /\ exists index,
       wifiman_findNetworkInList sample_data (Some "home"%string) = Some index
       /\ (index = 255 \/ 0 <= index < length sample_data).
Proof.
  split; [reflexivity|].
  destruct (findNetworkInList_first_match sample_data "home")
    as (index & Hfind & Hcases); [reflexivity | reflexivity |].
  exists index. split; [exact Hfind|].
  destruct Hcases as [[Hi _]|[Hi _]]; auto.
Defined.

Lemma countUsableNetworks_instance :
  wf_data registry_AB = true
  /\ wifiman_countUsableNetworks registry_AB = Some 2.
Proof.
  split; [reflexivity|].
  exact (proj1 (countUsableNetworks_counts_usable_entries registry_AB
                  eq_refl)).
Defined.

Lemma addOrUpdate_then_find_instance :
  wf_data sample_data = true
  /\ exists i u d',
       wifiman_addOrUpdateNetwork sample_data (Some "work"%string) None
       = Some (i, u, d')
       /\ wf_data d' = true.
Proof.
  split; [reflexivity|].
  destruct (addOrUpdate_then_find sample_data "work" None)
    as (i & u & d' & Hadd & Hwf & _); [reflexivity | reflexivity |].
  exists i, u, d'. split; [exact Hadd | exact Hwf].
Defined.

Lemma deleteNetwork_instance :
  wf_data registry_AB = true
  /\ exists d',
       wifiman_deleteNetwork registry_AB 0 = Some (0, d')
       /\ entries d' = [mkNetwork "B" None NETWORK_STATE_UNKNOWN].
Proof.
  split; [reflexivity|].
  destruct (deleteNetwork_keeps_order_and_target registry_AB 0)
    as (d' & Hdel & _ & Hent & _); [reflexivity | simpl; lia |].
  exists d'. split; [exact Hdel | exact Hent].
Defined.

Lemma deleteNetworkByName_then_find_instance :
  valid_registry registry_AB = true
  /\ exists i d',
       wifiman_deleteNetworkByName registry_AB (Some "A"%string) = Some (i, d')
       /\ wifiman_findNetworkInList d' (Some "A"%string) = Some 255.
Proof.
  split; [vm_compute; reflexivity|].
  destruct (deleteNetworkByName_then_find registry_AB "A")
    as (i & d' & Hdel & _ & _ & _ & Hfind & _);
    [vm_compute; reflexivity | reflexivity
     | apply (bool_decide_unpack _); vm_compute; exact I |].
  exists i, d'. split; [exact Hdel | exact Hfind].
Defined.

Lemma create_instance :
  exists d,
    wifiman_create None 2 0 0 = Some (Some d) /\ valid_registry d = true.
Proof.
  destruct (create_gives_valid_registry 2 0 0 ltac:(lia))
    as (_ & _ & (d & Hcreate & Hvalid & _) & _).
  exists d. split; [exact Hcreate | exact Hvalid].
Defined.

Lemma readFromEEPROM_instance :
  wf_data sample_data = true
  /\ exists n d',
       wifiman_readFromEEPROM ∅ sample_data 0 255 = Some (n, d')
       /\ wf_data d' = true.
Proof.
  split; [reflexivity|].
  destruct (readFromEEPROM_reads_a_prefix ∅ sample_data 0 255)
    as (n & d' & Hread & Hwf & _);
    [reflexivity | reflexivity | reflexivity | simpl; lia |].
  exists n, d'. split; [exact Hread | exact Hwf].
Defined.

Lemma registry_survives_restart_instance :
  wf_data sample_data = true
  /\ exists pref' fresh d',
       wifiman_saveToEEPROM ∅ sample_data 0 255 = Some pref'
       /\ wifiman_create None 2 0 0 = Some (Some fresh)
       /\ wifiman_readFromEEPROM pref' fresh 0 255 = Some (1, d')
       /\ entries d' = [home_network].
Proof.
  split; [reflexivity|].
  destruct (registry_survives_restart ∅ sample_data 0 0)
    as (pref' & fresh & d' & Hsave & Hcreate & Hread & _ & _ & _ & Hent);
    [reflexivity | simpl; lia | intros; apply lookup_empty |].
  exists pref', fresh, d'. split; [exact Hsave|]. split; [exact Hcreate|].
  split; [exact Hread | exact Hent].
Defined.

Lemma saveToEEPROM_twice_instance :
  wf_data sample_data = true
  /\ exists pref',
       wifiman_saveToEEPROM ∅ sample_data 0 255 = Some pref'
       /\ wifiman_saveToEEPROM pref' sample_data 0 255 = Some pref'.
Proof.
  split; [reflexivity|].
  destruct (wifiman_saveToEEPROM ∅ sample_data 0 255) as [pref'|] eqn:Hsave;
    [|vm_compute in Hsave; discriminate].
  exists pref'. split; [reflexivity|].
  apply (saveToEEPROM_twice ∅ pref' sample_data 0 255);
    [reflexivity | reflexivity | reflexivity | exact Hsave].
Defined.

Lemma connectedEvent_instance :
  wf_manager sample_manager = true
  /\ exists m',
       _wifiman_wifiConnectedEvent "home" sample_manager = Some m'
       /\ nextConnect m' = nextConnect sample_manager
       /\ nextScan m' = nextScan sample_manager.
Proof.
  split; [reflexivity|].
  destruct (connectedEvent_marks_the_network "home" sample_manager eq_refl)
    as (index & m' & _ & Hev & Hnc & Hns & _).
  exists m'. split; [exact Hev|]. split; [exact Hnc | exact Hns].
Defined.

Lemma disconnectedEvent_instance :
  wf_manager sample_manager = true
  /\ _wifiman_autoConnect sample_manager = false
  /\ exists index m',
       _wifiman_wifiDisconnectedEvent sample_radio "home" 2 sample_manager
       = Some m'
       /\ status (_wifiman_data m') = mkStatus index CONNECTION_FAILED 2
       /\ length (_wifiman_data m') = 1.
Proof.
  split; [reflexivity|]. split; [reflexivity|].
  destruct (disconnectedEvent_marks_failed_after_last_retry sample_radio
              "home" 2 sample_manager eq_refl eq_refl)
    as (index & m' & _ & Hev & Hst & Hlen & _).
  exists index, m'. split; [exact Hev|]. split; [exact Hst | exact Hlen].
Defined.

Lemma connectToBestWifi_registry_instance :
  wf_data registry_AB = true
  /\ exists rc m',
       wifiman_connectToBestWifi sample_radio (manager_on registry_AB)
       = Some (rc, m')
       /\ ssids (_wifiman_data m') = ["A"%string; "B"%string].
Proof.
  split; [reflexivity|].
  destruct (connectToBestWifi_registry_effect sample_radio
              (manager_on registry_AB) eq_refl)
    as (rc & m' & Hcall & _ & Hssids & _).
  exists rc, m'. split; [exact Hcall | exact Hssids].
Defined.

Lemma scanDoneEvent_instance :
  wf_manager (manager_on registry_AB) = true
  /\ exists m',
       _wifiman_wifiScanDoneEvent (mkRadio 5000 false (ScanDone scan_AB))
         (manager_on registry_AB) = Some m'
       /\ _wifiman_scanTime m' = 5000
       /\ nextScan m' = nextScan (manager_on registry_AB).
Proof.
  split; [reflexivity|].
  destruct (scanDoneEvent_connects_or_resumes_scanning
              (mkRadio 5000 false (ScanDone scan_AB)) (manager_on registry_AB)
              scan_AB eq_refl eq_refl)
    as (m' & Hev & Htime & Hns & _).
  exists m'. split; [exact Hev|]. split; [exact Htime | exact Hns].
Defined.

Lemma manual_connect_instance :
  wf_manager sample_manager = true
  /\ exists m1 m2 w2 scan_calls,
       wifiman_connectToNetwork sample_radio 0 sample_manager
       = Some (WMRT_SUCCESS, m1)
       /\ worker_cycle (mkRadio 5010 false ScanNotStarted) m1
            worker_with_manual_command
          = Some (m2, w2,
                  [WiFi_disconnect; WiFi_begin "home" (Some "secret"%string)]
                    ++ scan_calls).
Proof.
  split; [reflexivity|].
  destruct (manual_connect_reaches_radio sample_radio
              (mkRadio 5010 false ScanNotStarted) 0 10 sample_manager
              worker_with_manual_command)
    as (e & m1 & m2 & w2 & scan_calls & He & Hcall & Hcycle & _);
    [reflexivity | simpl; lia | simpl; lia | lia | reflexivity |].
  injection He as <-.
  exists m1, m2, w2, scan_calls. split; [exact Hcall | exact Hcycle].
Defined.

Lemma pending_connect_instance :
  handled (nextConnect sample_manager) = true
  /\ handled (connect worker_with_manual_command) = false
  /\ exists m' w' calls,
       worker_cycles [mkRadio 5000 false ScanNotStarted;
                      mkRadio 9500 false ScanNotStarted;
                      mkRadio 9600 false ScanNotStarted]
         sample_manager worker_with_manual_command
       = Some (m', w', calls)
       /\ List.filter is_connect_call calls
          = [WiFi_disconnect; WiFi_begin "home" (Some "secret"%string)].
Proof.
  split; [reflexivity|]. split; [reflexivity|].
  destruct (pending_connect_runs_exactly_once
              [mkRadio 5000 false ScanNotStarted;
               mkRadio 9500 false ScanNotStarted;
               mkRadio 9600 false ScanNotStarted]
              sample_manager worker_with_manual_command home_network)
    as (m' & w' & calls & Hrun & Hcalls & _);
    [reflexivity | reflexivity | reflexivity |].
  exists m', w', calls. split; [exact Hrun | exact Hcalls].
Defined.

Lemma worker_scan_calls_instance :
  exists m' w' calls,
    worker_cycle (mkRadio 5000 false ScanRunning) sample_manager
      worker_with_manual_command = Some (m', w', calls)
    /\ List.filter is_scan_call calls = [].
Proof.
  destruct (worker_cycle (mkRadio 5000 false ScanRunning) sample_manager
              worker_with_manual_command) as [[[m' w'] calls]|] eqn:Hcycle;
    [|vm_compute in Hcycle; discriminate].
  exists m', w', calls. split; [reflexivity|].
  exact (proj1 (proj2 (worker_scan_calls _ _ _ _ _ _ Hcycle)) eq_refl).
Defined.

Lemma getDisplayFilterByScan_instance :
  wf_data registry_AB = true
  /\ exists buffer',
       wifiman_getDisplayFilterByScan (mkRadio 5000 false (ScanDone scan_AB))
         registry_AB [mkDisplay 9 9; mkDisplay 9 9] 2
       = Some (WMRT_SUCCESS, buffer')
       /\ List.length buffer' = 2%nat.
Proof.
  split; [reflexivity|].
  destruct (getDisplayFilterByScan_fills_one_record_per_result
              (mkRadio 5000 false (ScanDone scan_AB)) registry_AB
              [mkDisplay 9 9; mkDisplay 9 9] 2 scan_AB)
    as (buffer' & Hcall & Hlen & _);
    [reflexivity | reflexivity | discriminate | reflexivity | lia
     | simpl; lia |].
  exists buffer'. split; [exact Hcall | exact Hlen].
Defined.

Lemma getDisplayFilterBySaved_with_filter_instance :
  wifiman_getDisplayFilterByScan (mkRadio 5000 false (ScanDone scan_AB))
    registry_AB [mkDisplay 9 9; mkDisplay 9 9] 2
  = Some (WMRT_SUCCESS, [mkDisplay 0 0; mkDisplay 1 1])
  /\ wifiman_getDisplayFilterBySaved (mkRadio 5000 false (ScanDone scan_AB))
       registry_AB [mkDisplay 9 9; mkDisplay 9 9] 2
       (Some [mkDisplay 0 0; mkDisplay 1 1]) 2
     = wifiman_getDisplayFilterBySaved (mkRadio 5000 false (ScanDone scan_AB))
         registry_AB [mkDisplay 9 9; mkDisplay 9 9] 2 None 0.
Proof.
  split; [reflexivity|].
  apply (getDisplayFilterBySaved_with_filter_from_scan
           (mkRadio 5000 false (ScanDone scan_AB)) registry_AB
           [mkDisplay 9 9; mkDisplay 9 9] [mkDisplay 0 0; mkDisplay 1 1]
           [mkDisplay 9 9; mkDisplay 9 9] 2 2 0 scan_AB);
    [reflexivity | reflexivity | reflexivity | lia | reflexivity].
Defined.

Lemma getDisplayFilterBySaved_instance :
  valid_registry registry_AB = true
  /\ nonempty_ssids registry_AB = true
  /\ exists buffer',
       wifiman_getDisplayFilterBySaved (mkRadio 5000 false (ScanDone scan_AB))
         registry_AB [mkDisplay 9 9; mkDisplay 9 9] 2 None 0
       = Some (WMRT_SUCCESS, buffer')
       /\ List.length buffer' = 2%nat.
Proof.
  split; [vm_compute; reflexivity|]. split; [reflexivity|].
  destruct (getDisplayFilterBySaved_marks_networks_in_range
              (mkRadio 5000 false (ScanDone scan_AB)) registry_AB
              [mkDisplay 9 9; mkDisplay 9 9] 2 0 scan_AB)
    as (buffer' & Hcall & Hlen & _);
    [vm_compute; reflexivity | reflexivity | reflexivity | simpl; lia | lia
     | reflexivity | simpl; lia |].
  exists buffer'. split; [exact Hcall | exact Hlen].
Defined.

Lemma stale_scan_instance :
  exists m1,
    wifiman_connectToBestWifi (mkRadio 61000 false ScanNotStarted)
      (manager_on registry_AB) = Some (WMRT_SCAN_NOT_READY, m1)
    /\ nextScan m1 = mkScan 61000 false.
Proof.
  destruct (stale_scan_is_renewed (mkRadio 61000 false ScanNotStarted)
              (mkRadio 61005 false ScanNotStarted) 5
              (manager_on registry_AB) (manager_on registry_AB)
              worker_with_manual_command worker_with_manual_command [])
    as (m1 & Hcall & _ & _ & _ & Hscan & _);
    [discriminate | reflexivity | simpl; lia | lia | reflexivity
     | discriminate |].
  exists m1. split; [exact Hcall | exact Hscan].
Defined.
